(** * The dual-memory rule store of ECHO-fact-check

    A shallow embedding of the rule store and its update protocol:
    - [schemas/playbook.py]      : [Rule], its field validators, [Playbook], [DeltaUpdate];
    - [utils/playbook_manager.py]: [PlaybookManager] (load, save with history backup,
                                    [apply_delta_update], the read views);
    - [tools/playbook_tool.py]   : [search_rule_by_id];
    - [api/services/playbook_service.py]: the status and the rule listings of
                                    [PlaybookService];
    - [agents/curator.py]        : what [curate] does to the answer of the language
                                    model: the fence it removes, the fields it
                                    supplements, the memory it assigns;
    - [utils/playbook_validator.py]: [PlaybookValidator] and the loop of [main].

    Python values that reach the code untyped (the arguments of the
    [mode='before'] validators, the parsed JSON the validator repairs) are
    values of [pyval]; exceptions are values of [exception]; code that reads and
    writes files runs in a state-and-exception monad over the files it touches.
    A JSON file is identified with the value it parses to: [json.load] reads
    back what [json.dump] wrote. Strings are byte strings: the Python text is
    taken in its UTF-8 encoding, and the character classes of the builtins are
    modelled on ASCII. Integers are unbounded; the limit of the interpreter on
    the digits of an integer read from or printed to text is modelled where
    the code itself converts one ([int()], the f-string of the version), not
    inside the JSON encoder and decoder. A datetime
    is naive or carries a fixed offset from UTC. The history directory is a
    flat directory of files on a file system that bounds the length of a
    name. What the code prints is not modelled. *)

From Stdlib Require Import ZArith String Ascii List Bool Lia.
From Stdlib Require Import SpecFloat DecimalString DecimalZ DecimalN DecimalPos DecimalFacts.
From stdpp Require Import base option gmap strings list.

Local Open Scope string_scope.
Local Open Scope list_scope.
Local Open Scope Z_scope.

(** ** Python values and exceptions *)

(** [OSError] stands for the errors the file system answers a path with when a
    file cannot be created under it ([FileNotFoundError] and
    [NotADirectoryError] for a directory that is missing on the way,
    [OSError] itself for a name that is too long): which of them it is depends
    on directories and limits the model does not hold. [FileNotFoundError] is
    the error of opening a memory file that does not exist. *)
Inductive exception :=
  | ValueError
  | TypeError
  | AttributeError
  | OverflowError
  | FileNotFoundError
  | OSError
  | ValidationError.

(** The outcome of a call: a value, or a raised exception. *)
Inductive exc (A : Type) :=
  | Ok (a : A)
  | Raise (e : exception).
Arguments Ok {A} a.
Arguments Raise {A} e.

Definition exc_bind {A B} (m : exc A) (k : A -> exc B) : exc B :=
  match m with
  | Ok a => k a
  | Raise e => Raise e
  end.

Notation "'try!' x <- m ; k" := (exc_bind m (fun x => k))
  (at level 10, x name, m at level 100, k at level 200).

(** Python floats are IEEE 754 binary64 numbers. *)
Definition float := spec_float.
Definition prec64 : Z := 53.
Definition emax64 : Z := 1024.

(** The values JSON and the language model's output can put in a field. *)
#[warnings="-register-all"]
Inductive pyval :=
  | PNone
  | PBool (b : bool)
  | PInt (z : Z)
  | PFloat (f : float)
  | PStr (s : string)
  | PList (l : list pyval)
  | PDict (d : list (string * pyval)).

(** ** The builtins the code calls *)

Module Py.

(** [isinstance(v, str)] and [isinstance(v, int)] ([bool] is a subclass of [int]). *)
Definition is_str (v : pyval) : bool :=
  match v with PStr _ => true | _ => false end.

Definition is_int (v : pyval) : bool :=
  match v with PInt _ | PBool _ => true | _ => false end.

(** Truth value testing. *)
Definition truthy (v : pyval) : bool :=
  match v with
  | PNone => false
  | PBool b => b
  | PInt z => negb (Z.eqb z 0)
  | PFloat f => match f with S754_zero _ => false | _ => true end
  | PStr s => negb (String.eqb s "")
  | PList l => match l with [] => false | _ => true end
  | PDict d => match d with [] => false | _ => true end
  end.

(** [v in S] for a set [S] of strings: only an equal string is a member, and a
    list or a dict, which has no hash, raises [TypeError]. *)
Definition in_str_set (v : pyval) (S : list string) : exc bool :=
  match v with
  | PStr s => Ok (existsb (String.eqb s) S)
  | PList _ | PDict _ => Raise TypeError
  | _ => Ok false
  end.

(** [v in L] for a list [L] of strings: [==] against each element; a string
    equals only a string. *)
Definition in_str_list (v : pyval) (L : list string) : bool :=
  match v with
  | PStr s => existsb (String.eqb s) L
  | _ => false
  end.

(** *** Dicts with string keys, in insertion order *)

(** [d.get(k)] is [None] for a missing key. *)
Fixpoint dict_lookup (d : list (string * pyval)) (k : string) : option pyval :=
  match d with
  | [] => None
  | (k', v) :: d' => if String.eqb k' k then Some v else dict_lookup d' k
  end.

Definition dict_get (d : list (string * pyval)) (k : string) : pyval :=
  match dict_lookup d k with Some v => v | None => PNone end.

(** [d[k] = v]: the value is replaced where the key is, a new key goes last. *)
Fixpoint dict_set (d : list (string * pyval)) (k : string) (v : pyval)
  : list (string * pyval) :=
  match d with
  | [] => [(k, v)]
  | (k', v') :: d' =>
      if String.eqb k' k then (k', v) :: d' else (k', v') :: dict_set d' k v
  end.

(** *** Strings *)

Definition is_upper (c : ascii) : bool :=
  (65 <=? nat_of_ascii c)%nat && (nat_of_ascii c <=? 90)%nat.

Definition lower_char (c : ascii) : ascii :=
  if is_upper c then ascii_of_nat (nat_of_ascii c + 32) else c.

(** [s.lower()] *)
Fixpoint lower (s : string) : string :=
  match s with
  | EmptyString => EmptyString
  | String c s' => String (lower_char c) (lower s')
  end.

Fixpoint startswith (p s : string) : bool :=
  match p, s with
  | EmptyString, _ => true
  | String a p', String b s' => Ascii.eqb a b && startswith p' s'
  | String _ _, EmptyString => false
  end.

(** [needle in hay] *)
Fixpoint contains (needle hay : string) : bool :=
  startswith needle hay ||
  match hay with
  | EmptyString => false
  | String _ hay' => contains needle hay'
  end.

(** [s.replace(c, '')] for a one-character [c]. *)
Fixpoint remove_char (c : ascii) (s : string) : string :=
  match s with
  | EmptyString => EmptyString
  | String a s' =>
      if Ascii.eqb a c then remove_char c s' else String a (remove_char c s')
  end.

(** [s.split(c)] for a one-character separator: never the empty list. *)
Fixpoint split (c : ascii) (s : string) : list string :=
  match s with
  | EmptyString => [EmptyString]
  | String a s' =>
      if Ascii.eqb a c then EmptyString :: split c s'
      else match split c s' with
           | [] => [String a EmptyString]
           | w :: ws => String a w :: ws
           end
  end.

(** The whitespace the numeric constructors skip around a literal: the space
    and the five control characters from tab to carriage return. *)
Definition is_space (c : ascii) : bool :=
  let n := nat_of_ascii c in
  ((9 <=? n)%nat && (n <=? 13)%nat) || (n =? 32)%nat.

Fixpoint lstrip (s : string) : string :=
  match s with
  | String c s' => if is_space c then lstrip s' else s
  | EmptyString => EmptyString
  end.

Fixpoint rstrip (s : string) : string :=
  match s with
  | EmptyString => EmptyString
  | String c s' =>
      match rstrip s' with
      | EmptyString => if is_space c then EmptyString else String c EmptyString
      | r => String c r
      end
  end.

Definition strip (s : string) : string := rstrip (lstrip s).

(** *** Integers from and to text *)

Definition is_digit (c : ascii) : bool :=
  (48 <=? nat_of_ascii c)%nat && (nat_of_ascii c <=? 57)%nat.

Definition digit_val (c : ascii) : Z := Z.of_nat (nat_of_ascii c) - 48.

(** The digits of a [digitpart]: [digit (["_"] digit)*]. [digits_from acc n s]
    is entered after a digit; it returns the value, the number of digits read
    and what follows the digit part. *)
Fixpoint digits_from (acc : Z) (n : nat) (s : string) : Z * nat * string :=
  match s with
  | String c s' =>
      if is_digit c then digits_from (acc * 10 + digit_val c) (S n) s'
      else if Ascii.eqb c "_" then
        match s' with
        | String d s'' =>
            if is_digit d then digits_from (acc * 10 + digit_val d) (S n) s''
            else (acc, n, s)
        | EmptyString => (acc, n, s)
        end
      else (acc, n, s)
  | EmptyString => (acc, n, s)
  end.

Definition digitpart (s : string) : option (Z * nat * string) :=
  match s with
  | String c s' => if is_digit c then Some (digits_from (digit_val c) 1 s') else None
  | EmptyString => None
  end.

(** An optional sign: [true] for a minus. *)
Definition sign (s : string) : bool * string :=
  match s with
  | String "-" s' => (true, s')
  | String "+" s' => (false, s')
  | _ => (false, s)
  end.

(** The interpreter's limit on the digits of an integer converted from or to
    decimal text ([sys.get_int_max_str_digits()], at its default). *)
Definition int_max_str_digits : nat := 4300.

(** [int(s)] for a string, base ten: surrounding whitespace, an optional sign,
    one digit part and nothing else, of [int_max_str_digits] digits at most
    (leading zeros count, underscores and the sign do not). [None] stands for
    [ValueError]. *)
Definition int_of_str (s : string) : option Z :=
  let '(neg, body) := sign (strip s) in
  match digitpart body with
  | Some (v, n, EmptyString) =>
      if (n <=? int_max_str_digits)%nat then Some (if neg then - v else v) else None
  | _ => None
  end.

(** The decimal text of an integer: a minus for a negative one, then its
    digits. *)
Definition str_of_int (z : Z) : string := NilZero.string_of_int (Z.to_int z).

(** The number of digits of that text. *)
Definition digits_of_int (z : Z) : nat :=
  (String.length (str_of_int z) - (if (z <? 0)%Z then 1 else 0))%nat.

(** [str(z)], which is also what an f-string prints for an integer:
    [ValueError] for more than [int_max_str_digits] digits. *)
Definition format_int (z : Z) : exc string :=
  if (digits_of_int z <=? int_max_str_digits)%nat then Ok (str_of_int z)
  else Raise ValueError.

(** *** Floats *)

Definition float_zero : float := S754_zero false.
Definition float_one : float := S754_finite false 4503599627370496 (-52).
Definition float_half : float := S754_finite false 4503599627370496 (-53).

(** The comparisons of floats: every comparison with a NaN is false. *)
Definition flt (x y : float) : bool := SFltb x y.
Definition fle (x y : float) : bool := SFleb x y.

(** [float(z)] for an integer: the nearest binary64 number, ties to even;
    [OverflowError] when it is out of range. *)
Definition float_of_int (z : Z) : exc float :=
  match binary_normalize prec64 emax64 z 0 false with
  | S754_infinity _ => Raise OverflowError
  | f => Ok f
  end.

(** [int(f)] for a float: truncation towards zero. *)
Definition int_of_float (f : float) : exc Z :=
  match f with
  | S754_zero _ => Ok 0
  | S754_infinity _ => Raise OverflowError
  | S754_nan => Raise ValueError
  | S754_finite s m e =>
      let a := if 0 <=? e then Zpos m * 2 ^ e else Zpos m / 2 ^ (- e) in
      Ok (if s then - a else a)
  end.

(** The binary64 number nearest to [m * 10 ^ e10], for [0 < m]. A negative
    exponent is a division: the quotient is computed with 64 bits or more and a
    sticky last bit, so that rounding it once rounds the exact value. *)
Definition float_of_decimal (neg : bool) (m e10 : Z) : float :=
  let mag :=
    if 0 <=? e10 then binary_normalize prec64 emax64 (m * 10 ^ e10) 0 false
    else
      let d := 10 ^ (- e10) in
      let s := Z.log2_up d + 64 in
      let q := (m * 2 ^ s) / d in
      let r := (m * 2 ^ s) mod d in
      binary_normalize prec64 emax64 (2 * q + (if r =? 0 then 0 else 1)) (- (s + 1)) false
  in if neg then SFopp mag else mag.

(** The exponent part of a float literal, after the mantissa [m] with [fc]
    fraction digits: the decimal mantissa and exponent of the number. *)
Definition float_exponent (m : Z) (fc : nat) (s : string) : option (Z * Z) :=
  match s with
  | EmptyString => Some (m, - Z.of_nat fc)
  | String c s' =>
      if Ascii.eqb c "e" || Ascii.eqb c "E" then
        let '(eneg, r) := sign s' in
        match digitpart r with
        | Some (ev, _, EmptyString) =>
            Some (m, (if eneg then - ev else ev) - Z.of_nat fc)
        | _ => None
        end
      else None
  end.

(** [number [exponent]] with
    [number ::= [digitpart] "." digitpart | digitpart ["."]]. *)
Definition float_number (s : string) : option (Z * Z) :=
  match digitpart s with
  | Some (iv, _, String "." s') =>
      match digitpart s' with
      | Some (fv, fc, s'') => float_exponent (iv * 10 ^ Z.of_nat fc + fv) fc s''
      | None => float_exponent iv 0 s'
      end
  | Some (iv, _, s') => float_exponent iv 0 s'
  | None =>
      match s with
      | String "." s' =>
          match digitpart s' with
          | Some (fv, fc, s'') => float_exponent fv fc s''
          | None => None
          end
      | _ => None
      end
  end.

(** [float(s)] for a string: surrounding whitespace, an optional sign, then
    [inf], [infinity] or [nan] in any case, or a decimal number. [None] stands
    for [ValueError]. *)
Definition float_of_str (s : string) : option float :=
  let '(neg, body) := sign (strip s) in
  let word := lower body in
  if String.eqb word "inf" || String.eqb word "infinity" then Some (S754_infinity neg)
  else if String.eqb word "nan" then Some S754_nan
  else
    match float_number body with
    | Some (m, e10) =>
        Some (if m =? 0 then S754_zero neg else float_of_decimal neg m e10)
    | None => None
    end.

(** *** The numeric constructors on any value *)

(** [int(v)] *)
Definition int (v : pyval) : exc Z :=
  match v with
  | PNone => Raise TypeError
  | PBool b => Ok (if b then 1 else 0)
  | PInt z => Ok z
  | PFloat f => int_of_float f
  | PStr s => match int_of_str s with Some z => Ok z | None => Raise ValueError end
  | PList _ | PDict _ => Raise TypeError
  end.

(** [float(v)] *)
Definition float (v : pyval) : exc float :=
  match v with
  | PNone => Raise TypeError
  | PBool b => Ok (if b then float_one else float_zero)
  | PInt z => float_of_int z
  | PFloat f => Ok f
  | PStr s => match float_of_str s with Some f => Ok f | None => Raise ValueError end
  | PList _ | PDict _ => Raise TypeError
  end.

(** *** Addition *)

(** [v + k] for an integer [k]: integer addition ([bool] counts as an
    integer), float addition after the conversion of [k]; nothing else can be
    added to an integer. *)
Definition add_int (v : pyval) (k : Z) : exc pyval :=
  match v with
  | PInt z => Ok (PInt (z + k))
  | PBool b => Ok (PInt ((if b then 1 else 0) + k))
  | PFloat f => try! g <- float_of_int k; Ok (PFloat (SFadd prec64 emax64 f g))
  | _ => Raise TypeError
  end.

(** *** Substrings *)

(** [s[n:]] *)
Fixpoint drop (n : nat) (s : string) : string :=
  match n, s with
  | S n', String _ s' => drop n' s'
  | _, _ => s
  end.

(** [s.partition(sep)] when [sep] occurs in [s]: what precedes and what
    follows its first occurrence. *)
Fixpoint partition (sep s : string) : option (string * string) :=
  if startswith sep s then Some (EmptyString, drop (String.length sep) s)
  else match s with
       | EmptyString => None
       | String c s' =>
           match partition sep s' with
           | Some (before, after) => Some (String c before, after)
           | None => None
           end
       end.

(** [s.split(sep)] for a separator that is not empty: the occurrences are
    taken from left to right and do not overlap. Each one consumes a
    character at least, so the length of [s] bounds their number. *)
Fixpoint split_at (fuel : nat) (sep s : string) : list string :=
  match fuel with
  | O => [s]
  | S fuel' =>
      match partition sep s with
      | Some (before, after) => before :: split_at fuel' sep after
      | None => [s]
      end
  end.

Definition split_str (sep s : string) : list string :=
  split_at (String.length s) sep s.

(** [c.isspace()] for an ASCII character, and [s.strip()]. *)
Definition isspace (c : ascii) : bool :=
  let n := nat_of_ascii c in
  ((9 <=? n)%nat && (n <=? 13)%nat) || ((28 <=? n)%nat && (n <=? 32)%nat).

Fixpoint str_lstrip (s : string) : string :=
  match s with
  | String c s' => if isspace c then str_lstrip s' else s
  | EmptyString => EmptyString
  end.

Fixpoint str_rstrip (s : string) : string :=
  match s with
  | EmptyString => EmptyString
  | String c s' =>
      match str_rstrip s' with
      | EmptyString => if isspace c then EmptyString else String c EmptyString
      | r => String c r
      end
  end.

Definition str_strip (s : string) : string := str_rstrip (str_lstrip s).

End Py.

(** ** schemas/playbook.py *)

(** [Literal["detection", "trust"]] *)
Inductive Memory := detection | trust.

#[global] Instance Memory_eq_dec : EqDecision Memory.
Proof. solve_decision. Defined.

Definition memory_name (m : Memory) : string :=
  match m with detection => "detection" | trust => "trust" end.

Definition Memory_eqb (a b : Memory) : bool :=
  match a, b with
  | detection, detection | trust, trust => true
  | _, _ => false
  end.

(** A [datetime] without [tzinfo], as [datetime.now()] returns it. *)
Record naive_datetime := mkDatetime {
  year : nat; month : nat; day : nat;
  hour : nat; minute : nat; second : nat; microsecond : nat }.

(** A [datetime]: its fields and its [tzinfo], which is absent (a naive
    datetime) or a fixed offset from UTC, in seconds (an aware datetime, as
    pydantic parses it from a timestamp that ends in "Z" or in an offset). *)
Record datetime := with_tzinfo {
  fields : naive_datetime;
  tzinfo : option Z }.

Definition naive (t : naive_datetime) : datetime := with_tzinfo t None.
Coercion naive : naive_datetime >-> datetime.

(** [class Rule(BaseModel)]. A field that pydantic validates by its annotation
    alone holds a value of that type. The three fields behind a
    [mode='before'] validator hold any value: the validator is what turns the
    stored or assigned value into one of the declared type. *)
Record Rule := mkRule {
  rule_id : string;
  type : pyval;
  condition : string;
  action : string;
  confidence : pyval;
  evidence_count : pyval;
  created_from : option string;
  created_at : datetime;
  parent_rule : option string;
  description : string;
  active : bool;
  memory_type : option Memory }.

Definition Rule_set_rule_id (v : string) (r : Rule) : Rule :=
  mkRule v (type r) (condition r) (action r) (confidence r) (evidence_count r)
    (created_from r) (created_at r) (parent_rule r) (description r) (active r) (memory_type r).
Definition Rule_set_type (v : pyval) (r : Rule) : Rule :=
  mkRule (rule_id r) v (condition r) (action r) (confidence r) (evidence_count r)
    (created_from r) (created_at r) (parent_rule r) (description r) (active r) (memory_type r).
Definition Rule_set_condition (v : string) (r : Rule) : Rule :=
  mkRule (rule_id r) (type r) v (action r) (confidence r) (evidence_count r)
    (created_from r) (created_at r) (parent_rule r) (description r) (active r) (memory_type r).
Definition Rule_set_action (v : string) (r : Rule) : Rule :=
  mkRule (rule_id r) (type r) (condition r) v (confidence r) (evidence_count r)
    (created_from r) (created_at r) (parent_rule r) (description r) (active r) (memory_type r).
Definition Rule_set_confidence (v : pyval) (r : Rule) : Rule :=
  mkRule (rule_id r) (type r) (condition r) (action r) v (evidence_count r)
    (created_from r) (created_at r) (parent_rule r) (description r) (active r) (memory_type r).
Definition Rule_set_evidence_count (v : pyval) (r : Rule) : Rule :=
  mkRule (rule_id r) (type r) (condition r) (action r) (confidence r) v
    (created_from r) (created_at r) (parent_rule r) (description r) (active r) (memory_type r).
Definition Rule_set_created_from (v : option string) (r : Rule) : Rule :=
  mkRule (rule_id r) (type r) (condition r) (action r) (confidence r) (evidence_count r)
    v (created_at r) (parent_rule r) (description r) (active r) (memory_type r).
Definition Rule_set_created_at (v : datetime) (r : Rule) : Rule :=
  mkRule (rule_id r) (type r) (condition r) (action r) (confidence r) (evidence_count r)
    (created_from r) v (parent_rule r) (description r) (active r) (memory_type r).
Definition Rule_set_parent_rule (v : option string) (r : Rule) : Rule :=
  mkRule (rule_id r) (type r) (condition r) (action r) (confidence r) (evidence_count r)
    (created_from r) (created_at r) v (description r) (active r) (memory_type r).
Definition Rule_set_description (v : string) (r : Rule) : Rule :=
  mkRule (rule_id r) (type r) (condition r) (action r) (confidence r) (evidence_count r)
    (created_from r) (created_at r) (parent_rule r) v (active r) (memory_type r).
Definition Rule_set_active (v : bool) (r : Rule) : Rule :=
  mkRule (rule_id r) (type r) (condition r) (action r) (confidence r) (evidence_count r)
    (created_from r) (created_at r) (parent_rule r) (description r) v (memory_type r).
Definition Rule_set_memory_type (v : option Memory) (r : Rule) : Rule :=
  mkRule (rule_id r) (type r) (condition r) (action r) (confidence r) (evidence_count r)
    (created_from r) (created_at r) (parent_rule r) (description r) (active r) v.

Definition valid_types : list string := ["strategy"; "tool_template"; "pitfall"].

(** [Rule.fix_evidence_count] *)
Definition Rule_fix_evidence_count (v : pyval) : exc Z :=
  match v with
  | PStr s =>
      if Py.contains "original value + 1" (Py.lower s) || Py.contains "+" s then Ok 1
      else match Py.int (PStr s) with
           | Ok z => Ok z
           | Raise ValueError => Ok 1
           | Raise e => Raise e
           end
  | _ => Py.int v
  end.

(** [Rule.validate_type] *)
Definition Rule_validate_type (v : pyval) : exc pyval :=
  try! known <- Py.in_str_set v valid_types;
  if negb known then Ok (PStr "strategy") else Ok v.

(** [Rule.validate_confidence] *)
Definition Rule_validate_confidence (v : pyval) : exc float :=
  match Py.float v with
  | Ok conf =>
      if Py.flt conf Py.float_zero then Ok Py.float_zero
      else if Py.flt Py.float_one conf then Ok Py.float_one
      else Ok conf
  | Raise ValueError | Raise TypeError => Ok Py.float_half
  | Raise e => Raise e
  end.

(** [Field(ge=0.0, le=1.0)] on the float the validator returned: a NaN is
    within neither bound. *)
Definition confidence_in_bounds (c : float) : bool :=
  Py.fle Py.float_zero c && Py.fle c Py.float_one.

(** The [Rule] constructor on the three guarded fields of the parsed data, in
    the order of their declaration. A [ValueError] raised in a validator and a
    failed constraint are collected into the [ValidationError] raised at the
    end; any other exception leaves the constructor at once. (The type the
    validator returns is one of the three of the [Literal].) *)
Definition Rule_validate (data : Rule) : exc Rule :=
  try! t <- Rule_validate_type (type data);
  try! c <- Rule_validate_confidence (confidence data);
  match Rule_fix_evidence_count (evidence_count data) with
  | Raise ValueError => Raise ValidationError
  | Raise e => Raise e
  | Ok n =>
      if confidence_in_bounds c
      then Ok (Rule_set_type t (Rule_set_confidence (PFloat c)
                 (Rule_set_evidence_count (PInt n) data)))
      else Raise ValidationError
  end.

(** [class Playbook(BaseModel)] *)
Record Playbook := mkPlaybook {
  version : string;
  rules : list Rule;
  last_updated : datetime;
  total_cases_processed : Z }.

Definition Playbook_set_version (v : string) (p : Playbook) : Playbook :=
  mkPlaybook v (rules p) (last_updated p) (total_cases_processed p).
Definition Playbook_set_rules (v : list Rule) (p : Playbook) : Playbook :=
  mkPlaybook (version p) v (last_updated p) (total_cases_processed p).
Definition Playbook_set_last_updated (v : datetime) (p : Playbook) : Playbook :=
  mkPlaybook (version p) (rules p) v (total_cases_processed p).
Definition Playbook_set_total_cases_processed (v : Z) (p : Playbook) : Playbook :=
  mkPlaybook (version p) (rules p) (last_updated p) v.

(** The rules of a parsed playbook through the [Rule] constructor: the
    validation errors of all rules are collected, any other exception is raised
    where it occurs. *)
Fixpoint validate_rules (data : list Rule) : exc (list Rule) :=
  match data with
  | [] => Ok []
  | r :: data' =>
      match Rule_validate r with
      | Ok r' => try! rs <- validate_rules data'; Ok (r' :: rs)
      | Raise ValidationError =>
          match validate_rules data' with
          | Ok _ | Raise ValidationError => Raise ValidationError
          | Raise e => Raise e
          end
      | Raise e => Raise e
      end
  end.

(** The [Playbook] constructor on parsed data. *)
Definition Playbook_validate (data : Playbook) : exc Playbook :=
  try! rs <- validate_rules (rules data);
  Ok (Playbook_set_rules rs data).

(** [Playbook.get_active_rules] *)
Definition Playbook_get_active_rules (self : Playbook) : list Rule :=
  List.filter active (rules self).

(** [Playbook.add_rule], given the reading of the clock. *)
Definition Playbook_add_rule (self : Playbook) (rule : Rule) (now : datetime) : Playbook :=
  Playbook_set_last_updated now (Playbook_set_rules (rules self ++ [rule]) self).

(** The loop of [Playbook.update_rule_confidence]: the first rule with the id
    has the confidence assigned, then its evidence count incremented. The
    rules are returned as the loop leaves them, with the exception if the
    increment raised. *)
Fixpoint update_confidence_first (rule_id' : string) (new_confidence : pyval)
  (rs : list Rule) : exc unit * list Rule :=
  match rs with
  | [] => (Ok tt, [])
  | rule :: rs' =>
      if String.eqb (rule_id rule) rule_id' then
        let rule := Rule_set_confidence new_confidence rule in
        match Py.add_int (evidence_count rule) 1 with
        | Ok n => (Ok tt, Rule_set_evidence_count n rule :: rs')
        | Raise e => (Raise e, rule :: rs')
        end
      else
        let '(r, rs'') := update_confidence_first rule_id' new_confidence rs' in
        (r, rule :: rs'')
  end.

(** [Playbook.update_rule_confidence], given the reading of the clock: the
    outcome and the playbook object after the call. *)
Definition Playbook_update_rule_confidence (self : Playbook) (rule_id' : string)
  (new_confidence : pyval) (now : datetime) : exc unit * Playbook :=
  match update_confidence_first rule_id' new_confidence (rules self) with
  | (Ok _, rs) => (Ok tt, Playbook_set_last_updated now (Playbook_set_rules rs self))
  | (Raise e, rs) => (Raise e, Playbook_set_rules rs self)
  end.

(** [Literal["add_rule", "update_rule", "deprecate_rule", "refine_rule", "no_action"]] *)
Inductive Action := add_rule | update_rule | deprecate_rule | refine_rule | no_action.

#[global] Instance Action_eq_dec : EqDecision Action.
Proof. solve_decision. Defined.

(** One item of [update_fields]: a field of [Rule] and the value assigned to
    it. The three guarded fields take any value; for a field typed by its
    annotation the value is one of that type. (A key that names no field, and
    a value of another type for a typed field, are outside the model.) *)
Inductive field_update :=
  | set_rule_id (v : string)
  | set_type (v : pyval)
  | set_condition (v : string)
  | set_action (v : string)
  | set_confidence (v : pyval)
  | set_evidence_count (v : pyval)
  | set_created_from (v : option string)
  | set_created_at (v : datetime)
  | set_parent_rule (v : option string)
  | set_description (v : string)
  | set_active (v : bool)
  | set_memory_type (v : option Memory).

(** [setattr(rule, key, value)]: the value is stored as it is, an assignment
    is not validated. *)
Definition Rule_setattr (rule : Rule) (item : field_update) : Rule :=
  match item with
  | set_rule_id v => Rule_set_rule_id v rule
  | set_type v => Rule_set_type v rule
  | set_condition v => Rule_set_condition v rule
  | set_action v => Rule_set_action v rule
  | set_confidence v => Rule_set_confidence v rule
  | set_evidence_count v => Rule_set_evidence_count v rule
  | set_created_from v => Rule_set_created_from v rule
  | set_created_at v => Rule_set_created_at v rule
  | set_parent_rule v => Rule_set_parent_rule v rule
  | set_description v => Rule_set_description v rule
  | set_active v => Rule_set_active v rule
  | set_memory_type v => Rule_set_memory_type v rule
  end.

(** [class DeltaUpdate(BaseModel)] *)
Module DeltaUpdate.
Record t := mk {
  action : Action;
  target_rule_id : option string;
  new_rule : option Rule;
  update_fields : option (list field_update);
  reason : string;
  target_memory : option Memory }.
End DeltaUpdate.

(** ** utils/playbook_manager.py *)

(** What a [PlaybookManager] reads and writes: the two memory files (absent, or
    holding the playbook that was dumped to them, which a load passes through
    the constructor again), the history directory (file name to content; it
    holds files only) and the clock, read once per [datetime.now()], which
    returns a naive datetime. *)
Record World := mkWorld {
  detection_memory_file : option Playbook;
  trust_memory_file : option Playbook;
  history_dir : gmap string Playbook;
  clock : nat -> naive_datetime;
  ticks : nat }.

(** Computations that read and write the world and may raise: what was
    written before an exception stays written. *)
Definition M (A : Type) : Type := World -> exc A * World.

Definition ret {A} (a : A) : M A := fun w => (Ok a, w).
Definition raise {A} (e : exception) : M A := fun w => (Raise e, w).
Definition lift {A} (r : exc A) : M A := fun w => (r, w).
Definition bind {A B} (m : M A) (k : A -> M B) : M B :=
  fun w => match m w with
           | (Ok a, w') => k a w'
           | (Raise e, w') => (Raise e, w')
           end.

Notation "'do' x <- m ; k" := (bind m (fun x => k))
  (at level 10, x name, m at level 100, k at level 200).

Definition datetime_now : M datetime :=
  fun w => (Ok (naive (clock w (ticks w))),
            mkWorld (detection_memory_file w) (trust_memory_file w) (history_dir w)
                    (clock w) (S (ticks w))).

(** Two decimal digits, as [%m], [%d], [%H], [%M] and [%S] print. *)
Definition pad2 (n : nat) : string :=
  (if (n <? 10)%nat then "0" else "") +:+ Py.str_of_int (Z.of_nat n).

(** [strftime("%Y%m%d_%H%M%S")]: the year is printed without padding. *)
Definition strftime_compact (now : datetime) : string :=
  let t := fields now in
  Py.str_of_int (Z.of_nat (year t)) +:+ pad2 (month t) +:+ pad2 (day t) +:+ "_" +:+
  pad2 (hour t) +:+ pad2 (minute t) +:+ pad2 (second t).

(** The order of datetimes with one [tzinfo]: field by field, from the year
    down. *)
Fixpoint lex_ltb (a b : list nat) : bool :=
  match a, b with
  | x :: a', y :: b' => (x <? y)%nat || ((x =? y)%nat && lex_ltb a' b')
  | [], _ :: _ => true
  | _, [] => false
  end.

Definition datetime_fields (t : naive_datetime) : list nat :=
  [year t; month t; day t; hour t; minute t; second t; microsecond t].

Definition datetime_ltb (a b : naive_datetime) : bool :=
  lex_ltb (datetime_fields a) (datetime_fields b).

(** The day number of a date, 1 for the first of January of the year 1, as
    [datetime.py] counts it ([_days_before_year], [_is_leap],
    [_days_before_month], [_ymd2ord]). *)
Definition days_before_year (y : Z) : Z :=
  let y1 := y - 1 in y1 * 365 + y1 / 4 - y1 / 100 + y1 / 400.

Definition is_leap (y : Z) : bool :=
  (y mod 4 =? 0) && (negb (y mod 100 =? 0) || (y mod 400 =? 0)).

Definition days_before_month (y : Z) (m : nat) : Z :=
  nth m [0; 0; 31; 59; 90; 120; 151; 181; 212; 243; 273; 304; 334] 0
  + (if (2 <? m)%nat && is_leap y then 1 else 0).

Definition ymd2ord (t : naive_datetime) : Z :=
  days_before_year (Z.of_nat (year t)) + days_before_month (Z.of_nat (year t)) (month t)
  + Z.of_nat (day t).

(** The microseconds from the start of the year 1 to an aware datetime, in
    UTC. *)
Definition utc_microseconds (t : naive_datetime) (utcoffset : Z) : Z :=
  (((ymd2ord t * 24 + Z.of_nat (hour t)) * 60 + Z.of_nat (minute t)) * 60
   + Z.of_nat (second t) - utcoffset) * 1000000 + Z.of_nat (microsecond t).

(** [a < b]: two naive datetimes, or two aware ones with one offset, compare by
    their fields; two aware datetimes with different offsets compare by their
    time in UTC; a naive and an aware datetime do not compare. *)
Definition datetime_lt (a b : datetime) : exc bool :=
  match tzinfo a, tzinfo b with
  | None, None => Ok (datetime_ltb (fields a) (fields b))
  | Some offset_a, Some offset_b =>
      if offset_a =? offset_b then Ok (datetime_ltb (fields a) (fields b))
      else Ok (utc_microseconds (fields a) offset_a <? utc_microseconds (fields b) offset_b)
  | _, _ => Raise TypeError
  end.

(** [max(a, b)]: the second argument only when it is greater. *)
Definition datetime_max (a b : datetime) : exc datetime :=
  try! less <- datetime_lt a b;
  Ok (if less then b else a).

(** [to_naive] of [load_playbook]: [dt.replace(tzinfo=None)] for an aware
    datetime. *)
Definition to_naive (dt : datetime) : datetime :=
  match tzinfo dt with
  | Some _ => with_tzinfo (fields dt) None
  | None => dt
  end.

Module PlaybookManager.

Definition memory_file (memory_type : Memory) (w : World) : option Playbook :=
  match memory_type with
  | detection => detection_memory_file w
  | trust => trust_memory_file w
  end.

(** [open(target_file, 'w')] and [json.dump] *)
Definition write_memory_file (memory_type : Memory) (playbook : Playbook) : M unit :=
  fun w => (Ok tt,
    match memory_type with
    | detection => mkWorld (Some playbook) (trust_memory_file w) (history_dir w)
                           (clock w) (ticks w)
    | trust => mkWorld (detection_memory_file w) (Some playbook) (history_dir w)
                       (clock w) (ticks w)
    end).

(** The longest name of a directory entry, in bytes. *)
Definition NAME_MAX : nat := 255.

(** Whether a file of that name can be created in the history directory. The
    directory holds files only (the code never makes a directory below it), so
    a name with a "/" asks for a directory that is not there; a path with a
    null byte is refused before the file system sees it. (The names the code
    makes start with the name of the memory: they are neither empty nor made
    of dots. The path of the directory itself is short of the limit on
    paths.) *)
Definition is_file_name (name : string) : bool :=
  negb (Py.contains (String Ascii.zero EmptyString) name) &&
  negb (Py.contains "/" name) &&
  (String.length name <=? NAME_MAX)%nat.

(** [shutil.copy(target_file, backup_file)] into the history directory: the
    copy is written under a name the directory takes, over a file of that
    name if there is one; for another name nothing is written. *)
Definition copy_to_history (backup_file : string) (content : Playbook) : M unit :=
  fun w =>
    if Py.contains (String Ascii.zero EmptyString) backup_file then (Raise ValueError, w)
    else if is_file_name backup_file then
      (Ok tt,
       mkWorld (detection_memory_file w) (trust_memory_file w)
               (<[backup_file := content]> (history_dir w)) (clock w) (ticks w))
    else (Raise OSError, w).

(** [load_detection_memory], [load_trust_memory] *)
Definition load_memory (memory_type : Memory) : M Playbook :=
  fun w => match memory_file memory_type w with
           | None => (Raise FileNotFoundError, w)
           | Some data => (Playbook_validate data, w)
           end.

Definition load_detection_memory : M Playbook := load_memory detection.
Definition load_trust_memory : M Playbook := load_memory trust.

(** The name of a backup in the history directory. *)
Definition backup_name (memory_type : Memory) (version' : string) (timestamp : string)
  : string :=
  memory_name memory_type +:+ "_" +:+ version' +:+ "_" +:+ timestamp +:+ ".json".

(** [_save_memory] *)
Definition _save_memory (playbook : Playbook) (memory_type : Memory) (backup : bool)
  : M unit :=
  fun w =>
    match (if backup then memory_file memory_type w else None) with
    | Some existing =>
        (do now <- datetime_now;
         let timestamp := strftime_compact now in
         let backup_file := backup_name memory_type (version playbook) timestamp in
         do _ <- copy_to_history backup_file existing;
         write_memory_file memory_type playbook) w
    | None => write_memory_file memory_type playbook w
    end.

(** [_initialize_playbook] *)
Definition _initialize_playbook : M unit :=
  do t1 <- datetime_now;
  do _ <- _save_memory (mkPlaybook "v1.0" [] t1 0) detection false;
  do t2 <- datetime_now;
  _save_memory (mkPlaybook "v1.0" [] t2 0) trust false.

(** [__init__]: both memories are initialised when either file is missing. *)
Definition init : M unit :=
  fun w =>
    match detection_memory_file w, trust_memory_file w with
    | Some _, Some _ => (Ok tt, w)
    | _, _ => _initialize_playbook w
    end.

(** [load_playbook]: the two memories merged for the readers of one playbook.
    Every rule is tagged with the memory it comes from; the rules given to the
    [Playbook] constructor are [Rule] objects, which it takes as they are.
    The later of the two [last_updated] is taken after [to_naive]. *)
Definition load_playbook : M Playbook :=
  do detection' <- load_detection_memory;
  do trust' <- load_trust_memory;
  let detection_rules := List.map (Rule_set_memory_type (Some detection)) (rules detection') in
  let trust_rules := List.map (Rule_set_memory_type (Some trust)) (rules trust') in
  let merged_rules := (detection_rules ++ trust_rules)%list in
  do latest_updated <- lift (datetime_max (to_naive (last_updated detection'))
                                          (to_naive (last_updated trust')));
  ret (mkPlaybook
         ("detection:" +:+ version detection' +:+ "|trust:" +:+ version trust')
         merged_rules latest_updated
         (total_cases_processed detection' + total_cases_processed trust')).


(** The loop of the [update_rule] branch: the first rule whose id is the
    target gets every item of [update_fields] assigned, in order. With no
    [update_fields] the call of [.items()] on [None] raises. *)
Fixpoint update_first (target : option string) (fields : option (list field_update))
  (rs : list Rule) : exc (list Rule) :=
  match rs with
  | [] => Ok []
  | rule :: rs' =>
      if decide (Some (rule_id rule) = target) then
        match fields with
        | Some items => Ok (fold_left Rule_setattr items rule :: rs')
        | None => Raise AttributeError
        end
      else try! rs'' <- update_first target fields rs'; Ok (rule :: rs'')
  end.

(** The loop of the [deprecate_rule] branch. *)
Fixpoint deprecate_first (target : option string) (rs : list Rule) : list Rule :=
  match rs with
  | [] => []
  | rule :: rs' =>
      if decide (Some (rule_id rule) = target) then Rule_set_active false rule :: rs'
      else rule :: deprecate_first target rs'
  end.

(** The new version: [major, minor = old_version.replace('v', '').split('.')]
    and [f"v{major}.{int(minor) + 1}"]. *)
Definition next_version (old_version : string) : exc string :=
  match Py.split "." (Py.remove_char "v" old_version) with
  | [major; minor] =>
      try! n <- Py.int (PStr minor);
      try! minor' <- Py.format_int (n + 1);
      Ok ("v" +:+ major +:+ "." +:+ minor')
  | _ => Raise ValueError
  end.

(** The branches [add_rule] and [refine_rule] share their code: the new rule
    is tagged with the target memory and appended. With no [new_rule], [None]
    is appended to the list in memory and the message that follows fails on
    [delta.new_rule.rule_id]. *)
Definition append_new_rule (playbook : Playbook) (memory_type : Memory)
  (new_rule : option Rule) : M Playbook :=
  match new_rule with
  | Some rule =>
      do now <- datetime_now;
      ret (Playbook_add_rule playbook (Rule_set_memory_type (Some memory_type) rule) now)
  | None =>
      do _ <- datetime_now;
      raise AttributeError
  end.

(** The end of [apply_delta_update] for every action but [no_action]: the
    version number moves on, the case is counted, the memory is saved. *)
Definition bump_and_save (playbook : Playbook) (memory_type : Memory) : M Playbook :=
  let old_version := version playbook in
  do version' <- lift (next_version old_version);
  let playbook := Playbook_set_version version' playbook in
  let playbook :=
    Playbook_set_total_cases_processed (total_cases_processed playbook + 1) playbook in
  do _ <- _save_memory playbook memory_type true;
  ret playbook.

(** [apply_delta_update] *)
Definition apply_delta_update (delta : DeltaUpdate.t) : M Playbook :=
  let memory_type := default detection (DeltaUpdate.target_memory delta) in
  do playbook <- (match memory_type with
                  | detection => load_detection_memory
                  | trust => load_trust_memory
                  end);
  match DeltaUpdate.action delta with
  | add_rule =>
      do playbook <- append_new_rule playbook memory_type (DeltaUpdate.new_rule delta);
      bump_and_save playbook memory_type
  | update_rule =>
      do rs <- lift (update_first (DeltaUpdate.target_rule_id delta)
                       (DeltaUpdate.update_fields delta) (rules playbook));
      bump_and_save (Playbook_set_rules rs playbook) memory_type
  | deprecate_rule =>
      bump_and_save
        (Playbook_set_rules
           (deprecate_first (DeltaUpdate.target_rule_id delta) (rules playbook)) playbook)
        memory_type
  | refine_rule =>
      do playbook <- append_new_rule playbook memory_type (DeltaUpdate.new_rule delta);
      bump_and_save playbook memory_type
  | no_action =>
      let playbook :=
        Playbook_set_total_cases_processed (total_cases_processed playbook + 1) playbook in
      do _ <- _save_memory playbook memory_type false;
      ret playbook
  end.

(** One line of a rules summary: what the text shows of an active rule. *)
Record summary_entry := mkEntry {
  entry_rule_id : string;
  entry_type : pyval;
  entry_confidence : pyval;
  entry_description : string }.

Definition entry_of (rule : Rule) : summary_entry :=
  mkEntry (rule_id rule) (type rule) (confidence rule) (description rule).

(** The content of the text [get_rules_brief_summary] returns: per memory its
    version and one entry per active rule, in order. *)
Record brief_summary := mkBrief {
  detection_version : string;
  detection_entries : list summary_entry;
  trust_version : string;
  trust_entries : list summary_entry }.

(** [get_rules_brief_summary] *)
Definition get_rules_brief_summary : M brief_summary :=
  do detection' <- load_detection_memory;
  do trust' <- load_trust_memory;
  let detection_active := List.filter active (rules detection') in
  let trust_active := List.filter active (rules trust') in
  ret (mkBrief (version detection') (List.map entry_of detection_active)
               (version trust') (List.map entry_of trust_active)).

(** The content of the text [get_rules_summary] returns: per memory its
    version and its active rules, in order. *)
Record rules_summary := mkSummary {
  summary_detection_version : string;
  summary_detection_active : list Rule;
  summary_trust_version : string;
  summary_trust_active : list Rule }.

(** [get_rules_summary] *)
Definition get_rules_summary : M rules_summary :=
  do detection' <- load_detection_memory;
  do trust' <- load_trust_memory;
  let detection_active := List.filter active (rules detection') in
  let trust_active := List.filter active (rules trust') in
  ret (mkSummary (version detection') detection_active (version trust') trust_active).

(** The dict of active rules of [get_rules_by_ids], one memory at a time: a
    later rule replaces an earlier one under the same id. *)
Definition index_active (memory_type : Memory) (rs : list Rule)
  (all_rules : gmap string Rule) : gmap string Rule :=
  fold_left
    (fun all_rules rule =>
       if active rule
       then <[rule_id rule := Rule_set_memory_type (Some memory_type) rule]> all_rules
       else all_rules)
    rs all_rules.

(** What the text [get_rules_by_ids] returns says. *)
Inductive rules_detail :=
  | NoRulesSelected
  | NotFoundInActive (rule_ids : list string)
  | SelectedRules (selected_rules : list Rule).

(** [get_rules_by_ids] *)
Definition get_rules_by_ids (rule_ids : list string) : M rules_detail :=
  match rule_ids with
  | [] => ret NoRulesSelected
  | _ =>
      do detection' <- load_detection_memory;
      do trust' <- load_trust_memory;
      let all_rules :=
        index_active trust (rules trust') (index_active detection (rules detection') ∅) in
      let selected_rules := omap (fun rule_id' => all_rules !! rule_id') rule_ids in
      match selected_rules with
      | [] => ret (NotFoundInActive rule_ids)
      | _ => ret (SelectedRules selected_rules)
      end
  end.

End PlaybookManager.

(** ** tools/playbook_tool.py *)

Module PlaybookTool.

Inductive search_result :=
  | RuleFound (memory_type : Memory) (rule : Rule)
  | RuleNotFound (rule_id : string).

(** [search_rule_by_id]: the first rule with the id, in the detection memory,
    then in the trust memory. *)
Definition search_rule_by_id (rule_id' : string) : M search_result :=
  do detection' <- PlaybookManager.load_detection_memory;
  match List.find (fun rule => String.eqb (rule_id rule) rule_id') (rules detection') with
  | Some rule => ret (RuleFound detection rule)
  | None =>
      do trust' <- PlaybookManager.load_trust_memory;
      match List.find (fun rule => String.eqb (rule_id rule) rule_id') (rules trust') with
      | Some rule => ret (RuleFound trust rule)
      | None => ret (RuleNotFound rule_id')
      end
  end.

(** [get_active_rules] *)
Definition get_active_rules : M PlaybookManager.rules_summary :=
  PlaybookManager.get_rules_summary.

End PlaybookTool.

(** ** api/services/playbook_service.py *)

Module PlaybookService.

(** [class RuleResponse(BaseModel)] of [api/schemas/playbook.py]. The rules a
    response is built from come out of a load: their guarded fields hold a
    type of the [Literal], a float and an integer, which the response takes
    as they are. *)
Record RuleResponse := mkRuleResponse {
  response_rule_id : string;
  response_type : pyval;
  response_condition : string;
  response_action : string;
  response_description : string;
  response_confidence : pyval;
  response_evidence_count : pyval;
  response_memory_type : option Memory;
  response_active : bool;
  response_created_from : option string;
  response_created_at : option datetime;
  response_parent_rule : option string }.

(** [_rule_to_response] *)
Definition _rule_to_response (rule : Rule) (memory_type' : Memory) : RuleResponse :=
  mkRuleResponse (rule_id rule) (type rule) (condition rule) (action rule)
    (description rule) (confidence rule) (evidence_count rule) (Some memory_type')
    (active rule) (created_from rule) (Some (created_at rule)) (parent_rule rule).

(** [class PlaybookStatusResponse(BaseModel)] *)
Record PlaybookStatusResponse := mkStatus {
  status_version : string;
  detection_rules_count : nat;
  trust_rules_count : nat;
  total_active_rules : nat;
  status_total_cases_processed : Z;
  status_last_updated : datetime }.

(** [get_status]: the later of the two [last_updated] is taken of the
    datetimes as they are, with no [to_naive]. *)
Definition get_status : M PlaybookStatusResponse :=
  do detection' <- PlaybookManager.load_detection_memory;
  do trust' <- PlaybookManager.load_trust_memory;
  let detection_active := List.filter active (rules detection') in
  let trust_active := List.filter active (rules trust') in
  do latest_updated <- lift (datetime_max (last_updated detection') (last_updated trust'));
  ret (mkStatus
         ("detection:" +:+ version detection' +:+ "|trust:" +:+ version trust')
         (length detection_active) (length trust_active)
         (length detection_active + length trust_active)
         (total_cases_processed detection' + total_cases_processed trust')
         latest_updated).

(** [class RuleListResponse(BaseModel)] *)
Record RuleListResponse := mkRuleList {
  detection_rules : list RuleResponse;
  trust_rules : list RuleResponse;
  total_count : nat }.

(** [get_all_rules] *)
Definition get_all_rules : M RuleListResponse :=
  do detection' <- PlaybookManager.load_detection_memory;
  do trust' <- PlaybookManager.load_trust_memory;
  let detection_rules :=
    List.map (fun r => _rule_to_response r detection) (List.filter active (rules detection')) in
  let trust_rules :=
    List.map (fun r => _rule_to_response r trust) (List.filter active (rules trust')) in
  ret (mkRuleList detection_rules trust_rules (length detection_rules + length trust_rules)).

(** [get_rule_by_id]: the first active rule of the merged playbook that
    carries the id. *)
Definition get_rule_by_id (rule_id' : string) : M (option RuleResponse) :=
  do playbook <- PlaybookManager.load_playbook;
  ret (match List.find (fun rule => String.eqb (rule_id rule) rule_id' && active rule)
               (rules playbook) with
       | Some rule => Some (_rule_to_response rule (default detection (memory_type rule)))
       | None => None
       end).

End PlaybookService.

(** ** agents/curator.py *)

Module CuratorAgent.

(** Digits of [n], zero-padded to [width]. *)
Definition pad (width : nat) (n : nat) : string :=
  let digits := Py.str_of_int (Z.of_nat n) in
  String.concat "" (repeat "0" (width - String.length digits)) +:+ digits.

(** [datetime.isoformat()] of a naive datetime, as [datetime.now()] is. *)
Definition isoformat (now : datetime) : string :=
  let t := fields now in
  pad 4 (year t) +:+ "-" +:+ pad 2 (month t) +:+ "-" +:+ pad 2 (day t) +:+ "T" +:+
  pad 2 (hour t) +:+ ":" +:+ pad 2 (minute t) +:+ ":" +:+ pad 2 (second t) +:+
  (if (microsecond t =? 0)%nat then "" else "." +:+ pad 6 (microsecond t)).

(** [content.split(fence)[1].split("```")[0].strip()]; [None] stands for the
    [IndexError] of an index out of range. *)
Definition fenced (fence content : string) : option string :=
  match nth_error (Py.split_str fence content) 1 with
  | Some inner =>
      match nth_error (Py.split_str "```" inner) 0 with
      | Some text => Some (Py.str_strip text)
      | None => None
      end
  | None => None
  end.

(** The text [curate] hands to [json.loads]: what the answer of the language
    model holds inside its first fence, or the whole answer. *)
Definition json_str (content : string) : option string :=
  if Py.contains "```json" content then fenced "```json" content
  else if Py.contains "```" content then fenced "```" content
  else Some (Py.str_strip content).

(** The step of [curate] on a truthy [new_rule]: its origin is recorded and an
    unknown type becomes "strategy". Item assignment on anything but a dict
    raises. *)
Definition supplement_new_rule (case_id : string) (now : datetime)
  (delta_data : list (string * pyval)) : exc (list (string * pyval)) :=
  let new_rule := Py.dict_get delta_data "new_rule" in
  if Py.truthy new_rule then
    match new_rule with
    | PDict fields =>
        let fields := Py.dict_set fields "created_from" (PStr case_id) in
        let fields := Py.dict_set fields "created_at" (PStr (isoformat now)) in
        let fields :=
          if negb (Py.in_str_list (Py.dict_get fields "type") valid_types)
          then Py.dict_set fields "type" (PStr "strategy")
          else fields in
        Ok (Py.dict_set delta_data "new_rule" (PDict fields))
    | _ => Raise TypeError
    end
  else Ok delta_data.

(** The script-based memory classification of [curate]. *)
Definition classify_memory (verdict_value : string) (delta_data : list (string * pyval))
  : list (string * pyval) :=
  if Py.in_str_list (Py.dict_get delta_data "action")
       ["add_rule"; "refine_rule"; "update_rule"; "deprecate_rule"]
  then
    let target_memory := if String.eqb verdict_value "True" then "trust" else "detection" in
    Py.dict_set delta_data "target_memory" (PStr target_memory)
  else
    Py.dict_set delta_data "target_memory" (PStr "detection").

(** [curate] from the parsed answer of the language model to the keyword
    arguments of the [DeltaUpdate] constructor. An answer that is not a JSON
    object has no [.get]. *)
Definition curate_data (case_id verdict_value : string) (now : datetime)
  (delta_data : pyval) : exc (list (string * pyval)) :=
  match delta_data with
  | PDict d =>
      try! d <- supplement_new_rule case_id now d;
      Ok (classify_memory verdict_value d)
  | _ => Raise AttributeError
  end.

(** The names of the actions, as the [Literal] of [DeltaUpdate.action] spells
    them. *)
Definition action_name (a : Action) : string :=
  match a with
  | add_rule => "add_rule"
  | update_rule => "update_rule"
  | deprecate_rule => "deprecate_rule"
  | refine_rule => "refine_rule"
  | no_action => "no_action"
  end.

(** The field [target_memory] of the [DeltaUpdate] built from keyword
    arguments: [Optional[Literal["detection", "trust"]]] with the default
    "detection". *)
Definition target_memory_of (kwargs : list (string * pyval)) : exc (option Memory) :=
  match Py.dict_lookup kwargs "target_memory" with
  | None => Ok (Some detection)
  | Some PNone => Ok None
  | Some (PStr s) =>
      if String.eqb s "detection" then Ok (Some detection)
      else if String.eqb s "trust" then Ok (Some trust)
      else Raise ValidationError
  | Some _ => Raise ValidationError
  end.

(** The fallback of [curate] when anything above raised:
    [DeltaUpdate(action="no_action", reason=...)]. *)
Definition fallback (reason : string) : DeltaUpdate.t :=
  DeltaUpdate.mk no_action None None None reason (Some detection).

End CuratorAgent.

(** ** utils/playbook_validator.py *)

Module PlaybookValidator.

Definition VALID_TYPES : list string := ["strategy"; "tool_template"; "pitfall"].
Definition VALID_MEMORIES : list string := ["detection"; "trust"].

(** The entries of [self.issues] and [self.fixes]. Each stands for the message
    the code formats: the rule it names and the values it quotes. *)
Inductive issue :=
  | evidence_count_is_string (rule_id : pyval) (ec : string)
  | evidence_count_is_a (rule_id : pyval) (ec : pyval)
  | invalid_type (rule_id : pyval) (rule_type : pyval)
  | confidence_below (rule_id : pyval) (conf_float : float)
  | confidence_above (rule_id : pyval) (conf_float : float)
  | invalid_confidence (rule_id : pyval) (conf : pyval)
  | invalid_memory_type (rule_id : pyval) (mem_type : pyval).

Inductive applied_fix :=
  | converted_evidence_count (rule_id : pyval)
  | reset_invalid_evidence_count (rule_id : pyval)
  | reset_evidence_count (rule_id : pyval)
  | changed_type (rule_id : pyval)
  | clamped_confidence_0 (rule_id : pyval)
  | clamped_confidence_1 (rule_id : pyval)
  | reset_confidence (rule_id : pyval)
  | changed_memory_type (rule_id : pyval).

(** A file: text that [json.load] rejects, or the value it parses to (which is
    also what [json.dump] of that value writes). *)
Inductive file_content :=
  | not_json
  | json (data : pyval).

(** The validator object and the files it works on. *)
Record state := mkState {
  issues : list issue;
  fixes : list applied_fix;
  files : gmap string file_content }.

Definition V (A : Type) : Type := state -> exc A * state.

Definition vret {A} (a : A) : V A := fun st => (Ok a, st).
Definition vraise {A} (e : exception) : V A := fun st => (Raise e, st).
Definition vbind {A B} (m : V A) (k : A -> V B) : V B :=
  fun st => match m st with
            | (Ok a, st') => k a st'
            | (Raise e, st') => (Raise e, st')
            end.

Notation "'run' x <- m ; k" := (vbind m (fun x => k))
  (at level 10, x name, m at level 100, k at level 200).

Definition append_issue (i : issue) : V unit :=
  fun st => (Ok tt, mkState (issues st ++ [i]) (fixes st) (files st)).
Definition append_fix (f : applied_fix) : V unit :=
  fun st => (Ok tt, mkState (issues st) (fixes st ++ [f]) (files st)).
Definition reset_counters : V unit :=
  fun st => (Ok tt, mkState [] [] (files st)).

(** [in] on a set of strings, in the monad. *)
Definition member (v : pyval) (S : list string) : V bool :=
  fun st => (Py.in_str_set v S, st).

(** The four repairs of [_validate_and_fix_rule], each on the dict of one rule. *)
Definition fix_evidence_count (rule_id : pyval) (rule : list (string * pyval))
  : V (list (string * pyval)) :=
  match Py.dict_lookup rule "evidence_count" with
  | Some (PStr ec) =>
      run _ <- append_issue (evidence_count_is_string rule_id ec);
      match Py.int (PStr ec) with
      | Ok n =>
          run _ <- append_fix (converted_evidence_count rule_id);
          vret (Py.dict_set rule "evidence_count" (PInt n))
      | Raise ValueError =>
          run _ <- append_fix (reset_invalid_evidence_count rule_id);
          vret (Py.dict_set rule "evidence_count" (PInt 1))
      | Raise e => vraise e
      end
  | Some ec =>
      if negb (Py.is_int ec) then
        run _ <- append_issue (evidence_count_is_a rule_id ec);
        run _ <- append_fix (reset_evidence_count rule_id);
        vret (Py.dict_set rule "evidence_count" (PInt 1))
      else vret rule
  | None => vret rule
  end.

Definition fix_type (rule_id : pyval) (rule : list (string * pyval))
  : V (list (string * pyval)) :=
  match Py.dict_lookup rule "type" with
  | Some rule_type =>
      run known <- member rule_type VALID_TYPES;
      if negb known then
        run _ <- append_issue (invalid_type rule_id rule_type);
        run _ <- append_fix (changed_type rule_id);
        vret (Py.dict_set rule "type" (PStr "strategy"))
      else vret rule
  | None => vret rule
  end.

Definition fix_confidence (rule_id : pyval) (rule : list (string * pyval))
  : V (list (string * pyval)) :=
  match Py.dict_lookup rule "confidence" with
  | Some conf =>
      match Py.float conf with
      | Ok conf_float =>
          if Py.flt conf_float Py.float_zero then
            run _ <- append_issue (confidence_below rule_id conf_float);
            run _ <- append_fix (clamped_confidence_0 rule_id);
            vret (Py.dict_set rule "confidence" (PFloat Py.float_zero))
          else if Py.flt Py.float_one conf_float then
            run _ <- append_issue (confidence_above rule_id conf_float);
            run _ <- append_fix (clamped_confidence_1 rule_id);
            vret (Py.dict_set rule "confidence" (PFloat Py.float_one))
          else vret rule
      | Raise ValueError | Raise TypeError =>
          run _ <- append_issue (invalid_confidence rule_id conf);
          run _ <- append_fix (reset_confidence rule_id);
          vret (Py.dict_set rule "confidence" (PFloat Py.float_half))
      | Raise e => vraise e
      end
  | None => vret rule
  end.

Definition fix_memory_type (rule_id : pyval) (rule : list (string * pyval))
  : V (list (string * pyval)) :=
  match Py.dict_lookup rule "memory_type" with
  | Some mem_type =>
      if Py.truthy mem_type then
        run known <- member mem_type VALID_MEMORIES;
        if negb known then
          run _ <- append_issue (invalid_memory_type rule_id mem_type);
          run _ <- append_fix (changed_memory_type rule_id);
          vret (Py.dict_set rule "memory_type" (PStr "detection"))
        else vret rule
      else vret rule
  | None => vret rule
  end.

(** [_validate_and_fix_rule]: the rule is repaired in place; here the repaired
    rule is returned. Anything but a dict has no [.get]. *)
Definition _validate_and_fix_rule (rule : pyval) (index : nat) : V pyval :=
  match rule with
  | PDict fields =>
      let rule_id :=
        match Py.dict_lookup fields "rule_id" with
        | Some v => v
        | None => PStr ("rule_" +:+ Py.str_of_int (Z.of_nat index))
        end in
      run fields <- fix_evidence_count rule_id fields;
      run fields <- fix_type rule_id fields;
      run fields <- fix_confidence rule_id fields;
      run fields <- fix_memory_type rule_id fields;
      vret (PDict fields)
  | _ => vraise AttributeError
  end.

(** The loop over [enumerate(data['rules'])]. *)
Fixpoint fix_rules (rs : list pyval) (index : nat) : V (list pyval) :=
  match rs with
  | [] => vret []
  | rule :: rs' =>
      run rule' <- _validate_and_fix_rule rule index;
      run rs'' <- fix_rules rs' (S index);
      vret (rule' :: rs'')
  end.

(** ['rules' in data]: a key of a dict, an element of a list, a substring of a
    string; no other JSON value is a container. *)
Definition has_rules (data : pyval) : exc bool :=
  match data with
  | PDict d => Ok (bool_decide (is_Some (Py.dict_lookup d "rules")))
  | PList l => Ok (existsb (fun v => Py.in_str_list v ["rules"]) l)
  | PStr s => Ok (Py.contains "rules" s)
  | _ => Raise TypeError
  end.

Fixpoint chars (s : string) : list pyval :=
  match s with
  | EmptyString => []
  | String c s' => PStr (String c EmptyString) :: chars s'
  end.

(** The validation of the rules of the parsed file, which returns the data as
    the repairs left it. Only a dict can be indexed by "rules"; iterating a
    list yields its elements, a dict its keys, a string its characters. *)
Definition fix_data (data : pyval) : V pyval :=
  match has_rules data with
  | Raise e => vraise e
  | Ok false => vret data
  | Ok true =>
      match data with
      | PDict d =>
          match Py.dict_get d "rules" with
          | PList rs =>
              run rs' <- fix_rules rs 0;
              vret (PDict (Py.dict_set d "rules" (PList rs')))
          | PDict keys =>
              run _ <- fix_rules (List.map (fun kv => PStr (fst kv)) keys) 0;
              vret data
          | PStr s =>
              run _ <- fix_rules (chars s) 0;
              vret data
          | _ => vraise TypeError
          end
      | _ => vraise TypeError
      end
  end.

(** The last component of a path, and [Path.suffix] of that name: from its last
    dot on, unless the dot is the first or the last character. *)
Definition path_name (p : string) : string := List.last (Py.split "/" p) "".

Fixpoint last_dot (name : string) : option (string * string) :=
  match name with
  | EmptyString => None
  | String c name' =>
      match last_dot name' with
      | Some (stem, ext) => Some (String c stem, ext)
      | None => if Ascii.eqb c "." then Some (EmptyString, name) else None
      end
  end.

Definition path_suffix (p : string) : string :=
  match last_dot (path_name p) with
  | Some (String _ _, String dot (String c ext)) => String dot (String c ext)
  | _ => ""
  end.

(** [Path.with_suffix]: a path without a name has none to change. *)
Definition with_suffix (p : string) (suffix : string) : exc string :=
  if String.eqb (path_name p) "" then Raise ValueError
  else
    let old := path_suffix p in
    Ok (String.substring 0 (String.length p - String.length old) p +:+ suffix).

Definition read_file (filepath : string) : V file_content :=
  fun st => match files st !! filepath with
            | Some content => (Ok content, st)
            | None => (Raise FileNotFoundError, st)
            end.

(** [Path.rename]: the file moves to the target, replacing what was there. *)
Definition rename_file (source target : string) : V unit :=
  fun st => match files st !! source with
            | Some content =>
                (Ok tt, mkState (issues st) (fixes st)
                                (<[target := content]> (delete source (files st))))
            | None => (Raise FileNotFoundError, st)
            end.

Definition write_file (filepath : string) (content : file_content) : V unit :=
  fun st => (Ok tt, mkState (issues st) (fixes st) (<[filepath := content]> (files st))).

(** The dict [validate_and_fix_file] returns. *)
Inductive report :=
  | failure
  | success (issues_found fixes_applied : nat)
            (reported_issues : list issue) (reported_fixes : list applied_fix).

(** [validate_and_fix_file] *)
Definition validate_and_fix_file (filepath : string) (create_backup : bool) : V report :=
  run content <- read_file filepath;
  match content with
  | not_json => vret failure
  | json data =>
      run _ <- reset_counters;
      run data <- fix_data data;
      run _ <- (fun st =>
                  match fixes st with
                  | [] => vret tt st
                  | _ =>
                      (run _ <- (if create_backup then
                                   (fun st' =>
                                      match with_suffix filepath ".json.bak" with
                                      | Ok backup_path => rename_file filepath backup_path st'
                                      | Raise e => vraise e st'
                                      end)
                                 else vret tt);
                       write_file filepath (json data)) st
                  end);
      fun st => (Ok (success (length (issues st)) (length (fixes st))
                             (issues st) (fixes st)), st)
  end.

(** The loop of [main] over the files of the command line, with the totals so
    far: a file that does not exist is skipped, and the counts of a run that
    parsed its file are added up. *)
Fixpoint main_loop (paths : list string) (no_backup : bool)
  (total_issues total_fixes : nat) : V (nat * nat) :=
  match paths with
  | [] => vret (total_issues, total_fixes)
  | filepath :: paths' =>
      fun st =>
        match files st !! filepath with
        | None => main_loop paths' no_backup total_issues total_fixes st
        | Some _ =>
            (run result <- validate_and_fix_file filepath (negb no_backup);
             match result with
             | success issues_found fixes_applied _ _ =>
                 main_loop paths' no_backup
                   (total_issues + issues_found) (total_fixes + fixes_applied)
             | failure => main_loop paths' no_backup total_issues total_fixes
             end) st
        end
  end.

End PlaybookValidator.

(** * The vocabulary of the statements *)

Section Vocabulary.

Import PlaybookManager PlaybookValidator.

(** Whether a character occurs in a string. *)
Fixpoint has_char (c : ascii) (s : string) : bool :=
  match s with
  | EmptyString => false
  | String a s' => Ascii.eqb a c || has_char c s'
  end.






(** The value [Rule.validate_confidence] returns for a float [conf]. *)
Definition clamp (conf : float) : float :=
  if Py.flt conf Py.float_zero then Py.float_zero
  else if Py.flt Py.float_one conf then Py.float_one
  else conf.

(** The memory an update goes to. *)
Definition target_of (delta : DeltaUpdate.t) : Memory :=
  default detection (DeltaUpdate.target_memory delta).


(** Whether the action of an update reads the clock before the save (the
    two append through [Playbook.add_rule]). *)
Definition appends (a : Action) : bool :=
  match a with add_rule | refine_rule => true | _ => false end.

(** The rule list an update leaves in memory before the save. *)
Definition mutated_rules (delta : DeltaUpdate.t) (p : Playbook) : exc (list Rule) :=
  match DeltaUpdate.action delta with
  | add_rule | refine_rule =>
      match DeltaUpdate.new_rule delta with
      | Some rule =>
          Ok (rules p ++ [Rule_set_memory_type (Some (target_of delta)) rule])%list
      | None => Raise AttributeError
      end
  | update_rule =>
      update_first (DeltaUpdate.target_rule_id delta) (DeltaUpdate.update_fields delta) (rules p)
  | deprecate_rule => Ok (deprecate_first (DeltaUpdate.target_rule_id delta) (rules p))
  | no_action => Ok (rules p)
  end.

(** The world after a save of [p] to memory [m]. *)
Definition saved (m : Memory) (p : Playbook) (w : World) : World :=
  snd (write_memory_file m p w).

(** The world after [n] more readings of the clock. *)
Definition later (n : nat) (w : World) : World :=
  mkWorld (detection_memory_file w) (trust_memory_file w) (history_dir w) (clock w)
          (n + ticks w).

(** The world after a backup of [old] under [name]. *)
Definition backed_up (name : string) (old : Playbook) (w : World) : World :=
  mkWorld (detection_memory_file w) (trust_memory_file w)
          (<[name := old]> (history_dir w)) (clock w) (ticks w).

(** The playbook an update returns and saves, and the world it leaves, when
    the memory loads as [p], the action leaves the rules [rs] and the version
    moves on to [v']. *)
Definition updated (delta : DeltaUpdate.t) (w : World) (p : Playbook)
  (rs : list Rule) (v' : string) : Playbook :=
  mkPlaybook v' rs
    (if appends (DeltaUpdate.action delta) then clock w (ticks w) else last_updated p)
    (total_cases_processed p + 1).

(** The reading of the clock that stamps the backup of an update. *)
Definition save_reading (delta : DeltaUpdate.t) (w : World) : nat :=
  if appends (DeltaUpdate.action delta) then S (ticks w) else ticks w.

(** The name of the backup an update makes when it saves version [v']. *)
Definition update_backup_name (delta : DeltaUpdate.t) (w : World) (v' : string) : string :=
  backup_name (target_of delta) v' (strftime_compact (clock w (save_reading delta w))).

(** The world an update leaves: the prior file [old] backed up under the
    version of [p'], then [p'] in the live file. *)
Definition after_update (delta : DeltaUpdate.t) (w : World) (old p' : Playbook) : World :=
  let m := target_of delta in
  saved m p'
    (backed_up (update_backup_name delta w (version p'))
       old (later (S (save_reading delta w - ticks w)) w)).



(** The world after a sequence of requests, whether each returned or raised. *)
Definition apply_all (deltas : list DeltaUpdate.t) (w : World) : World :=
  fold_left (fun w delta => snd (PlaybookManager.apply_delta_update delta w)) deltas w.


(** The rule [get_rules_by_ids] keeps for an id within one memory: the last
    active rule of the list that carries the id, after [found]. *)
Fixpoint latest_active (rule_id' : string) (found : option Rule) (rs : list Rule)
  : option Rule :=
  match rs with
  | [] => found
  | rule :: rs' =>
      latest_active rule_id'
        (if active rule && String.eqb (rule_id rule) rule_id' then Some rule else found) rs'
  end.


(** The routing the specification describes: the affirmative verdict sends
    every action but [no_action] to the trust memory; everything else goes to
    the detection memory. *)
Definition routed_memory (a : Action) (verdict_value : string) : Memory :=
  match a with
  | no_action => detection
  | _ => if String.eqb verdict_value "True" then trust else detection
  end.

(** What a repair leaves behind it: the files as they were, and as many new
    fixes as new issues. *)
Definition repaired (st st' : state) : Prop :=
  files st' = files st /\
  (length (issues st') + length (fixes st) = length (issues st) + length (fixes st'))%nat.

(** The values the repairs accept as they are. *)
Definition evidence_count_ok (v : option pyval) : Prop :=
  match v with Some ec => Py.is_int ec = true | None => True end.

Definition type_ok (v : option pyval) : Prop :=
  match v with Some rule_type => Py.in_str_set rule_type VALID_TYPES = Ok true | None => True end.

Definition confidence_ok (v : option pyval) : Prop :=
  match v with
  | Some conf =>
      exists conf_float, Py.float conf = Ok conf_float /\
        Py.flt conf_float Py.float_zero = false /\ Py.flt Py.float_one conf_float = false
  | None => True
  end.

Definition memory_type_ok (v : option pyval) : Prop :=
  match v with
  | Some mem_type =>
      Py.truthy mem_type = false \/ Py.in_str_set mem_type VALID_MEMORIES = Ok true
  | None => True
  end.

(** A rule the validator leaves as it is. *)
Definition rule_clean (rule : pyval) : Prop :=
  exists fields,
    rule = PDict fields /\
    evidence_count_ok (Py.dict_lookup fields "evidence_count") /\
    type_ok (Py.dict_lookup fields "type") /\
    confidence_ok (Py.dict_lookup fields "confidence") /\
    memory_type_ok (Py.dict_lookup fields "memory_type").

(** The report of a run that returns in state [st]. *)
Definition report_of (st : state) : report :=
  success (length (issues st)) (length (fixes st)) (issues st) (fixes st).

(** A value without a hash, and a value [int()] takes no number from. *)
Definition unhashable (v : pyval) : Prop :=
  match v with PList _ | PDict _ => True | _ => False end.

Definition not_a_number (v : pyval) : Prop :=
  match v with PNone | PList _ | PDict _ => True | _ => False end.

(** The number of occurrences of a character in a string. *)
Fixpoint count_char (c : ascii) (s : string) : nat :=
  match s with
  | EmptyString => O
  | String a s' => ((if Ascii.eqb a c then 1 else 0) + count_char c s')%nat
  end.

(** What precedes the first occurrence of a separator: the whole string when
    there is none. *)
Definition first_piece (sep s : string) : string :=
  match Py.partition sep s with
  | Some (before, _) => before
  | None => s
  end.

(** The later of two datetimes read without their time zones, as
    [load_playbook] takes it. *)
Definition latest_naive (a b : datetime) : datetime :=
  if datetime_ltb (fields a) (fields b) then to_naive b else to_naive a.

(** Whether an id is carried by an active rule of a list. *)
Definition active_id (rs : list Rule) (rule_id' : string) : bool :=
  existsb (fun rule => active rule && String.eqb (rule_id rule) rule_id') rs.

End Vocabulary.

(** * Example data *)

Definition noon : datetime := mkDatetime 2024 1 5 12 0 0 0.

(** A clock that reads noon and one second more at each reading. *)
Definition clock0 (n : nat) : naive_datetime := mkDatetime 2024 1 5 12 0 n 0.

(** Three rules: one of the detection memory, and two that share the id
    "shr-00002", one for each memory. *)
Definition rule_a : Rule :=
  mkRule "shr-00001" (PStr "strategy") "IF source_type=social_media"
    "Requires cross-validation" (PFloat Py.float_half) (PInt 1)
    None noon None "Cross-check social media claims" true None.

Definition rule_b : Rule :=
  mkRule "shr-00002" (PStr "pitfall") "IF the quote has no source"
    "Search for the original speech" (PFloat Py.float_half) (PInt 1)
    (Some "case-17") noon None "Unsourced quotes are often altered" true None.

Definition rule_b_trusted : Rule :=
  mkRule "shr-00002" (PStr "strategy") "IF the outlet published the transcript"
    "Accept the quote" (PFloat Py.float_one) (PInt 4)
    (Some "case-21") noon None "Transcripts settle quotes" true None.

Definition playbook_a : Playbook := mkPlaybook "v1.0" [rule_a] noon 0.

Definition playbook_0 : Playbook := mkPlaybook "v1.0" [] noon 0.

(** Three worlds: one with [rule_a] in the detection memory and an empty trust
    memory; one as [__init__] leaves an empty directory; one in which
    "shr-00002" is active in both memories. *)
Definition world_a : World := mkWorld (Some playbook_a) (Some playbook_0) ∅ clock0 0.

Definition fresh_world : World :=
  snd (PlaybookManager.init (mkWorld None None ∅ clock0 0)).

Definition world_both : World :=
  mkWorld (Some (mkPlaybook "v1.2" [rule_a; rule_b] noon 2))
          (Some (mkPlaybook "v1.1" [rule_b_trusted] noon 1)) ∅ clock0 0.


Definition nothing_to_do (m : option Memory) : DeltaUpdate.t :=
  DeltaUpdate.mk no_action None None None "the rule base already covers the case" m.

Definition add_nothing : DeltaUpdate.t :=
  DeltaUpdate.mk add_rule None None None "a rule went missing" (Some detection).

Definition add_b : DeltaUpdate.t :=
  DeltaUpdate.mk add_rule None (Some rule_b) None "a new pitfall" (Some detection).

Definition deprecate_b : DeltaUpdate.t :=
  DeltaUpdate.mk deprecate_rule (Some "shr-00002") None None "superseded" (Some detection).

(** An answer of the language model that adds a rule. *)
Definition answer_add : list (string * pyval) :=
  [("action", PStr "add_rule"); ("reason", PStr "a new pitfall")].

(** A memory file with a rule whose fields need every repair. *)
Definition broken_rule : pyval :=
  PDict [("rule_id", PStr "shr-00007");
         ("type", PStr "meta");
         ("confidence", PStr "high");
         ("evidence_count", PStr "3 (original value + 1)");
         ("memory_type", PStr "both")].

Definition broken_file : pyval :=
  PDict [("version", PStr "v1.4"); ("rules", PList [broken_rule]);
         ("total_cases_processed", PInt 9)].

Definition broken_path : string := "data/playbook/detection_memory.json".

Definition broken_state : PlaybookValidator.state :=
  PlaybookValidator.mkState [] [] {[ broken_path := PlaybookValidator.json broken_file ]}.

(** What a run of the validator on that file reports, and the state it
    leaves. *)
Definition broken_issues : list PlaybookValidator.issue :=
  [PlaybookValidator.evidence_count_is_string (PStr "shr-00007") "3 (original value + 1)";
   PlaybookValidator.invalid_type (PStr "shr-00007") (PStr "meta");
   PlaybookValidator.invalid_confidence (PStr "shr-00007") (PStr "high");
   PlaybookValidator.invalid_memory_type (PStr "shr-00007") (PStr "both")].

Definition broken_fixes : list PlaybookValidator.applied_fix :=
  [PlaybookValidator.reset_invalid_evidence_count (PStr "shr-00007");
   PlaybookValidator.changed_type (PStr "shr-00007");
   PlaybookValidator.reset_confidence (PStr "shr-00007");
   PlaybookValidator.changed_memory_type (PStr "shr-00007")].

Definition repaired_state : PlaybookValidator.state :=
  snd (PlaybookValidator.validate_and_fix_file broken_path true broken_state).

(** A rule as a language model writes it: a type outside the three, a
    confidence in words and a count with its arithmetic. *)
Definition rule_meta : Rule :=
  mkRule "shr-00003" (PStr "meta") "IF the claim cites a study"
    "Find the study" (PStr "high") (PStr "2 + 1")
    (Some "case-30") noon (Some "shr-00001") "Studies are often misquoted" true None.

(** A playbook in which the id "shr-00002" occurs twice. *)
Definition playbook_twice : Playbook :=
  mkPlaybook "v1.3" [rule_a; rule_b; rule_b_trusted] noon 3.

(** An answer of the language model that adds [rule_meta], with an origin and
    a memory of its own choice. *)
Definition answer_meta : list (string * pyval) :=
  [("action", PStr "add_rule");
   ("new_rule",
    PDict [("rule_id", PStr "shr-00003"); ("type", PStr "meta");
           ("created_from", PStr "case-1"); ("description", PStr "Studies are often misquoted")]);
   ("reason", PStr "a new pitfall");
   ("target_memory", PStr "trust")].

(** * Properties *)

(** ** The builtins *)

Section Strings.

Lemma append_length s t : String.length (s +:+ t) = (String.length s + String.length t)%nat.
Proof. induction s as [|a s IH]; simpl; [reflexivity|]. rewrite IH. reflexivity. Qed.




Lemma remove_char_keeps a c s :
  has_char a (Py.remove_char c s) = true -> has_char a s = true.
Proof.
  induction s as [|b s IH]; simpl; [congruence|].
  destruct (Ascii.eqb b c); simpl; intros H.
  - rewrite (IH H). apply orb_true_r.
  - apply orb_true_iff in H as [H|H]; [rewrite H; reflexivity|].
    rewrite (IH H). apply orb_true_r.
Qed.

Lemma split_nonempty c s : Py.split c s <> [].
Proof.
  destruct s as [|a s]; simpl; [discriminate|].
  destruct (Ascii.eqb a c); [discriminate|].
  destruct (Py.split c s); discriminate.
Qed.




End Strings.

Section Integers.


















End Integers.

(** ** Version numbers *)

Section Versions.








End Versions.

(** ** Float comparisons *)

Section Floats.

Lemma SFcompare_antisym (x y : float) :
  SFcompare y x = option_map CompOpp (SFcompare x y).
Proof.
  destruct x as [sx|sx| |sx mx ex], y as [sy|sy| |sy my ey]; cbn [SFcompare option_map];
    try reflexivity; try (destruct sx; reflexivity); try (destruct sy; reflexivity);
    try (destruct sx, sy; reflexivity).
  assert (HP : PosDef.Pos.compare_cont Eq my mx
               = CompOpp (PosDef.Pos.compare_cont Eq mx my)).
  { symmetry. exact (Pos.compare_cont_antisym mx my Eq). }
  destruct sx, sy; try reflexivity; f_equal;
    rewrite (Z.compare_antisym ex ey);
    destruct (ex ?= ey) eqn:E; cbn [CompOpp]; try reflexivity;
    rewrite HP; reflexivity.
Qed.

Lemma SFcompare_none (x y : float) :
  SFcompare x y = None -> x = S754_nan \/ y = S754_nan.
Proof.
  destruct x as [sx|sx| |sx mx ex], y as [sy|sy| |sy my ey]; cbn [SFcompare];
    auto; discriminate.
Qed.


Lemma fle_of_flt (a b : float) :
  Py.flt b a = false -> a <> S754_nan -> b <> S754_nan -> Py.fle a b = true.
Proof.
  unfold Py.fle, Py.flt, SFleb, SFltb. rewrite (SFcompare_antisym a b).
  intros H Ha Hb. destruct (SFcompare a b) as [[]|] eqn:E; cbn in *; try congruence.
  destruct (SFcompare_none _ _ E); congruence.
Qed.

Lemma flt_fle (a b : float) : Py.flt a b = true -> Py.fle a b = true.
Proof.
  unfold Py.fle, Py.flt, SFleb, SFltb.
  destruct (SFcompare a b) as [[]|]; congruence.
Qed.

Lemma clamp_in_bounds conf :
  conf <> S754_nan -> confidence_in_bounds (clamp conf) = true.
Proof.
  intros Hn. unfold clamp, confidence_in_bounds.
  destruct (Py.flt conf Py.float_zero) eqn:E0; [reflexivity|].
  destruct (Py.flt Py.float_one conf) eqn:E1; [reflexivity|].
  rewrite (fle_of_flt _ _ E0), (fle_of_flt _ _ E1); [reflexivity|..];
    first [assumption | discriminate].
Qed.


Lemma clamp_nan : clamp S754_nan = S754_nan.
Proof. reflexivity. Qed.

Lemma in_bounds_not_nan c : confidence_in_bounds c = true -> c <> S754_nan.
Proof. intros H ->. discriminate. Qed.

End Floats.

(** ** Rule records: validation *)

Section Validation.

Lemma Rule_validate_confidence_spec v :
  Rule_validate_confidence v =
  match Py.float v with
  | Ok conf => Ok (clamp conf)
  | Raise ValueError | Raise TypeError => Ok Py.float_half
  | Raise e => Raise e
  end.
Proof.
  unfold Rule_validate_confidence, clamp.
  destruct (Py.float v) as [conf|e]; [|reflexivity].
  destruct (Py.flt conf Py.float_zero); [reflexivity|].
  destruct (Py.flt Py.float_one conf); reflexivity.
Qed.

(** Only an integer too large for a float makes [Rule.validate_confidence]
    raise. *)
Lemma Rule_validate_confidence_raise v e :
  Rule_validate_confidence v = Raise e ->
  e = OverflowError /\ exists z, v = PInt z.
Proof.
  rewrite Rule_validate_confidence_spec.
  destruct v as [|b|z|f|s|l|d]; cbn [Py.float]; try discriminate.
  - unfold Py.float_of_int.
    destruct (binary_normalize prec64 emax64 z 0 false); try discriminate.
    intros [= <-]. eauto.
  - destruct (Py.float_of_str s); discriminate.
Qed.

Lemma Rule_validate_confidence_range v c :
  Rule_validate_confidence v = Ok c ->
  c = S754_nan \/ confidence_in_bounds c = true.
Proof.
  rewrite Rule_validate_confidence_spec.
  destruct (Py.float v) as [conf|[]]; try discriminate; intros [= <-];
    try (right; reflexivity).
  destruct conf as [s|s| |s m e]; [right; apply clamp_in_bounds; discriminate..
                                  |left; reflexivity
                                  |right; apply clamp_in_bounds; discriminate].
Qed.

(** A string never makes [Rule.fix_evidence_count] raise. *)
Lemma Rule_fix_evidence_count_str s :
  Rule_fix_evidence_count (PStr s) =
  Ok (if Py.contains "original value + 1" (Py.lower s) || Py.contains "+" s then 1
      else match Py.int_of_str s with Some z => z | None => 1 end).
Proof.
  unfold Rule_fix_evidence_count. cbn [Py.int].
  destruct (Py.contains "original value + 1" (Py.lower s) || Py.contains "+" s);
    [reflexivity|].
  destruct (Py.int_of_str s); reflexivity.
Qed.



Lemma Rule_validate_ok data r :
  Rule_validate data = Ok r ->
  exists t c n,
    Rule_validate_type (type data) = Ok t /\
    Rule_validate_confidence (confidence data) = Ok c /\
    Rule_fix_evidence_count (evidence_count data) = Ok n /\
    confidence_in_bounds c = true /\
    r = Rule_set_type t (Rule_set_confidence (PFloat c)
          (Rule_set_evidence_count (PInt n) data)).
Proof.
  unfold Rule_validate.
  destruct (Rule_validate_type (type data)) as [t|e]; [|discriminate].
  destruct (Rule_validate_confidence (confidence data)) as [c|e]; [|discriminate].
  cbn [exc_bind].
  destruct (Rule_fix_evidence_count (evidence_count data)) as [n|[]]; try discriminate.
  destruct (confidence_in_bounds c) eqn:E; [|discriminate].
  intros [= <-]. exists t, c, n. repeat split; assumption.
Qed.




Lemma Playbook_validate_header data p :
  Playbook_validate data = Ok p ->
  version p = version data /\ total_cases_processed p = total_cases_processed data /\
  last_updated p = last_updated data.
Proof.
  unfold Playbook_validate.
  destruct (validate_rules (rules data)) as [rs|e]; [|discriminate].
  intros [= <-]. repeat split.
Qed.

End Validation.




(** ** The playbook manager *)

Section Manager.

Import PlaybookManager.

Lemma memory_file_saved m m' p w :
  memory_file m' (saved m p w) = if Memory_eqb m m' then Some p else memory_file m' w.
Proof. destruct m, m'; reflexivity. Qed.

Lemma memory_file_later m n w : memory_file m (later n w) = memory_file m w.
Proof. destruct m; reflexivity. Qed.

Lemma load_memory_spec m w :
  load_memory m w =
  match memory_file m w with
  | None => (Raise FileNotFoundError, w)
  | Some data => (Playbook_validate data, w)
  end.
Proof. reflexivity. Qed.

Lemma save_plain p m w : _save_memory p m false w = (Ok tt, saved m p w).
Proof. reflexivity. Qed.

(** The copy of a backup: written under a name the directory takes, refused
    with nothing written under any other. *)
Lemma copy_to_history_ok name old w :
  is_file_name name = true -> copy_to_history name old w = (Ok tt, backed_up name old w).
Proof.
  intros H. unfold copy_to_history. rewrite H.
  unfold is_file_name in H. apply andb_true_iff in H as [H _].
  apply andb_true_iff in H as [H _]. apply negb_true_iff in H. rewrite H. reflexivity.
Qed.

Lemma copy_to_history_raise name old w :
  is_file_name name = false -> exists e, copy_to_history name old w = (Raise e, w).
Proof.
  intros H. unfold copy_to_history. rewrite H.
  destruct (Py.contains _ name); eauto.
Qed.

Lemma save_backup p m w :
  _save_memory p m true w =
  match memory_file m w with
  | Some old =>
      match copy_to_history
              (backup_name m (version p) (strftime_compact (clock w (ticks w))))
              old (later 1 w) with
      | (Ok _, w1) => (Ok tt, saved m p w1)
      | (Raise e, w1) => (Raise e, w1)
      end
  | None => (Ok tt, saved m p w)
  end.
Proof.
  unfold _save_memory. destruct (memory_file m w) as [old|]; [|reflexivity].
  unfold bind, datetime_now.
  change (mkWorld (detection_memory_file w) (trust_memory_file w) (history_dir w)
            (clock w) (S (ticks w))) with (later 1 w).
  destruct (copy_to_history _ old (later 1 w)) as [[[]|e] w1]; reflexivity.
Qed.



(** A save that raises has written nothing. *)
Lemma save_raise p m b w e w' :
  _save_memory p m b w = (Raise e, w') ->
  detection_memory_file w' = detection_memory_file w /\
  trust_memory_file w' = trust_memory_file w /\
  history_dir w' = history_dir w.
Proof.
  destruct b; [|rewrite save_plain; discriminate].
  rewrite save_backup. destruct (memory_file m w) as [old|]; [|discriminate].
  destruct (is_file_name (backup_name m (version p) (strftime_compact (clock w (ticks w)))))
    eqn:Hn.
  - rewrite copy_to_history_ok by assumption. discriminate.
  - destruct (copy_to_history_raise _ old (later 1 w) Hn) as [e' ->].
    intros [= _ <-]. auto.
Qed.


Lemma bump_and_save_spec p m w :
  bump_and_save p m w =
  match next_version (version p) with
  | Raise e => (Raise e, w)
  | Ok v' =>
      let p' := Playbook_set_total_cases_processed (total_cases_processed p + 1)
                  (Playbook_set_version v' p) in
      match _save_memory p' m true w with
      | (Ok _, w') => (Ok p', w')
      | (Raise e, w') => (Raise e, w')
      end
  end.
Proof.
  unfold bump_and_save, bind, lift, ret.
  destruct (next_version (version p)) as [v'|e]; [|reflexivity].
  cbv zeta. destruct (_save_memory _ m true w) as [[[]|e] w']; reflexivity.
Qed.

(** [apply_delta_update], one outcome at a time. *)
Lemma apply_delta_update_spec delta w :
  let m := target_of delta in
  apply_delta_update delta w =
  match load_memory m w with
  | (Raise e, _) => (Raise e, w)
  | (Ok p, _) =>
      match DeltaUpdate.action delta with
      | no_action =>
          let p' := Playbook_set_total_cases_processed (total_cases_processed p + 1) p in
          (Ok p', saved m p' w)
      | a =>
          let w1 := if appends a then later 1 w else w in
          match mutated_rules delta p with
          | Raise e => (Raise e, w1)
          | Ok rs =>
              let p1 := Playbook_set_rules rs p in
              let p1 := if appends a then Playbook_set_last_updated (clock w (ticks w)) p1
                        else p1 in
              bump_and_save p1 m w1
          end
      end
  end.
Proof.
  cbv zeta. unfold apply_delta_update, mutated_rules, target_of, bind.
  destruct (DeltaUpdate.target_memory delta) as [[]|]; cbn [default from_option id];
    unfold load_detection_memory, load_trust_memory;
    rewrite !load_memory_spec;
    (match goal with
     | |- context [memory_file ?m w] => destruct (memory_file m w) as [data|]; [|reflexivity]
     end);
    (destruct (Playbook_validate data) as [p|e]; [|reflexivity]);
    destruct (DeltaUpdate.action delta); cbn [appends]; try reflexivity;
    unfold append_new_rule, bind, lift, ret, raise;
    try (destruct (DeltaUpdate.new_rule delta) as [rule|]; reflexivity);
    destruct (update_first _ _ _); reflexivity.
Qed.

(** An update whose rules are mutated and whose version moves on: it
    returns when the directory takes the name of the backup, and raises with
    nothing written when it does not. *)
Lemma apply_saving delta w old p rs v' :
  DeltaUpdate.action delta <> no_action ->
  memory_file (target_of delta) w = Some old ->
  Playbook_validate old = Ok p ->
  mutated_rules delta p = Ok rs ->
  next_version (version p) = Ok v' ->
  apply_delta_update delta w =
  match copy_to_history (update_backup_name delta w v') old
          (later (S (save_reading delta w - ticks w)) w) with
  | (Ok _, w1) => (Ok (updated delta w p rs v'), saved (target_of delta) (updated delta w p rs v') w1)
  | (Raise e, w1) => (Raise e, w1)
  end.
Proof.
  intros Ha Hf Hp Hr Hv.
  pose proof (apply_delta_update_spec delta w) as H. cbv zeta in H.
  rewrite load_memory_spec, Hf, Hp, Hr in H. rewrite H. clear H.
  unfold updated, update_backup_name, save_reading.
  destruct (DeltaUpdate.action delta); try congruence; cbn [appends];
    rewrite bump_and_save_spec; cbn [version Playbook_set_rules Playbook_set_last_updated];
    rewrite Hv; cbv zeta; rewrite save_backup;
    rewrite ?memory_file_later, Hf;
    try replace (S (ticks w) - ticks w)%nat with 1%nat by lia;
    try replace (ticks w - ticks w)%nat with 0%nat by lia;
    unfold later;
    cbn [version Playbook_set_total_cases_processed Playbook_set_version Nat.add
         clock ticks detection_memory_file trust_memory_file history_dir];
    match goal with
    | |- context [copy_to_history ?n ?o ?x] =>
        destruct (copy_to_history n o x) as [[[]|e] w1]; reflexivity
    end.
Qed.

Lemma apply_mutating delta w old p rs v' :
  DeltaUpdate.action delta <> no_action ->
  memory_file (target_of delta) w = Some old ->
  Playbook_validate old = Ok p ->
  mutated_rules delta p = Ok rs ->
  next_version (version p) = Ok v' ->
  is_file_name (update_backup_name delta w v') = true ->
  apply_delta_update delta w
  = (Ok (updated delta w p rs v'), after_update delta w old (updated delta w p rs v')).
Proof.
  intros Ha Hf Hp Hr Hv Hn.
  rewrite (apply_saving delta w old p rs v' Ha Hf Hp Hr Hv).
  rewrite copy_to_history_ok by assumption. reflexivity.
Qed.

Lemma apply_refused delta w old p rs v' :
  DeltaUpdate.action delta <> no_action ->
  memory_file (target_of delta) w = Some old ->
  Playbook_validate old = Ok p ->
  mutated_rules delta p = Ok rs ->
  next_version (version p) = Ok v' ->
  is_file_name (update_backup_name delta w v') = false ->
  exists e,
    apply_delta_update delta w = (Raise e, later (S (save_reading delta w - ticks w)) w).
Proof.
  intros Ha Hf Hp Hr Hv Hn.
  rewrite (apply_saving delta w old p rs v' Ha Hf Hp Hr Hv).
  destruct (copy_to_history_raise _ old (later (S (save_reading delta w - ticks w)) w) Hn)
    as [e ->]. eauto.
Qed.

Lemma apply_no_action delta w old p :
  DeltaUpdate.action delta = no_action ->
  memory_file (target_of delta) w = Some old ->
  Playbook_validate old = Ok p ->
  let p' := Playbook_set_total_cases_processed (total_cases_processed p + 1) p in
  apply_delta_update delta w = (Ok p', saved (target_of delta) p' w).
Proof.
  intros Ha Hf Hp.
  pose proof (apply_delta_update_spec delta w) as H. cbv zeta in H.
  rewrite load_memory_spec, Hf, Hp, Ha in H. exact H.
Qed.

(** An update that returns has loaded its memory, and is one of the two
    cases above. *)
Lemma apply_ok delta w p' w' :
  apply_delta_update delta w = (Ok p', w') ->
  exists old p,
    memory_file (target_of delta) w = Some old /\ Playbook_validate old = Ok p /\
    ((DeltaUpdate.action delta = no_action /\
      p' = Playbook_set_total_cases_processed (total_cases_processed p + 1) p /\
      w' = saved (target_of delta) p' w) \/
     (DeltaUpdate.action delta <> no_action /\
      exists rs v',
        mutated_rules delta p = Ok rs /\ next_version (version p) = Ok v' /\
        p' = updated delta w p rs v' /\ w' = after_update delta w old p')).
Proof.
  intros H.
  pose proof (apply_delta_update_spec delta w) as Hs. cbv zeta in Hs.
  rewrite load_memory_spec in Hs.
  destruct (memory_file (target_of delta) w) as [old|] eqn:Hf; [|congruence].
  destruct (Playbook_validate old) as [p|e] eqn:Hp; [|congruence].
  exists old, p. split; [reflexivity|]. split; [assumption|].
  destruct (decide (DeltaUpdate.action delta = no_action)) as [Ha|Ha].
  - left. rewrite (apply_no_action delta w old p Ha Hf Hp) in H.
    injection H as <- <-. auto.
  - right. split; [assumption|].
    destruct (mutated_rules delta p) as [rs|e] eqn:Hr.
    + destruct (next_version (version p)) as [v'|e] eqn:Hv.
      * destruct (is_file_name (update_backup_name delta w v')) eqn:Hn.
        -- rewrite (apply_mutating delta w old p rs v' Ha Hf Hp Hr Hv Hn) in H.
           injection H as <- <-. exists rs, v'. auto.
        -- destruct (apply_refused delta w old p rs v' Ha Hf Hp Hr Hv Hn) as [e He].
           congruence.
      * exfalso. rewrite Hs in H.
        destruct (DeltaUpdate.action delta); try congruence;
          rewrite bump_and_save_spec in H;
          cbn [version Playbook_set_rules Playbook_set_last_updated appends] in H;
          rewrite Hv in H; discriminate.
    + exfalso. rewrite Hs in H.
      destruct (DeltaUpdate.action delta); congruence.
Qed.


(** An update that raises has written nothing. *)
Lemma apply_raise delta w e w' :
  apply_delta_update delta w = (Raise e, w') ->
  detection_memory_file w' = detection_memory_file w /\
  trust_memory_file w' = trust_memory_file w /\
  history_dir w' = history_dir w.
Proof.
  intros H.
  pose proof (apply_delta_update_spec delta w) as Hs. cbv zeta in Hs.
  rewrite H, load_memory_spec in Hs. clear H.
  destruct (memory_file (target_of delta) w) as [old|]; [|injection Hs as _ ->; auto].
  destruct (Playbook_validate old) as [p|e0]; [|injection Hs as _ ->; auto].
  destruct (DeltaUpdate.action delta); try discriminate; cbn [appends] in Hs;
    (destruct (mutated_rules delta p) as [rs|e1]; [|injection Hs as _ ->; auto]);
    rewrite bump_and_save_spec in Hs;
    (destruct (next_version _); [|injection Hs as _ ->; auto]);
    cbv zeta in Hs;
    match type of Hs with
    | context [_save_memory ?q ?m true ?x] =>
        destruct (_save_memory q m true x) as [[[]|e2] w2] eqn:Es; [discriminate|];
        destruct (save_raise _ _ _ _ _ _ Es) as (Hd & Ht & Hh);
        injection Hs as _ ->; rewrite Hd, Ht, Hh; auto
    end.
Qed.

End Manager.

(** ** The update protocol *)

Section Protocol.

Import PlaybookManager.



Lemma memory_file_after_update delta w old p' m' :
  memory_file m' (after_update delta w old p') =
  if Memory_eqb (target_of delta) m' then Some p' else memory_file m' w.
Proof.
  unfold after_update. rewrite memory_file_saved.
  destruct (target_of delta), m'; reflexivity.
Qed.






End Protocol.




Section Bookkeeping.

Import PlaybookManager.


End Bookkeeping.



(** C10. An [add_rule] or [refine_rule] request without [new_rule] raises: the
    files and the history directory are as they were; when the target memory
    loads, the exception is the [AttributeError] of the attribute read on
    [None], raised before the save. Nothing checks for the missing rule before
    that. *)
Theorem new_rule_missing_raises delta w :
  DeltaUpdate.action delta = add_rule \/ DeltaUpdate.action delta = refine_rule ->
  DeltaUpdate.new_rule delta = None ->
  exists e w',
    PlaybookManager.apply_delta_update delta w = (Raise e, w') /\
    detection_memory_file w' = detection_memory_file w /\
    trust_memory_file w' = trust_memory_file w /\
    history_dir w' = history_dir w /\
    (forall old p,
       PlaybookManager.memory_file (target_of delta) w = Some old ->
       Playbook_validate old = Ok p -> e = AttributeError).
Proof.
  intros Ha Hn.
  assert (Hr : forall p, mutated_rules delta p = Raise AttributeError).
  { intros p. unfold mutated_rules. destruct Ha as [-> | ->]; rewrite Hn; reflexivity. }
  destruct (PlaybookManager.apply_delta_update delta w) as [[p'|e] w'] eqn:E.
  - exfalso. destruct (apply_ok _ _ _ _ E) as (old & p & _ & _ & [(Hna & _)|(_ & rs & v' & Hm & _)]).
    + destruct Ha; congruence.
    + rewrite Hr in Hm. discriminate.
  - exists e, w'. split; [reflexivity|].
    destruct (apply_raise _ _ _ _ E) as (Hd & Ht & Hh).
    repeat (split; [assumption|]).
    intros old p Hf Hp.
    pose proof (apply_delta_update_spec delta w) as Hs. cbv zeta in Hs.
    rewrite E, load_memory_spec, Hf, Hp, Hr in Hs.
    destruct Ha as [Ha|Ha]; rewrite Ha in Hs; congruence.
Qed.

(** The statement above in [world_a]. *)
Lemma new_rule_missing_raises_witness :
  exists w',
    PlaybookManager.apply_delta_update add_nothing world_a = (Raise AttributeError, w') /\
    detection_memory_file w' = Some playbook_a /\ history_dir w' = ∅.
Proof.
  destruct (new_rule_missing_raises add_nothing world_a (or_introl eq_refl) eq_refl)
    as (e & w' & H & Hd & _ & Hh & He).
  rewrite (He playbook_a playbook_a eq_refl eq_refl) in H.
  exists w'. auto.
Defined.




(** ** Versions under the update protocol *)

Section VersionInvariant.

Import PlaybookManager.



End VersionInvariant.



(** ** The lookup of rules by id *)

Section Lookup.

Import PlaybookManager.

Lemma latest_active_found id found rs :
  latest_active id found rs =
  match latest_active id None rs with
  | Some rule => Some rule
  | None => found
  end.
Proof.
  revert found. induction rs as [|rule rs IH]; intros found; cbn [latest_active];
    [reflexivity|].
  rewrite IH,
    (IH (if active rule && String.eqb (rule_id rule) id then Some rule else None)).
  destruct (latest_active id None rs); [reflexivity|].
  destruct (active rule && String.eqb (rule_id rule) id); reflexivity.
Qed.

Lemma latest_active_some id rs rule :
  latest_active id None rs = Some rule ->
  In rule rs /\ active rule = true /\ rule_id rule = id.
Proof.
  induction rs as [|r rs IH]; cbn [latest_active]; [discriminate|].
  rewrite latest_active_found.
  destruct (latest_active id None rs) as [r'|] eqn:E.
  - intros [= <-]. destruct (IH eq_refl) as (Hin & Ha & Hid).
    split; [right; assumption|auto].
  - destruct (active r && String.eqb (rule_id r) id) eqn:Er; [|discriminate].
    intros [= <-]. apply andb_true_iff in Er as [Ha Hid].
    apply String.eqb_eq in Hid. split; [left; reflexivity|auto].
Qed.

Lemma latest_active_none id rs :
  latest_active id None rs = None ->
  forall rule, In rule rs -> active rule = true -> rule_id rule <> id.
Proof.
  induction rs as [|r rs IH]; cbn [latest_active]; [intros _ rule []|].
  rewrite latest_active_found.
  destruct (latest_active id None rs) as [r'|] eqn:E; [discriminate|].
  destruct (active r && String.eqb (rule_id r) id) eqn:Er; [discriminate|].
  intros _ rule [<-|Hin] Ha Hid.
  - rewrite Ha in Er. apply String.eqb_eq in Hid. cbn in Er. congruence.
  - exact (IH eq_refl rule Hin Ha Hid).
Qed.

Lemma latest_active_exists id rs :
  (exists rule, In rule rs /\ active rule = true /\ rule_id rule = id) ->
  exists rule, latest_active id None rs = Some rule.
Proof.
  intros (rule & Hin & Ha & Hid).
  destruct (latest_active id None rs) as [r|] eqn:E; [eauto|].
  exfalso. exact (latest_active_none id rs E rule Hin Ha Hid).
Qed.

(** The dict of one memory: an id maps to the last active rule that carries
    it, tagged with the memory; other ids keep their entry. *)
Lemma index_active_lookup m rs (all_rules : gmap string Rule) id :
  index_active m rs all_rules !! id =
  match latest_active id None rs with
  | Some rule => Some (Rule_set_memory_type (Some m) rule)
  | None => all_rules !! id
  end.
Proof.
  revert all_rules. unfold index_active.
  induction rs as [|r rs IH]; intros all_rules; cbn [fold_left latest_active];
    [reflexivity|].
  rewrite IH,
    (latest_active_found id
       (if active r && String.eqb (rule_id r) id then Some r else None)).
  destruct (latest_active id None rs); [reflexivity|].
  destruct (active r) eqn:Ha; cbn [andb]; [|reflexivity].
  destruct (String.eqb_spec (rule_id r) id) as [<-|Hne].
  - apply lookup_insert_eq.
  - apply lookup_insert_ne. assumption.
Qed.

Lemma get_rules_by_ids_spec rule_ids w d t :
  load_memory detection w = (Ok d, w) ->
  load_memory trust w = (Ok t, w) ->
  get_rules_by_ids rule_ids w =
  (Ok match rule_ids with
      | [] => NoRulesSelected
      | _ =>
          match omap (fun id =>
                        index_active trust (rules t)
                          (index_active detection (rules d) ∅) !! id) rule_ids with
          | [] => NotFoundInActive rule_ids
          | selected_rules => SelectedRules selected_rules
          end
      end, w).
Proof.
  intros Hd Ht. unfold get_rules_by_ids.
  destruct rule_ids as [|id ids]; [reflexivity|].
  unfold bind, load_detection_memory, load_trust_memory. rewrite Hd, Ht.
  destruct (omap _ (id :: ids)); reflexivity.
Qed.

End Lookup.

(** C9. In [get_rules_by_ids] only active rules are candidates: a rule that is
    returned is an active rule of one of the two memories, tagged with that
    memory. For a rule id that is active in the trust memory, and so for every
    id active in both, the record returned is the rule of the trust memory: a
    detection rule is returned only for an id that no active trust rule
    carries. *)
Theorem trust_shadows_detection rule_ids w d t :
  PlaybookManager.load_memory detection w = (Ok d, w) ->
  PlaybookManager.load_memory trust w = (Ok t, w) ->
  let all_rules :=
    PlaybookManager.index_active trust (rules t)
      (PlaybookManager.index_active detection (rules d) ∅) in
  PlaybookManager.get_rules_by_ids rule_ids w =
    (Ok match rule_ids with
        | [] => PlaybookManager.NoRulesSelected
        | _ =>
            match omap (fun id => all_rules !! id) rule_ids with
            | [] => PlaybookManager.NotFoundInActive rule_ids
            | selected_rules => PlaybookManager.SelectedRules selected_rules
            end
        end, w) /\
  (forall id rule, all_rules !! id = Some rule ->
     rule_id rule = id /\ active rule = true /\
     ((exists r0, In r0 (rules t) /\ rule = Rule_set_memory_type (Some trust) r0) \/
      (exists r0, In r0 (rules d) /\ rule = Rule_set_memory_type (Some detection) r0 /\
         forall x, In x (rules t) -> active x = true -> rule_id x <> id))) /\
  (forall id,
     (exists x, In x (rules t) /\ active x = true /\ rule_id x = id) ->
     exists r0, In r0 (rules t) /\ active r0 = true /\ rule_id r0 = id /\
                all_rules !! id = Some (Rule_set_memory_type (Some trust) r0)).
Proof.
  intros Hd Ht all_rules. split; [apply get_rules_by_ids_spec; assumption|].
  subst all_rules. split.
  - intros id rule. rewrite !index_active_lookup, lookup_empty.
    destruct (latest_active id None (rules t)) as [r0|] eqn:E.
    + intros [= <-]. destruct (latest_active_some _ _ _ E) as (Hin & Ha & Hid).
      repeat split; [assumption..|]. left. eauto.
    + destruct (latest_active id None (rules d)) as [r0|] eqn:E'; [|discriminate].
      intros [= <-]. destruct (latest_active_some _ _ _ E') as (Hin & Ha & Hid).
      repeat split; [assumption..|]. right. exists r0.
      repeat split; [assumption|]. exact (latest_active_none _ _ E).
  - intros id Hex. destruct (latest_active_exists _ _ Hex) as [r0 E].
    destruct (latest_active_some _ _ _ E) as (Hin & Ha & Hid).
    exists r0. repeat split; [assumption..|].
    rewrite index_active_lookup, E. reflexivity.
Qed.

(** The statement above in [world_both], where "shr-00002" is active in both
    memories. *)
Lemma trust_shadows_detection_witness :
  fst (PlaybookManager.get_rules_by_ids ["shr-00002"; "shr-00001"] world_both) =
    Ok (PlaybookManager.SelectedRules
          [Rule_set_memory_type (Some trust) rule_b_trusted;
           Rule_set_memory_type (Some detection) rule_a]).
Proof.
  rewrite (proj1 (trust_shadows_detection ["shr-00002"; "shr-00001"] world_both
                    (mkPlaybook "v1.2" [rule_a; rule_b] noon 2)
                    (mkPlaybook "v1.1" [rule_b_trusted] noon 1) eq_refl eq_refl)).
  reflexivity.
Defined.

(** ** Deprecation *)

Section Deprecation.

Import PlaybookManager.




Lemma index_active_without m l1 r l2 (all_rules : gmap string Rule) :
  active r = false ->
  index_active m (l1 ++ r :: l2) all_rules = index_active m (l1 ++ l2) all_rules.
Proof.
  intros Hr. unfold index_active. rewrite !fold_left_app. cbn [fold_left].
  rewrite Hr. reflexivity.
Qed.





End Deprecation.

Section SoftDelete.

Import PlaybookManager.



End SoftDelete.



(** C6. The code at the failing input. Nothing checks that the id of an added
    rule is new to its memory, and [deprecate_rule] stops at the first record
    that carries the id. From the two empty memories, the same rule is added
    twice and its id is deprecated: the second record is still active, still
    in the brief summary and still returned by id. *)
Lemma deprecate_misses_second_rule :
  let w := apply_all [add_b; add_b; deprecate_b] fresh_world in
  option_map (fun p => List.map (fun r => (rule_id r, active r)) (rules p))
    (detection_memory_file w)
    = Some [("shr-00002", false); ("shr-00002", true)] /\
  fst (PlaybookManager.get_rules_brief_summary w)
    = Ok (PlaybookManager.mkBrief "v1.3" [PlaybookManager.entry_of rule_b] "v1.0" []) /\
  fst (PlaybookManager.get_rules_by_ids ["shr-00002"] w)
    = Ok (PlaybookManager.SelectedRules [Rule_set_memory_type (Some detection) rule_b]).
Proof. repeat split. Qed.

(** ** The classification policy *)

Section Classification.

Import CuratorAgent.

Lemma dict_lookup_set_eq d k v : Py.dict_lookup (Py.dict_set d k v) k = Some v.
Proof.
  induction d as [|[k' v'] d IH]; cbn [Py.dict_set Py.dict_lookup].
  - rewrite String.eqb_refl. reflexivity.
  - destruct (String.eqb k' k) eqn:E; cbn [Py.dict_lookup]; rewrite E; [reflexivity|exact IH].
Qed.

Lemma dict_lookup_set_ne d k k' v :
  k <> k' -> Py.dict_lookup (Py.dict_set d k v) k' = Py.dict_lookup d k'.
Proof.
  intros Hne. induction d as [|[k0 v0] d IH]; cbn [Py.dict_set Py.dict_lookup].
  - destruct (String.eqb_spec k k'); [congruence|reflexivity].
  - destruct (String.eqb_spec k0 k) as [->|]; cbn [Py.dict_lookup].
    + destruct (String.eqb_spec k k'); [congruence|reflexivity].
    + rewrite IH. reflexivity.
Qed.

Lemma supplement_keeps_action case_id now d d' :
  supplement_new_rule case_id now d = Ok d' ->
  Py.dict_lookup d' "action" = Py.dict_lookup d "action".
Proof.
  unfold supplement_new_rule.
  destruct (Py.truthy (Py.dict_get d "new_rule")); [|congruence].
  destruct (Py.dict_get d "new_rule"); try discriminate.
  intros [= <-]. apply dict_lookup_set_ne. discriminate.
Qed.

Lemma classify_memory_target verdict_value d a :
  Py.dict_lookup d "action" = Some (PStr (action_name a)) ->
  target_memory_of (classify_memory verdict_value d)
  = Ok (Some (routed_memory a verdict_value)).
Proof.
  intros Ha. unfold classify_memory, target_memory_of, Py.dict_get. rewrite Ha.
  destruct a; cbn [action_name Py.in_str_list existsb routed_memory];
    change (String.eqb ?x ?y) with (String.eqb x y);
    match goal with
    | |- context [if ?b then _ else _] =>
        let v := eval vm_compute in b in change b with v
    end; cbv iota; rewrite dict_lookup_set_eq;
    try reflexivity;
    destruct (String.eqb verdict_value "True"); reflexivity.
Qed.

End Classification.

(** C7. With the action of an Update Request in the answer of the language
    model, [curate] classifies it by the verdict: the literal "True" routes
    every action but [no_action] to the trust memory, any other verdict routes
    it to the detection memory, and [no_action] goes to the detection memory
    whatever the verdict, as does the [no_action] request [curate] falls back
    to. *)
Theorem verdict_routes_memory (a : Action) case_id verdict_value now d kwargs :
  Py.dict_lookup d "action" = Some (PStr (CuratorAgent.action_name a)) ->
  CuratorAgent.curate_data case_id verdict_value now (PDict d) = Ok kwargs ->
  CuratorAgent.target_memory_of kwargs = Ok (Some (routed_memory a verdict_value)) /\
  (verdict_value = "True" -> a <> no_action -> routed_memory a verdict_value = trust) /\
  (verdict_value <> "True" -> routed_memory a verdict_value = detection) /\
  routed_memory no_action verdict_value = detection /\
  (forall reason,
     DeltaUpdate.action (CuratorAgent.fallback reason) = no_action /\
     DeltaUpdate.target_memory (CuratorAgent.fallback reason) = Some detection).
Proof.
  intros Ha Hc. unfold CuratorAgent.curate_data in Hc.
  destruct (CuratorAgent.supplement_new_rule case_id now d) as [d'|e] eqn:Es;
    [|discriminate].
  cbn [exc_bind] in Hc. injection Hc as <-.
  rewrite <- (supplement_keeps_action _ _ _ _ Es) in Ha.
  split; [apply classify_memory_target; assumption|].
  split; [|split; [|split]].
  - intros -> Hna. destruct a; try reflexivity. congruence.
  - intros Hv. destruct a; cbn [routed_memory]; try reflexivity;
      destruct (String.eqb_spec verdict_value "True"); congruence.
  - reflexivity.
  - intros reason. split; reflexivity.
Qed.

(** The statement above for an [add_rule] answer and each of the verdicts
    "True" and "Unverifiable". *)
Lemma verdict_routes_memory_witness :
  (exists kwargs,
     CuratorAgent.curate_data "case-17" "True" noon (PDict answer_add) = Ok kwargs /\
     CuratorAgent.target_memory_of kwargs = Ok (Some trust)) /\
  (exists kwargs,
     CuratorAgent.curate_data "case-17" "Unverifiable" noon (PDict answer_add) = Ok kwargs /\
     CuratorAgent.target_memory_of kwargs = Ok (Some detection)).
Proof.
  split; eexists; (split; [reflexivity|]).
  - exact (proj1 (verdict_routes_memory add_rule "case-17" "True" noon answer_add _
                    eq_refl eq_refl)).
  - exact (proj1 (verdict_routes_memory add_rule "case-17" "Unverifiable" noon answer_add _
                    eq_refl eq_refl)).
Defined.

(** ** The validator *)

Section Validator.

Import PlaybookValidator.

Lemma repaired_refl st : repaired st st.
Proof. split; reflexivity. Qed.

Lemma repaired_trans st1 st2 st3 : repaired st1 st2 -> repaired st2 st3 -> repaired st1 st3.
Proof. intros [F1 L1] [F2 L2]. split; [congruence|lia]. Qed.

(** Unfold the monad of the validator. *)
Ltac vsimpl :=
  unfold vbind, vret, vraise, append_issue, append_fix, member in *;
  cbn [fst snd issues fixes files] in *.

Lemma fix_evidence_count_noop rule_id rule st :
  evidence_count_ok (Py.dict_lookup rule "evidence_count") ->
  fix_evidence_count rule_id rule st = (Ok rule, st).
Proof.
  unfold fix_evidence_count, evidence_count_ok.
  destruct (Py.dict_lookup rule "evidence_count") as [[]|]; cbn [Py.is_int negb];
    intros H; try discriminate; reflexivity.
Qed.

Lemma fix_evidence_count_ok rule_id rule st rule' st' :
  fix_evidence_count rule_id rule st = (Ok rule', st') ->
  repaired st st' /\
  evidence_count_ok (Py.dict_lookup rule' "evidence_count") /\
  forall k, k <> "evidence_count" -> Py.dict_lookup rule' k = Py.dict_lookup rule k.
Proof.
  unfold fix_evidence_count, evidence_count_ok.
  destruct (Py.dict_lookup rule "evidence_count") as [ec|] eqn:E.
  2:{ vsimpl. intros [= <- <-]. rewrite E. auto using repaired_refl. }
  destruct ec; cbn [Py.is_int negb Py.int]; vsimpl;
    try (intros [= <- <-]; rewrite ?dict_lookup_set_eq, ?E;
         split; [first [apply repaired_refl | split; [reflexivity|cbn; rewrite !length_app; cbn; lia]]|];
         split; [reflexivity|];
         intros k Hk; rewrite ?dict_lookup_set_ne by congruence; reflexivity).
  destruct (Py.int_of_str s); vsimpl; intros [= <- <-]; rewrite dict_lookup_set_eq;
    (split; [split; [reflexivity|cbn; rewrite !length_app; cbn; lia]|]);
    (split; [reflexivity|]);
    intros k Hk; rewrite dict_lookup_set_ne by congruence; reflexivity.
Qed.

(** Close the three parts of what a repair guarantees, after the state and
    the rule it returned are known. *)
Ltac repair_done :=
  (split; [first [apply repaired_refl
                 | split; [reflexivity|cbn; rewrite !length_app; cbn; lia]]|]);
  (split; [first [reflexivity | assumption | eauto]|]);
  let k := fresh "k" in let Hk := fresh "Hk" in
  intros k Hk; rewrite ?dict_lookup_set_ne by congruence; reflexivity.

Lemma fix_type_noop rule_id rule st :
  type_ok (Py.dict_lookup rule "type") -> fix_type rule_id rule st = (Ok rule, st).
Proof.
  unfold fix_type, type_ok.
  destruct (Py.dict_lookup rule "type") as [rule_type|]; [|reflexivity].
  intros H. vsimpl. rewrite H. reflexivity.
Qed.

Lemma fix_type_ok rule_id rule st rule' st' :
  fix_type rule_id rule st = (Ok rule', st') ->
  repaired st st' /\
  type_ok (Py.dict_lookup rule' "type") /\
  forall k, k <> "type" -> Py.dict_lookup rule' k = Py.dict_lookup rule k.
Proof.
  unfold fix_type, type_ok.
  destruct (Py.dict_lookup rule "type") as [rule_type|] eqn:E.
  2:{ vsimpl. intros [= <- <-]. rewrite E. repair_done. }
  vsimpl. destruct (Py.in_str_set rule_type VALID_TYPES) as [[]|e] eqn:Em;
    cbn [negb]; try discriminate; intros [= <- <-];
    rewrite ?dict_lookup_set_eq, ?E; repair_done.
Qed.

Lemma fix_confidence_noop rule_id rule st :
  confidence_ok (Py.dict_lookup rule "confidence") ->
  fix_confidence rule_id rule st = (Ok rule, st).
Proof.
  unfold fix_confidence, confidence_ok.
  destruct (Py.dict_lookup rule "confidence") as [conf|]; [|reflexivity].
  intros (conf_float & -> & -> & ->). reflexivity.
Qed.

Lemma fix_confidence_ok rule_id rule st rule' st' :
  fix_confidence rule_id rule st = (Ok rule', st') ->
  repaired st st' /\
  confidence_ok (Py.dict_lookup rule' "confidence") /\
  forall k, k <> "confidence" -> Py.dict_lookup rule' k = Py.dict_lookup rule k.
Proof.
  unfold fix_confidence, confidence_ok.
  destruct (Py.dict_lookup rule "confidence") as [conf|] eqn:E.
  2:{ vsimpl. intros [= <- <-]. rewrite E. repair_done. }
  assert (Hz : exists f, Py.float (PFloat Py.float_zero) = Ok f /\
                Py.flt f Py.float_zero = false /\ Py.flt Py.float_one f = false)
    by (eexists; repeat split).
  assert (Ho : exists f, Py.float (PFloat Py.float_one) = Ok f /\
                Py.flt f Py.float_zero = false /\ Py.flt Py.float_one f = false)
    by (eexists; repeat split).
  assert (Hh : exists f, Py.float (PFloat Py.float_half) = Ok f /\
                Py.flt f Py.float_zero = false /\ Py.flt Py.float_one f = false)
    by (eexists; repeat split).
  destruct (Py.float conf) as [conf_float|[]] eqn:Ef; vsimpl; try discriminate.
  - destruct (Py.flt conf_float Py.float_zero) eqn:E0;
      [|destruct (Py.flt Py.float_one conf_float) eqn:E1];
      intros [= <- <-]; rewrite ?dict_lookup_set_eq, ?E; repair_done.
  - intros [= <- <-]. rewrite dict_lookup_set_eq. repair_done.
  - intros [= <- <-]. rewrite dict_lookup_set_eq. repair_done.
Qed.

Lemma fix_memory_type_noop rule_id rule st :
  memory_type_ok (Py.dict_lookup rule "memory_type") ->
  fix_memory_type rule_id rule st = (Ok rule, st).
Proof.
  unfold fix_memory_type, memory_type_ok.
  destruct (Py.dict_lookup rule "memory_type") as [mem_type|]; [|reflexivity].
  destruct (Py.truthy mem_type); [|reflexivity].
  intros [H|H]; [discriminate|]. vsimpl. rewrite H. reflexivity.
Qed.

Lemma fix_memory_type_ok rule_id rule st rule' st' :
  fix_memory_type rule_id rule st = (Ok rule', st') ->
  repaired st st' /\
  memory_type_ok (Py.dict_lookup rule' "memory_type") /\
  forall k, k <> "memory_type" -> Py.dict_lookup rule' k = Py.dict_lookup rule k.
Proof.
  unfold fix_memory_type, memory_type_ok.
  destruct (Py.dict_lookup rule "memory_type") as [mem_type|] eqn:E.
  2:{ vsimpl. intros [= <- <-]. rewrite E. repair_done. }
  destruct (Py.truthy mem_type) eqn:Et.
  2:{ vsimpl. intros [= <- <-]. rewrite E. repair_done. }
  vsimpl. destruct (Py.in_str_set mem_type VALID_MEMORIES) as [[]|e] eqn:Em;
    cbn [negb]; try discriminate; intros [= <- <-];
    rewrite ?dict_lookup_set_eq, ?E; repair_done.
Qed.

Lemma validate_rule_noop rule index st :
  rule_clean rule -> _validate_and_fix_rule rule index st = (Ok rule, st).
Proof.
  intros (fields & -> & He & Ht & Hc & Hm). unfold _validate_and_fix_rule, vbind.
  rewrite (fix_evidence_count_noop _ _ _ He), (fix_type_noop _ _ _ Ht),
    (fix_confidence_noop _ _ _ Hc), (fix_memory_type_noop _ _ _ Hm).
  reflexivity.
Qed.

Lemma validate_rule_ok rule index st rule' st' :
  _validate_and_fix_rule rule index st = (Ok rule', st') ->
  repaired st st' /\ rule_clean rule'.
Proof.
  unfold _validate_and_fix_rule.
  destruct rule as [| | | | |l|fields]; try discriminate.
  set (rule_id := match Py.dict_lookup fields "rule_id" with
                  | Some v => v
                  | None => PStr ("rule_" +:+ Py.str_of_int (Z.of_nat index))
                  end).
  unfold vbind.
  destruct (fix_evidence_count rule_id fields st) as [[f1|e] st1] eqn:E1; [|discriminate].
  destruct (fix_type rule_id f1 st1) as [[f2|e] st2] eqn:E2; [|discriminate].
  destruct (fix_confidence rule_id f2 st2) as [[f3|e] st3] eqn:E3; [|discriminate].
  destruct (fix_memory_type rule_id f3 st3) as [[f4|e] st4] eqn:E4; [|discriminate].
  unfold vret. intros [= <- <-].
  destruct (fix_evidence_count_ok _ _ _ _ _ E1) as (R1 & O1 & K1).
  destruct (fix_type_ok _ _ _ _ _ E2) as (R2 & O2 & K2).
  destruct (fix_confidence_ok _ _ _ _ _ E3) as (R3 & O3 & K3).
  destruct (fix_memory_type_ok _ _ _ _ _ E4) as (R4 & O4 & K4).
  split; [eauto using repaired_trans|].
  exists f4. split; [reflexivity|].
  rewrite (K4 "evidence_count"), (K3 "evidence_count"), (K2 "evidence_count") by discriminate.
  rewrite (K4 "type"), (K3 "type") by discriminate.
  rewrite (K4 "confidence") by discriminate.
  auto.
Qed.

Lemma fix_rules_noop rs index st :
  Forall rule_clean rs -> fix_rules rs index st = (Ok rs, st).
Proof.
  intros H. revert index. induction H as [|rule rs Hr _ IH]; intros index;
    cbn [fix_rules]; [reflexivity|].
  unfold vbind. rewrite (validate_rule_noop _ _ _ Hr), IH. reflexivity.
Qed.

Lemma fix_rules_ok rs index st rs' st' :
  fix_rules rs index st = (Ok rs', st') -> repaired st st' /\ Forall rule_clean rs'.
Proof.
  revert index st rs' st'. induction rs as [|rule rs IH]; intros index st rs' st';
    cbn [fix_rules]; unfold vbind, vret.
  - intros [= <- <-]. split; [apply repaired_refl|constructor].
  - destruct (_validate_and_fix_rule rule index st) as [[rule'|e] st1] eqn:E1; [|discriminate].
    destruct (fix_rules rs (S index) st1) as [[rs1|e] st2] eqn:E2; [|discriminate].
    intros [= <- <-].
    destruct (validate_rule_ok _ _ _ _ _ E1) as [R1 C1].
    destruct (IH _ _ _ _ E2) as [R2 C2].
    split; [eauto using repaired_trans|constructor; assumption].
Qed.

(** The loop returns from a list of strings only when the list is empty. *)
Lemma fix_rules_strings rs index st rs' st' :
  Forall (fun v => Py.is_str v = true) rs ->
  fix_rules rs index st = (Ok rs', st') -> rs = [] /\ rs' = [] /\ st' = st.
Proof.
  intros H. destruct H as [|v rs Hv _]; cbn [fix_rules]; unfold vbind, vret.
  - intros [= <- <-]. auto.
  - destruct v; try discriminate.
Qed.

Lemma dict_set_twice d k v : Py.dict_set (Py.dict_set d k v) k v = Py.dict_set d k v.
Proof.
  induction d as [|[k' v'] d IH]; cbn [Py.dict_set].
  - rewrite String.eqb_refl. reflexivity.
  - destruct (String.eqb k' k) eqn:E; cbn [Py.dict_set]; rewrite E; [reflexivity|].
    rewrite IH. reflexivity.
Qed.

Lemma chars_strings s : Forall (fun v => Py.is_str v = true) (chars s).
Proof. induction s; cbn [chars]; constructor; auto. Qed.

Lemma keys_strings (d : list (string * pyval)) :
  Forall (fun v => Py.is_str v = true) (List.map (fun kv => PStr (fst kv)) d).
Proof. induction d; cbn [List.map]; constructor; auto. Qed.

(** The repairs of a file are settled by one run: the data it returns is
    returned as it is, with no new issue, by any later run. *)
Lemma fix_data_ok data st data' st' :
  fix_data data st = (Ok data', st') ->
  repaired st st' /\ forall st2, fix_data data' st2 = (Ok data', st2).
Proof.
  unfold fix_data.
  destruct (has_rules data) as [[]|e] eqn:Eh; try discriminate.
  2:{ unfold vret. intros [= <- <-]. split; [apply repaired_refl|].
      intros st2. rewrite Eh. reflexivity. }
  destruct data as [| | | | | |d]; try discriminate.
  destruct (Py.dict_get d "rules") as [| | | |s|rs|keys] eqn:Eg; try discriminate;
    unfold vbind, vret.
  - destruct (fix_rules (chars s) 0 st) as [[rs'|e] st1] eqn:E; [|discriminate].
    intros [= <- <-].
    destruct (fix_rules_strings _ _ _ _ _ (chars_strings s) E) as (Hs & _ & ->).
    split; [apply repaired_refl|]. intros st2.
    rewrite Eh, Eg. unfold vbind. rewrite Hs. reflexivity.
  - destruct (fix_rules rs 0 st) as [[rs'|e] st1] eqn:E; [|discriminate].
    intros [= <- <-]. destruct (fix_rules_ok _ _ _ _ _ E) as [R C].
    split; [assumption|]. intros st2.
    cbn [has_rules]. rewrite dict_lookup_set_eq.
    rewrite bool_decide_eq_true_2 by eauto.
    unfold Py.dict_get. rewrite dict_lookup_set_eq.
    unfold vbind. rewrite (fix_rules_noop _ _ _ C), dict_set_twice. reflexivity.
  - destruct (fix_rules (List.map (fun kv => PStr (fst kv)) keys) 0 st)
      as [[rs'|e] st1] eqn:E; [|discriminate].
    intros [= <- <-].
    destruct (fix_rules_strings _ _ _ _ _ (keys_strings keys) E) as (Hs & _ & ->).
    split; [apply repaired_refl|]. intros st2.
    rewrite Eh, Eg. unfold vbind. rewrite Hs. reflexivity.
Qed.

(** [validate_and_fix_file], one outcome at a time. *)
Lemma validate_and_fix_file_spec filepath create_backup st :
  validate_and_fix_file filepath create_backup st =
  match files st !! filepath with
  | None => (Raise FileNotFoundError, st)
  | Some not_json => (Ok failure, st)
  | Some (json data) =>
      match fix_data data (mkState [] [] (files st)) with
      | (Raise e, st') => (Raise e, st')
      | (Ok data', st') =>
          match fixes st' with
          | [] => (Ok (report_of st'), st')
          | _ =>
              if create_backup then
                match with_suffix filepath ".json.bak" with
                | Raise e => (Raise e, st')
                | Ok backup_path =>
                    match files st' !! filepath with
                    | None => (Raise FileNotFoundError, st')
                    | Some content =>
                        (Ok (report_of st'),
                         mkState (issues st') (fixes st')
                           (<[filepath := json data']>
                              (<[backup_path := content]> (delete filepath (files st')))))
                    end
                end
              else
                (Ok (report_of st'),
                 mkState (issues st') (fixes st') (<[filepath := json data']> (files st')))
          end
      end
  end.
Proof.
  unfold validate_and_fix_file, vbind, read_file, reset_counters.
  destruct (files st !! filepath) as [[|data]|]; try reflexivity.
  destruct (fix_data data (mkState [] [] (files st))) as [[data'|e] st'];
    [|reflexivity].
  destruct (fixes st') as [|f fs] eqn:Ef; unfold vret.
  - unfold report_of. rewrite Ef. reflexivity.
  - destruct create_backup.
    + destruct (with_suffix filepath ".json.bak") as [backup_path|e]; unfold vraise;
        [|reflexivity].
      unfold rename_file. destruct (files st' !! filepath); [|reflexivity].
      unfold write_file, report_of. cbn [issues fixes files]. rewrite Ef. reflexivity.
    + unfold write_file, report_of. cbn [issues fixes files]. rewrite Ef. reflexivity.
Qed.

Lemma second_run filepath create_backup st data :
  files st !! filepath = Some (json data) ->
  (forall st2, fix_data data st2 = (Ok data, st2)) ->
  validate_and_fix_file filepath create_backup st
  = (Ok (success 0 0 [] []), mkState [] [] (files st)).
Proof.
  intros Hf Hd. rewrite validate_and_fix_file_spec, Hf, Hd. reflexivity.
Qed.

End Validator.

(** C8. [validate_and_fix_file] is idempotent: after a run that returned its
    report for a file (with or without fixes, with or without a backup), a
    second run on the same file reports zero issues and zero fixes and leaves
    every file, the validated one included, as the first run left it. *)
Theorem validate_and_fix_file_idempotent
  filepath create_backup create_backup' st st1 n k found applied :
  PlaybookValidator.validate_and_fix_file filepath create_backup st
    = (Ok (PlaybookValidator.success n k found applied), st1) ->
  exists st2,
    PlaybookValidator.validate_and_fix_file filepath create_backup' st1
      = (Ok (PlaybookValidator.success 0 0 [] []), st2) /\
    PlaybookValidator.files st2 = PlaybookValidator.files st1.
Proof.
  rewrite validate_and_fix_file_spec.
  destruct (PlaybookValidator.files st !! filepath) as [[|data]|] eqn:Hf; try discriminate.
  destruct (PlaybookValidator.fix_data data
              (PlaybookValidator.mkState [] [] (PlaybookValidator.files st)))
    as [[data'|e] st'] eqn:Ed; [|discriminate].
  destruct (fix_data_ok _ _ _ _ Ed) as [[Hfiles Hlen] Hnoop].
  cbn [PlaybookValidator.files PlaybookValidator.issues PlaybookValidator.fixes] in Hfiles, Hlen.
  destruct (PlaybookValidator.fixes st') as [|f fs] eqn:Ef.
  - intros [= _ _ _ _ <-].
    assert (Hi : PlaybookValidator.issues st' = []).
    { destruct (PlaybookValidator.issues st'); [reflexivity|]. cbn in Hlen. lia. }
    exists st'. split; [|reflexivity].
    rewrite validate_and_fix_file_spec, Hfiles, Hf, Ed, Ef.
    unfold report_of. rewrite Hi, Ef. reflexivity.
  - destruct create_backup.
    + destruct (PlaybookValidator.with_suffix filepath ".json.bak") as [backup_path|e];
        [|discriminate].
      destruct (PlaybookValidator.files st' !! filepath) as [content|]; [|discriminate].
      intros [= _ _ _ _ <-]. eexists. split.
      * apply (second_run _ _ _ data'); [|exact Hnoop].
        cbn [PlaybookValidator.files]. apply lookup_insert_eq.
      * reflexivity.
    + intros [= _ _ _ _ <-]. eexists. split.
      * apply (second_run _ _ _ data'); [|exact Hnoop].
        cbn [PlaybookValidator.files]. apply lookup_insert_eq.
      * reflexivity.
Qed.

(** The statement above for the broken file: the first run finds and fixes
    four fields and keeps a backup, the second finds nothing. *)
Lemma validate_and_fix_file_idempotent_witness :
  PlaybookValidator.validate_and_fix_file broken_path true broken_state
    = (Ok (PlaybookValidator.success 4 4 broken_issues broken_fixes), repaired_state) /\
  PlaybookValidator.files repaired_state !! "data/playbook/detection_memory.json.bak"
    = Some (PlaybookValidator.json broken_file) /\
  exists st2,
    PlaybookValidator.validate_and_fix_file broken_path true repaired_state
      = (Ok (PlaybookValidator.success 0 0 [] []), st2) /\
    PlaybookValidator.files st2 = PlaybookValidator.files repaired_state.
Proof.
  assert (H : PlaybookValidator.validate_and_fix_file broken_path true broken_state
              = (Ok (PlaybookValidator.success 4 4 broken_issues broken_fixes),
                 repaired_state)) by reflexivity.
  split; [exact H|]. split; [reflexivity|].
  exact (validate_and_fix_file_idempotent broken_path true true broken_state
           repaired_state 4 4 broken_issues broken_fixes H).
Defined.

(** * Further properties of the code *)

(** ** The [Rule] constructor *)

(** X1. The [Rule] constructor fails on its three guarded fields in these
    cases only. A [TypeError] leaves it when the type is a list or a dict (the
    membership test of [validate_type] hashes it) or when the evidence count
    is [None], a list or a dict. An [OverflowError] leaves it when the
    confidence is an integer beyond the range of a float or the evidence count
    is an infinite float. A [ValidationError] is raised when the confidence
    converts to a NaN or the evidence count is a NaN. No other exception
    occurs; in particular no string in any of the three fields, but one that
    reads as a NaN confidence, makes the constructor fail. *)
Theorem Rule_validate_failures data e :
  Rule_validate data = Raise e ->
  (e = TypeError /\ (unhashable (type data) \/ not_a_number (evidence_count data))) \/
  (e = OverflowError /\
   ((exists z, confidence data = PInt z /\ Py.float_of_int z = Raise OverflowError) \/
    (exists s, evidence_count data = PFloat (S754_infinity s)))) \/
  (e = ValidationError /\
   (Py.float (confidence data) = Ok S754_nan \/ evidence_count data = PFloat S754_nan)).
Proof.
  unfold Rule_validate.
  destruct (Rule_validate_type (type data)) as [t|e0] eqn:Et.
  2:{ cbn [exc_bind]. intros [= <-]. left.
      unfold Rule_validate_type in Et. revert Et.
      destruct (type data) as [|b|z|f|s|l|d]; cbn [Py.in_str_set exc_bind negb];
        try discriminate; try (destruct (negb _); discriminate);
        intros [= <-]; (split; [reflexivity|left; exact I]). }
  cbn [exc_bind].
  destruct (Rule_validate_confidence (confidence data)) as [c|e0] eqn:Ec.
  2:{ cbn [exc_bind]. intros [= <-]. right. left.
      destruct (Rule_validate_confidence_raise _ _ Ec) as (-> & z & Hz).
      split; [reflexivity|]. left. exists z. split; [assumption|].
      rewrite Rule_validate_confidence_spec, Hz in Ec. cbn [Py.float] in Ec.
      destruct (Py.float_of_int z) as [f|[]]; try discriminate. reflexivity. }
  cbn [exc_bind].
  destruct (Rule_fix_evidence_count (evidence_count data)) as [n|e0] eqn:En.
  - destruct (confidence_in_bounds c) eqn:Eb; [discriminate|].
    intros [= <-]. right. right. split; [reflexivity|]. left.
    destruct (Rule_validate_confidence_range _ _ Ec) as [-> | Hb]; [|congruence].
    rewrite Rule_validate_confidence_spec in Ec.
    destruct (Py.float (confidence data)) as [conf|[]]; try discriminate.
    injection Ec as Ec. f_equal. unfold clamp in Ec.
    destruct (Py.flt conf Py.float_zero); [discriminate|].
    destruct (Py.flt Py.float_one conf); [discriminate|assumption].
  - unfold Rule_fix_evidence_count in En. revert En.
    destruct (evidence_count data) as [|b|z|f|s|l|d]; cbn [Py.int];
      try discriminate.
    + intros [= <-] [= <-]. left. split; [reflexivity|right; exact I].
    + destruct f as [sg|sg| |sg m ex]; cbn [Py.int_of_float]; try discriminate;
        intros [= <-] [= <-].
      * right. left. split; [reflexivity|]. right. eauto.
      * right. right. split; [reflexivity|]. right. reflexivity.
    + destruct (Py.contains _ _ || Py.contains _ _); [discriminate|].
      destruct (Py.int_of_str s); discriminate.
    + intros [= <-] [= <-]. left. split; [reflexivity|right; exact I].
    + intros [= <-] [= <-]. left. split; [reflexivity|right; exact I].
Qed.

(** The statement above for a rule whose type is a list. *)
Lemma Rule_validate_failures_witness :
  Rule_validate (Rule_set_type (PList []) rule_a) = Raise TypeError /\
  unhashable (type (Rule_set_type (PList []) rule_a)).
Proof.
  split; [reflexivity|].
  destruct (Rule_validate_failures (Rule_set_type (PList []) rule_a) TypeError eq_refl)
    as [[_ [H|H]]|[[H _]|[H _]]]; [exact H|destruct H|discriminate H|discriminate H].
Defined.

(** X2. A rule the constructor accepts has one of the three types: the type it
    was given when that is one of them, "strategy" for any other value that
    has a hash (a string outside the three, a number, a boolean, [None]). *)
Theorem accepted_rule_has_valid_type data r :
  Rule_validate data = Ok r ->
  exists t, type r = PStr t /\ In t valid_types /\
            (type data = PStr t \/
             (t = "strategy" /\ forall s, In s valid_types -> type data <> PStr s)).
Proof.
  intros H. destruct (Rule_validate_ok _ _ H) as (t & c & n & Ht & Hc & Hn & Hb & ->).
  unfold Rule_validate_type in Ht.
  assert (Hin : forall s, existsb (String.eqb s) valid_types = true <-> In s valid_types).
  { intros s. rewrite existsb_exists. split.
    - intros (x & Hx & Hs). apply String.eqb_eq in Hs. subst. assumption.
    - intros Hs. exists s. split; [assumption|apply String.eqb_refl]. }
  assert (Hs : In "strategy" valid_types) by (left; reflexivity).
  destruct data as [i ty co a cf ec cr ca pr de ac mt].
  cbn [type Rule_set_type Rule_set_confidence Rule_set_evidence_count] in *.
  destruct ty as [|b|z|f|s|l|d]; cbn [Py.in_str_set exc_bind negb] in Ht;
    try discriminate;
    try (injection Ht as <-; exists "strategy"; split; [reflexivity|]; split; [exact Hs|];
         right; split; [reflexivity|]; intros s' _; discriminate).
  destruct (existsb (String.eqb s) valid_types) eqn:E; cbn [negb] in Ht;
    injection Ht as <-.
  - exists s. split; [reflexivity|]. split; [apply Hin; assumption|left; reflexivity].
  - exists "strategy". split; [reflexivity|]. split; [exact Hs|]. right.
    split; [reflexivity|]. intros s' Hs' [= <-]. apply Hin in Hs'. congruence.
Qed.

(** The statement above for [rule_meta], whose type "meta" becomes
    "strategy". *)
Lemma accepted_rule_has_valid_type_witness :
  exists t,
    type (Rule_set_type (PStr "strategy")
            (Rule_set_confidence (PFloat Py.float_half)
               (Rule_set_evidence_count (PInt 1) rule_meta))) = PStr t /\
    In t valid_types.
Proof.
  destruct (accepted_rule_has_valid_type rule_meta
              (Rule_set_type (PStr "strategy")
                 (Rule_set_confidence (PFloat Py.float_half)
                    (Rule_set_evidence_count (PInt 1) rule_meta))) eq_refl)
    as (t & Ht & Hin & _).
  exists t. split; [exact Ht|exact Hin].
Defined.

(** ** [Playbook.update_rule_confidence] *)

Section RuleConfidence.

Lemma update_confidence_first_missing id c rs :
  (forall x, In x rs -> rule_id x <> id) -> update_confidence_first id c rs = (Ok tt, rs).
Proof.
  induction rs as [|x rs IH]; cbn [update_confidence_first]; intros H; [reflexivity|].
  destruct (String.eqb_spec (rule_id x) id) as [E|_].
  - exfalso. apply (H x); [left; reflexivity|assumption].
  - rewrite IH by (intros y Hy; apply H; right; assumption). reflexivity.
Qed.

Lemma update_confidence_first_split id c l1 r l2 :
  (forall x, In x l1 -> rule_id x <> id) -> rule_id r = id ->
  update_confidence_first id c (l1 ++ r :: l2) =
  match Py.add_int (evidence_count r) 1 with
  | Ok n => (Ok tt, l1 ++ Rule_set_evidence_count n (Rule_set_confidence c r) :: l2)
  | Raise e => (Raise e, l1 ++ Rule_set_confidence c r :: l2)
  end.
Proof.
  intros H1 Hr. induction l1 as [|x l1 IH]; cbn [app update_confidence_first].
  - rewrite Hr, String.eqb_refl. destruct r. reflexivity.
  - destruct (String.eqb_spec (rule_id x) id) as [E|_].
    + exfalso. apply (H1 x); [left; reflexivity|assumption].
    + rewrite IH by (intros y Hy; apply H1; right; assumption).
      destruct (Py.add_int (evidence_count r) 1); reflexivity.
Qed.

End RuleConfidence.

(** X3. [Playbook.update_rule_confidence] changes one rule at most, the first
    that carries the id: it stores the new confidence as it is given, with no
    clamping to [[0, 1]], and adds one to an integer evidence count; the rules
    before and after it are untouched, and [last_updated] is set to the
    current time. With no rule of that id the rules are untouched and
    [last_updated] is still set. When the count of the rule is a string the
    increment raises [TypeError]: the confidence has been assigned by then,
    and [last_updated] is not set. *)
Theorem update_rule_confidence_first_match self id c now l1 r l2 :
  rules self = l1 ++ r :: l2 ->
  (forall x, In x l1 -> rule_id x <> id) ->
  rule_id r = id ->
  (forall n, evidence_count r = PInt n ->
     Playbook_update_rule_confidence self id c now =
       (Ok tt,
        mkPlaybook (version self)
          (l1 ++ Rule_set_evidence_count (PInt (n + 1)) (Rule_set_confidence c r) :: l2)
          now (total_cases_processed self))) /\
  (forall s, evidence_count r = PStr s ->
     Playbook_update_rule_confidence self id c now =
       (Raise TypeError,
        mkPlaybook (version self) (l1 ++ Rule_set_confidence c r :: l2)
          (last_updated self) (total_cases_processed self))) /\
  (forall id', (forall x, In x (rules self) -> rule_id x <> id') ->
     Playbook_update_rule_confidence self id' c now =
       (Ok tt, mkPlaybook (version self) (rules self) now (total_cases_processed self))).
Proof.
  intros Hr H1 Hid. unfold Playbook_update_rule_confidence.
  split; [|split].
  - intros n Hn. rewrite Hr, (update_confidence_first_split id c l1 r l2 H1 Hid), Hn.
    reflexivity.
  - intros s Hs. rewrite Hr, (update_confidence_first_split id c l1 r l2 H1 Hid), Hs.
    reflexivity.
  - intros id' Hm. rewrite (update_confidence_first_missing id' c _ Hm). reflexivity.
Qed.

(** The statement above in [playbook_twice], where "shr-00002" occurs twice:
    the confidence 1.5 is stored in the first of the two rules. *)
Lemma update_rule_confidence_first_match_witness :
  Playbook_update_rule_confidence playbook_twice "shr-00002"
    (PFloat (S754_finite false 6755399441055744 (-52))) (clock0 7)
  = (Ok tt,
     mkPlaybook "v1.3"
       [rule_a;
        Rule_set_evidence_count (PInt 2)
          (Rule_set_confidence (PFloat (S754_finite false 6755399441055744 (-52))) rule_b);
        rule_b_trusted]
       (clock0 7) 3).
Proof.
  refine (proj1 (update_rule_confidence_first_match playbook_twice "shr-00002" _ (clock0 7)
                   [rule_a] rule_b [rule_b_trusted] eq_refl _ eq_refl) 1 eq_refl).
  intros x [<-|[]]. discriminate.
Defined.

(** ** The playbook manager: initialisation and writes *)

(** X4. [PlaybookManager.__init__] leaves the directory as it is when both
    memory files exist. When either one is missing it writes both: each memory
    becomes an empty playbook at version "v1.0" with no case processed, so the
    rules of a memory file that did exist are replaced too, and no backup of
    it is taken (the history directory is as it was). Both memories then load,
    and a second initialisation changes nothing. *)
Theorem init_resets_both_memories w :
  let w' := snd (PlaybookManager.init w) in
  fst (PlaybookManager.init w) = Ok tt /\
  history_dir w' = history_dir w /\
  (is_Some (detection_memory_file w) /\ is_Some (trust_memory_file w) -> w' = w) /\
  (detection_memory_file w = None \/ trust_memory_file w = None ->
     let empty1 := mkPlaybook "v1.0" [] (clock w (ticks w)) 0 in
     let empty2 := mkPlaybook "v1.0" [] (clock w (S (ticks w))) 0 in
     detection_memory_file w' = Some empty1 /\
     trust_memory_file w' = Some empty2 /\
     PlaybookManager.load_detection_memory w' = (Ok empty1, w') /\
     PlaybookManager.load_trust_memory w' = (Ok empty2, w')) /\
  PlaybookManager.init w' = (Ok tt, w').
Proof.
  cbv zeta. unfold PlaybookManager.init.
  destruct w as [[d|] [t|] h c n];
    cbn [detection_memory_file trust_memory_file history_dir fst snd];
    (split; [reflexivity|]); (split; [reflexivity|]);
    (split; [first [ reflexivity
                   | intros [[? H] [? H']]; discriminate ]|]);
    (split; [|reflexivity]);
    first [ intros [H|H]; discriminate H | intros _; repeat split ].
Qed.


(** ** Updates and the next load *)

Section Reload.

Import PlaybookManager.

Lemma update_first_split target items l1 r l2 :
  (forall x, In x l1 -> rule_id x <> rule_id r) ->
  target = Some (rule_id r) ->
  update_first target items (l1 ++ r :: l2) =
  match items with
  | Some items => Ok (l1 ++ fold_left Rule_setattr items r :: l2)
  | None => Raise AttributeError
  end.
Proof.
  intros H1 ->. induction l1 as [|x l1 IH]; cbn [app update_first].
  - destruct (decide (Some (rule_id r) = Some (rule_id r))); [|congruence].
    destruct items; reflexivity.
  - destruct (decide (Some (rule_id x) = Some (rule_id r))) as [E|_].
    + exfalso. injection E. apply H1. left. reflexivity.
    + rewrite IH by (intros y Hy; apply H1; right; assumption).
      destruct items; reflexivity.
Qed.

(** The first rule of a list that carries an id splits the list. *)
Lemma first_with_id (target : option string) rs :
  (exists rule, In rule rs /\ Some (rule_id rule) = target) ->
  exists l1 r l2,
    rs = l1 ++ r :: l2 /\ target = Some (rule_id r) /\
    forall x, In x l1 -> rule_id x <> rule_id r.
Proof.
  induction rs as [|x rs IH]; intros (rule & Hin & Hid); [destruct Hin|].
  destruct (decide (Some (rule_id x) = target)) as [E|Hne].
  - exists [], x, rs. split; [reflexivity|]. split; [auto|]. intros y [].
  - destruct IH as (l1 & r & l2 & -> & Ht & Hl).
    { destruct Hin as [<-|Hin]; [congruence|eauto]. }
    exists (x :: l1), r, l2. split; [reflexivity|]. split; [assumption|].
    intros y [<-|Hy]; [congruence|auto].
Qed.





End Reload.



(** X7. An [update_rule] request without [update_fields] raises
    [AttributeError] when a rule of the target memory carries the target id
    (the loop reaches [delta.update_fields.items()]); nothing is written. *)
Theorem update_rule_without_fields delta w old p :
  DeltaUpdate.action delta = update_rule ->
  DeltaUpdate.update_fields delta = None ->
  PlaybookManager.memory_file (target_of delta) w = Some old ->
  Playbook_validate old = Ok p ->
  (exists rule, In rule (rules p) /\ Some (rule_id rule) = DeltaUpdate.target_rule_id delta) ->
  PlaybookManager.apply_delta_update delta w = (Raise AttributeError, w).
Proof.
  intros Ha Hi Hf Hp Hex.
  destruct (first_with_id _ _ Hex) as (l1 & r & l2 & Hr & Ht & Hl).
  pose proof (apply_delta_update_spec delta w) as H. cbv zeta in H.
  rewrite load_memory_spec, Hf, Hp, Ha in H. rewrite H.
  unfold mutated_rules. rewrite Ha, Hi, Hr.
  rewrite (update_first_split _ None l1 r l2 Hl Ht). reflexivity.
Qed.

(** The statement above in [world_a], for the id of [rule_a]. *)
Lemma update_rule_without_fields_witness :
  PlaybookManager.apply_delta_update
    (DeltaUpdate.mk update_rule (Some "shr-00001") None None "no fields" (Some detection))
    world_a
  = (Raise AttributeError, world_a).
Proof.
  apply (update_rule_without_fields _ world_a playbook_a playbook_a);
    try reflexivity.
  exists rule_a. split; [left; reflexivity|reflexivity].
Defined.



(** ** The merged playbook and the service *)

Section Service.

Import PlaybookManager PlaybookService.

Lemma filter_active_tagged m rs :
  List.filter active (List.map (Rule_set_memory_type m) rs)
  = List.map (Rule_set_memory_type m) (List.filter active rs).
Proof.
  induction rs as [|r rs IH]; cbn [List.map List.filter]; [reflexivity|].
  replace (active (Rule_set_memory_type m r)) with (active r) by (destruct r; reflexivity).
  destruct (active r); cbn [List.map]; rewrite IH; reflexivity.
Qed.

(** Naive datetimes always compare. *)
Lemma datetime_max_naive a b :
  datetime_max (to_naive a) (to_naive b) = Ok (latest_naive a b).
Proof.
  unfold datetime_max, datetime_lt, latest_naive, to_naive.
  destruct a as [fa [oa|]], b as [fb [ob|]]; reflexivity.
Qed.

(** Two datetimes compare when both are naive or both are aware. *)
Lemma datetime_max_spec a b :
  datetime_max a b =
  match tzinfo a, tzinfo b with
  | None, None => Ok (if datetime_ltb (fields a) (fields b) then b else a)
  | Some offset_a, Some offset_b =>
      Ok (if (if offset_a =? offset_b then datetime_ltb (fields a) (fields b)
              else utc_microseconds (fields a) offset_a
                   <? utc_microseconds (fields b) offset_b)
          then b else a)
  | _, _ => Raise TypeError
  end.
Proof.
  unfold datetime_max, datetime_lt.
  destruct (tzinfo a) as [oa|], (tzinfo b) as [ob|]; try reflexivity.
  destruct (oa =? ob); reflexivity.
Qed.

Lemma load_playbook_spec w d t :
  load_memory detection w = (Ok d, w) -> load_memory trust w = (Ok t, w) ->
  load_playbook w =
  (Ok (mkPlaybook ("detection:" +:+ version d +:+ "|trust:" +:+ version t)
         (List.map (Rule_set_memory_type (Some detection)) (rules d) ++
          List.map (Rule_set_memory_type (Some trust)) (rules t))
         (latest_naive (last_updated d) (last_updated t))
         (total_cases_processed d + total_cases_processed t)), w).
Proof.
  intros Hd Ht.
  unfold load_playbook, bind, ret, lift, load_detection_memory, load_trust_memory.
  rewrite Hd, Ht, datetime_max_naive. reflexivity.
Qed.

Lemma get_status_spec w d t :
  load_memory detection w = (Ok d, w) -> load_memory trust w = (Ok t, w) ->
  get_status w =
  match datetime_max (last_updated d) (last_updated t) with
  | Ok latest_updated =>
      (Ok (mkStatus ("detection:" +:+ version d +:+ "|trust:" +:+ version t)
             (length (List.filter active (rules d))) (length (List.filter active (rules t)))
             (length (List.filter active (rules d)) + length (List.filter active (rules t)))
             (total_cases_processed d + total_cases_processed t)
             latest_updated), w)
  | Raise e => (Raise e, w)
  end.
Proof.
  intros Hd Ht.
  unfold get_status, bind, ret, lift, load_detection_memory, load_trust_memory.
  rewrite Hd, Ht. destruct (datetime_max _ _); reflexivity.
Qed.

(** A load leaves the world as it is. *)
Lemma load_memory_world m w r w' : load_memory m w = (r, w') -> w' = w.
Proof.
  rewrite load_memory_spec. destruct (memory_file m w); intros [= _ <-]; reflexivity.
Qed.

Lemma get_status_ok w s w' :
  get_status w = (Ok s, w') ->
  exists d t, load_memory detection w = (Ok d, w) /\ load_memory trust w = (Ok t, w).
Proof.
  unfold get_status, bind, load_detection_memory, load_trust_memory.
  destruct (load_memory detection w) as [[d|e] w1] eqn:Ed; [|discriminate].
  pose proof (load_memory_world _ _ _ _ Ed) as ->.
  destruct (load_memory trust w) as [[t|e] w2] eqn:Et; [|discriminate].
  pose proof (load_memory_world _ _ _ _ Et) as ->.
  intros _. eauto.
Qed.

Lemma get_status_total w s w' d t :
  get_status w = (Ok s, w') ->
  load_memory detection w = (Ok d, w) -> load_memory trust w = (Ok t, w) ->
  status_total_cases_processed s = total_cases_processed d + total_cases_processed t.
Proof.
  intros Hs Hd Ht. rewrite (get_status_spec w d t Hd Ht) in Hs.
  destruct (datetime_max _ _); [|discriminate]. injection Hs as <- _. reflexivity.
Qed.

(** The first element of a list that passes a test splits the list. *)
Lemma find_first {A} (f : A -> bool) l r :
  List.find f l = Some r ->
  exists l1 l2, l = l1 ++ r :: l2 /\ f r = true /\ forall x, In x l1 -> f x = false.
Proof.
  induction l as [|x l IH]; cbn [List.find]; [discriminate|].
  destruct (f x) eqn:E.
  - intros [= <-]. exists [], l. split; [reflexivity|]. split; [assumption|]. intros y [].
  - intros H. destruct (IH H) as (l1 & l2 & -> & Hr & Hl).
    exists (x :: l1), l2. split; [reflexivity|]. split; [assumption|].
    intros y [<-|Hy]; auto.
Qed.

Lemma find_none_iff {A} (f : A -> bool) l :
  List.find f l = None <-> forall x, In x l -> f x = false.
Proof.
  split; [apply List.find_none|].
  induction l as [|x l IH]; cbn [List.find]; intros H; [reflexivity|].
  rewrite (H x) by (left; reflexivity). apply IH. intros y Hy. apply H. right. assumption.
Qed.

Lemma find_tagged m id rs :
  List.find (fun rule => String.eqb (rule_id rule) id && active rule)
    (List.map (Rule_set_memory_type m) rs)
  = option_map (Rule_set_memory_type m)
      (List.find (fun rule => String.eqb (rule_id rule) id && active rule) rs).
Proof.
  induction rs as [|r rs IH]; cbn [List.map List.find]; [reflexivity|].
  replace (active (Rule_set_memory_type m r)) with (active r) by (destruct r; reflexivity).
  replace (rule_id (Rule_set_memory_type m r)) with (rule_id r) by (destruct r; reflexivity).
  destruct (String.eqb (rule_id r) id && active r); [reflexivity|exact IH].
Qed.

Lemma find_app {A} (f : A -> bool) l1 l2 :
  List.find f (l1 ++ l2) =
  match List.find f l1 with Some x => Some x | None => List.find f l2 end.
Proof.
  induction l1 as [|x l1 IH]; cbn [app List.find]; [reflexivity|].
  destruct (f x); [reflexivity|exact IH].
Qed.

(** [get_rule_by_id]: the first active carrier of the id in the detection
    memory, or else in the trust memory. *)
Lemma get_rule_by_id_spec id w d t :
  load_memory detection w = (Ok d, w) -> load_memory trust w = (Ok t, w) ->
  get_rule_by_id id w =
  (Ok match List.find (fun rule => String.eqb (rule_id rule) id && active rule) (rules d) with
      | Some r => Some (_rule_to_response r detection)
      | None =>
          match List.find (fun rule => String.eqb (rule_id rule) id && active rule)
                  (rules t) with
          | Some r => Some (_rule_to_response r trust)
          | None => None
          end
      end, w).
Proof.
  intros Hd Ht. unfold get_rule_by_id, bind, ret.
  rewrite (load_playbook_spec w d t Hd Ht). cbn [rules].
  rewrite find_app, !find_tagged.
  destruct (List.find _ (rules d)) as [r|]; cbn [option_map].
  - destruct r. reflexivity.
  - destruct (List.find _ (rules t)) as [r|]; cbn [option_map]; [|reflexivity].
    destruct r. reflexivity.
Qed.

(** The last active carrier of an id splits the list. *)
Lemma latest_active_split id rs r :
  latest_active id None rs = Some r ->
  exists l1 l2, rs = l1 ++ r :: l2 /\
    forall x, In x l2 -> active x = true -> rule_id x <> id.
Proof.
  induction rs as [|x rs IH]; cbn [latest_active]; [discriminate|].
  rewrite latest_active_found.
  destruct (latest_active id None rs) as [r'|] eqn:E.
  - intros [= <-]. destruct (IH eq_refl) as (l1 & l2 & -> & Hl).
    exists (x :: l1), l2. split; [reflexivity|assumption].
  - destruct (active x && String.eqb (rule_id x) id); [|discriminate].
    intros [= <-]. exists [], rs. split; [reflexivity|].
    exact (latest_active_none _ _ E).
Qed.

End Service.

(** X9. The read views agree on a store whose two memories load. The merged
    playbook of [load_playbook] holds every rule of the detection memory and
    then every rule of the trust memory, active or not, each one tagged with
    its memory; its count of processed cases is the sum of the two, and its
    [last_updated] the later of the two read without their time zones. The
    number of active rules is the same in the merged playbook, in
    [get_all_rules] and in [get_rules_brief_summary], and the rules
    [get_all_rules] lists are the active rules of the merged playbook, in its
    order. [get_status] compares the two [last_updated] as they are: it
    raises [TypeError] when one of them carries a time zone and the other
    does not, and returns otherwise, with the version, the count of processed
    cases and the number of active rules of the merged playbook; its
    [last_updated] is that of the merged playbook exactly when the two
    datetimes are naive. *)
Theorem status_agrees_with_views w d t :
  PlaybookManager.load_memory detection w = (Ok d, w) ->
  PlaybookManager.load_memory trust w = (Ok t, w) ->
  exists merged listing brief,
    PlaybookManager.load_playbook w = (Ok merged, w) /\
    PlaybookService.get_all_rules w = (Ok listing, w) /\
    PlaybookManager.get_rules_brief_summary w = (Ok brief, w) /\
    rules merged = List.map (Rule_set_memory_type (Some detection)) (rules d) ++
                   List.map (Rule_set_memory_type (Some trust)) (rules t) /\
    total_cases_processed merged = total_cases_processed d + total_cases_processed t /\
    last_updated merged = latest_naive (last_updated d) (last_updated t) /\
    PlaybookService.total_count listing = length (Playbook_get_active_rules merged) /\
    (length (PlaybookManager.detection_entries brief) +
     length (PlaybookManager.trust_entries brief))%nat
      = length (Playbook_get_active_rules merged) /\
    List.map PlaybookService.response_rule_id
      (PlaybookService.detection_rules listing ++ PlaybookService.trust_rules listing)
      = List.map rule_id (Playbook_get_active_rules merged) /\
    List.map PlaybookService.response_memory_type
      (PlaybookService.detection_rules listing ++ PlaybookService.trust_rules listing)
      = List.map memory_type (Playbook_get_active_rules merged) /\
    ((tzinfo (last_updated d) = None <-> tzinfo (last_updated t) = None) ->
     exists status,
       PlaybookService.get_status w = (Ok status, w) /\
       PlaybookService.status_version status = version merged /\
       PlaybookService.status_total_cases_processed status = total_cases_processed merged /\
       PlaybookService.total_active_rules status = length (Playbook_get_active_rules merged) /\
       (tzinfo (last_updated d) = None <->
        PlaybookService.status_last_updated status = last_updated merged)) /\
    (~ (tzinfo (last_updated d) = None <-> tzinfo (last_updated t) = None) ->
     PlaybookService.get_status w = (Raise TypeError, w)).
Proof.
  intros Hd Ht.
  eexists _, _, _.
  split; [exact (load_playbook_spec w d t Hd Ht)|].
  split.
  { unfold PlaybookService.get_all_rules, bind, ret,
      PlaybookManager.load_detection_memory, PlaybookManager.load_trust_memory.
    rewrite Hd, Ht. reflexivity. }
  split.
  { unfold PlaybookManager.get_rules_brief_summary, bind, ret,
      PlaybookManager.load_detection_memory, PlaybookManager.load_trust_memory.
    rewrite Hd, Ht. reflexivity. }
  unfold Playbook_get_active_rules.
  cbn [rules version total_cases_processed last_updated
       PlaybookService.total_count PlaybookService.detection_rules
       PlaybookService.trust_rules PlaybookManager.detection_entries
       PlaybookManager.trust_entries].
  rewrite List.filter_app, !filter_active_tagged.
  rewrite !List.length_app, !List.length_map, !List.map_app, !List.map_map.
  repeat (split; [reflexivity|]).
  try (split; [f_equal; apply List.map_ext; intros []; reflexivity|]).
  rewrite (get_status_spec w d t Hd Ht), datetime_max_spec.
  unfold latest_naive, to_naive.
  destruct (last_updated d) as [fd [od|]], (last_updated t) as [ft [ot|]];
    cbn [tzinfo fields]; split.
  - intros _. eexists. split; [reflexivity|].
    cbn [PlaybookService.status_version PlaybookService.status_total_cases_processed
         PlaybookService.total_active_rules PlaybookService.status_last_updated].
    split; [reflexivity|]. split; [reflexivity|]. split; [reflexivity|].
    split; [discriminate|].
    destruct (if od =? ot then _ else _), (datetime_ltb fd ft); discriminate.
  - intros Hz. exfalso. apply Hz. split; discriminate.
  - intros [_ Hz]. discriminate (Hz eq_refl).
  - reflexivity.
  - intros [Hz _]. discriminate (Hz eq_refl).
  - reflexivity.
  - intros _. eexists. split; [reflexivity|].
    cbn [PlaybookService.status_version PlaybookService.status_total_cases_processed
         PlaybookService.total_active_rules PlaybookService.status_last_updated].
    split; [reflexivity|]. split; [reflexivity|]. split; [reflexivity|].
    split; [intros _|reflexivity]. destruct (datetime_ltb fd ft); reflexivity.
  - intros Hz. exfalso. apply Hz. split; reflexivity.
Qed.

(** The statement above in [world_both]: three active rules, and a status
    that carries the [last_updated] of the merged playbook. *)
Lemma status_agrees_with_views_witness :
  exists merged status,
    PlaybookManager.load_playbook world_both = (Ok merged, world_both) /\
    PlaybookService.get_status world_both = (Ok status, world_both) /\
    PlaybookService.total_active_rules status = length (Playbook_get_active_rules merged) /\
    PlaybookService.status_last_updated status = last_updated merged.
Proof.
  destruct (status_agrees_with_views world_both
              (mkPlaybook "v1.2" [rule_a; rule_b] noon 2)
              (mkPlaybook "v1.1" [rule_b_trusted] noon 1) eq_refl eq_refl)
    as (merged & listing & brief & Hm & _ & _ & _ & _ & _ & _ & _ & _ & _ & Hs & _).
  destruct (Hs (conj (fun _ => eq_refl) (fun _ => eq_refl)))
    as (status & Hst & _ & _ & Ha & Hl).
  exists merged, status. split; [exact Hm|]. split; [exact Hst|].
  split; [exact Ha|]. exact (proj1 Hl eq_refl).
Defined.

(** X10. The lookups by id do not agree on an id that is active in both
    memories. [PlaybookService.get_rule_by_id] answers with the first active
    rule of the detection memory that carries the id; [get_rules_by_ids]
    answers with the last active rule of the trust memory that carries it. *)
Theorem lookups_disagree_on_shared_id w d t id :
  PlaybookManager.load_memory detection w = (Ok d, w) ->
  PlaybookManager.load_memory trust w = (Ok t, w) ->
  (exists x, In x (rules d) /\ active x = true /\ rule_id x = id) ->
  (exists y, In y (rules t) /\ active y = true /\ rule_id y = id) ->
  exists r l1 l2 r' l1' l2',
    rules d = l1 ++ r :: l2 /\ active r = true /\ rule_id r = id /\
    (forall x, In x l1 -> active x = true -> rule_id x <> id) /\
    rules t = l1' ++ r' :: l2' /\ active r' = true /\ rule_id r' = id /\
    (forall y, In y l2' -> active y = true -> rule_id y <> id) /\
    PlaybookService.get_rule_by_id id w
      = (Ok (Some (PlaybookService._rule_to_response r detection)), w) /\
    PlaybookManager.get_rules_by_ids [id] w
      = (Ok (PlaybookManager.SelectedRules [Rule_set_memory_type (Some trust) r']), w).
Proof.
  intros Hd Ht (x & Hx & Hax & Hix) Hy.
  destruct (List.find (fun rule => String.eqb (rule_id rule) id && active rule) (rules d))
    as [r|] eqn:Ef.
  2:{ exfalso. pose proof (proj1 (find_none_iff _ _) Ef x Hx) as H.
      cbv beta in H. rewrite Hax, Hix, String.eqb_refl in H. discriminate. }
  destruct (find_first _ _ _ Ef) as (l1 & l2 & Hr & Hfr & Hl1).
  apply andb_true_iff in Hfr as [Hir Har]. apply String.eqb_eq in Hir.
  destruct (latest_active_exists _ _ Hy) as [r' El].
  destruct (latest_active_some _ _ _ El) as (_ & Har' & Hir').
  destruct (latest_active_split _ _ _ El) as (l1' & l2' & Hr' & Hl2').
  exists r, l1, l2, r', l1', l2'.
  repeat (split; [assumption|]).
  split.
  { intros z Hz Haz Hiz. specialize (Hl1 z Hz). cbv beta in Hl1.
    rewrite Haz, Hiz, String.eqb_refl in Hl1. discriminate. }
  repeat (split; [assumption|]).
  split.
  - rewrite (get_rule_by_id_spec id w d t Hd Ht), Ef. reflexivity.
  - rewrite (get_rules_by_ids_spec [id] w d t Hd Ht). simpl omap.
    rewrite index_active_lookup, El. reflexivity.
Qed.

(** The statement above in [world_both], for "shr-00002". *)
Lemma lookups_disagree_on_shared_id_witness :
  exists r r',
    PlaybookService.get_rule_by_id "shr-00002" world_both
      = (Ok (Some (PlaybookService._rule_to_response r detection)), world_both) /\
    PlaybookManager.get_rules_by_ids ["shr-00002"] world_both
      = (Ok (PlaybookManager.SelectedRules [Rule_set_memory_type (Some trust) r']),
         world_both).
Proof.
  destruct (lookups_disagree_on_shared_id world_both
              (mkPlaybook "v1.2" [rule_a; rule_b] noon 2)
              (mkPlaybook "v1.1" [rule_b_trusted] noon 1) "shr-00002" eq_refl eq_refl)
    as (r & l1 & l2 & r' & l1' & l2' & _ & _ & _ & _ & _ & _ & _ & _ & H1 & H2).
  - exists rule_b. split; [right; left; reflexivity|split; reflexivity].
  - exists rule_b_trusted. split; [left; reflexivity|split; reflexivity].
  - exists r, r'. split; assumption.
Defined.

(** X11. [search_rule_by_id] answers from the detection memory alone when it
    holds a rule with the id: the first such rule, active or deprecated, and
    the trust memory is not opened. With the trust file missing it still
    answers, where [get_rules_by_ids], [get_rule_by_id] and [get_status] raise
    [FileNotFoundError]. *)
Theorem search_rule_by_id_detection_first w d id r :
  PlaybookManager.load_memory detection w = (Ok d, w) ->
  List.find (fun rule => String.eqb (rule_id rule) id) (rules d) = Some r ->
  PlaybookTool.search_rule_by_id id w = (Ok (PlaybookTool.RuleFound detection r), w) /\
  (trust_memory_file w = None ->
   PlaybookManager.get_rules_by_ids [id] w = (Raise FileNotFoundError, w) /\
   PlaybookService.get_rule_by_id id w = (Raise FileNotFoundError, w) /\
   PlaybookService.get_status w = (Raise FileNotFoundError, w)).
Proof.
  intros Hd Hf. split.
  - unfold PlaybookTool.search_rule_by_id, bind, ret, PlaybookManager.load_detection_memory.
    rewrite Hd, Hf. reflexivity.
  - intros Ht.
    assert (Hl : PlaybookManager.load_memory trust w = (Raise FileNotFoundError, w)).
    { rewrite load_memory_spec. cbn [PlaybookManager.memory_file]. rewrite Ht. reflexivity. }
    unfold PlaybookManager.get_rules_by_ids, PlaybookService.get_rule_by_id,
      PlaybookService.get_status, PlaybookManager.load_playbook, bind,
      PlaybookManager.load_detection_memory, PlaybookManager.load_trust_memory.
    rewrite Hd, Hl. repeat split.
Qed.

(** The statement above for a store that has lost its trust memory and whose
    rule "shr-00002" is deprecated. *)
Lemma search_rule_by_id_detection_first_witness :
  let w := mkWorld (Some (mkPlaybook "v1.2" [rule_a; Rule_set_active false rule_b] noon 2))
             None ∅ clock0 0 in
  PlaybookTool.search_rule_by_id "shr-00002" w
    = (Ok (PlaybookTool.RuleFound detection (Rule_set_active false rule_b)), w) /\
  PlaybookManager.get_rules_by_ids ["shr-00002"] w = (Raise FileNotFoundError, w).
Proof.
  cbv zeta.
  destruct (search_rule_by_id_detection_first
              (mkWorld (Some (mkPlaybook "v1.2" [rule_a; Rule_set_active false rule_b] noon 2))
                 None ∅ clock0 0)
              (mkPlaybook "v1.2" [rule_a; Rule_set_active false rule_b] noon 2)
              "shr-00002" (Rule_set_active false rule_b) eq_refl eq_refl) as [H1 H2].
  split; [exact H1|exact (proj1 (H2 eq_refl))].
Defined.

(** X12. Every update request that returns is counted once in the status:
    [total_cases_processed] of [get_status] after the request is one more than
    before it, whatever the action and the target memory. *)
Theorem status_counts_every_request delta w p' w' s s' :
  PlaybookService.get_status w = (Ok s, w) ->
  PlaybookManager.apply_delta_update delta w = (Ok p', w') ->
  PlaybookService.get_status w' = (Ok s', w') ->
  PlaybookService.status_total_cases_processed s'
    = PlaybookService.status_total_cases_processed s + 1.
Proof.
  intros Hs Happ Hs'.
  destruct (get_status_ok _ _ _ Hs) as (d & t & Hd & Ht).
  destruct (get_status_ok _ _ _ Hs') as (d' & t' & Hd' & Ht').
  rewrite (get_status_total _ _ _ _ _ Hs Hd Ht), (get_status_total _ _ _ _ _ Hs' Hd' Ht').
  assert (Htot : forall m0 w0 q0, PlaybookManager.load_memory m0 w0 = (Ok q0, w0) ->
            exists f0, PlaybookManager.memory_file m0 w0 = Some f0 /\
                       total_cases_processed q0 = total_cases_processed f0).
  { intros m0 w0 q0. rewrite load_memory_spec.
    destruct (PlaybookManager.memory_file m0 w0) as [f0|]; [|discriminate].
    intros [= H]. destruct (Playbook_validate_header _ _ H) as (_ & Hn & _). eauto. }
  destruct (Htot _ _ _ Hd) as (fd & Hfd & Hnd). destruct (Htot _ _ _ Ht) as (ft & Hft & Hnt).
  destruct (Htot _ _ _ Hd') as (fd' & Hfd' & Hnd').
  destruct (Htot _ _ _ Ht') as (ft' & Hft' & Hnt').
  assert (Hp' : exists old p, PlaybookManager.memory_file (target_of delta) w = Some old /\
                  Playbook_validate old = Ok p /\
                  total_cases_processed p' = total_cases_processed p + 1 /\
                  forall m0, PlaybookManager.memory_file m0 w' =
                    if Memory_eqb (target_of delta) m0 then Some p'
                    else PlaybookManager.memory_file m0 w).
  { destruct (apply_ok _ _ _ _ Happ)
      as (old & p & Hf & Hp & [(Ha & -> & ->)|(Ha & rs & v' & Hm & Hn & -> & ->)]);
      exists old, p; repeat (split; [assumption || reflexivity|]); intros m0.
    - apply memory_file_saved.
    - apply memory_file_after_update. }
  destruct Hp' as (old & p & Hf & Hp & Hn & Hfiles).
  destruct (Playbook_validate_header _ _ Hp) as (_ & Hnp & _).
  pose proof (Hfiles detection) as Hfd2. pose proof (Hfiles trust) as Hft2.
  rewrite Hfd' in Hfd2. rewrite Hft' in Hft2.
  destruct (target_of delta); cbn [Memory_eqb] in Hfd2, Hft2;
    cbn [PlaybookManager.memory_file] in *.
  - injection Hfd2 as ->. rewrite Hft in Hft2. injection Hft2 as ->.
    rewrite Hfd in Hf. injection Hf as ->. lia.
  - injection Hft2 as ->. rewrite Hfd in Hfd2. injection Hfd2 as ->.
    rewrite Hft in Hf. injection Hf as ->. lia.
Qed.

(** The statement above for the deprecation of "shr-00002" in [world_both]. *)
Lemma status_counts_every_request_witness :
  let w' := snd (PlaybookManager.apply_delta_update deprecate_b world_both) in
  let s := PlaybookService.mkStatus "detection:v1.2|trust:v1.1" 2 1 3 3 noon in
  let s' := PlaybookService.mkStatus "detection:v1.3|trust:v1.1" 1 1 2 4 noon in
  PlaybookService.get_status world_both = (Ok s, world_both) /\
  PlaybookService.get_status w' = (Ok s', w') /\
  PlaybookService.status_total_cases_processed s'
    = PlaybookService.status_total_cases_processed s + 1.
Proof.
  cbv zeta. split; [reflexivity|]. split; [reflexivity|].
  exact (status_counts_every_request deprecate_b world_both
           (mkPlaybook "v1.3" [rule_a; Rule_set_active false rule_b] noon 3)
           (snd (PlaybookManager.apply_delta_update deprecate_b world_both))
           (PlaybookService.mkStatus "detection:v1.2|trust:v1.1" 2 1 3 3 noon)
           (PlaybookService.mkStatus "detection:v1.3|trust:v1.1" 1 1 2 4 noon)
           eq_refl eq_refl eq_refl).
Defined.

(** ** The version of the merged playbook *)

Section MergedVersion.

Import PlaybookManager.






End MergedVersion.



(** ** The curator: what it adds to the answer of the language model *)

(** X14. When the answer carries a rule (a [new_rule] that is a dict with an
    entry at least), [curate] overwrites its [created_from] with the case id
    and its [created_at] with the current time, whatever the answer said, and
    replaces a type that is missing or outside the three by "strategy"; every
    other entry of the rule, and every other entry of the answer, is as it
    was. Without a rule ([new_rule] missing, [None] or empty) the answer is
    left as it is. A [new_rule] that is true but not a dict raises
    [TypeError]. *)
Theorem supplement_new_rule_fields case_id now d :
  (Py.truthy (Py.dict_get d "new_rule") = false ->
   CuratorAgent.supplement_new_rule case_id now d = Ok d) /\
  (forall fields,
     Py.dict_lookup d "new_rule" = Some (PDict fields) -> fields <> [] ->
     exists fields',
       CuratorAgent.supplement_new_rule case_id now d
         = Ok (Py.dict_set d "new_rule" (PDict fields')) /\
       Py.dict_lookup fields' "created_from" = Some (PStr case_id) /\
       Py.dict_lookup fields' "created_at" = Some (PStr (CuratorAgent.isoformat now)) /\
       (exists t, Py.dict_lookup fields' "type" = Some (PStr t) /\ In t valid_types /\
                  (Py.dict_lookup fields "type" = Some (PStr t) \/ t = "strategy")) /\
       (forall k, k <> "created_from" -> k <> "created_at" -> k <> "type" ->
                  Py.dict_lookup fields' k = Py.dict_lookup fields k)) /\
  (forall v,
     Py.dict_lookup d "new_rule" = Some v -> Py.truthy v = true ->
     (forall fields, v <> PDict fields) ->
     CuratorAgent.supplement_new_rule case_id now d = Raise TypeError).
Proof.
  unfold CuratorAgent.supplement_new_rule. split; [|split].
  - intros ->. reflexivity.
  - intros fields Hl Hne. unfold Py.dict_get. rewrite Hl.
    destruct fields as [|kv fields]; [congruence|]. cbn [Py.truthy].
    set (f0 := kv :: fields).
    set (f1 := Py.dict_set (Py.dict_set f0 "created_from" (PStr case_id)) "created_at"
                 (PStr (CuratorAgent.isoformat now))).
    assert (Ht1 : Py.dict_lookup f1 "type" = Py.dict_lookup f0 "type").
    { unfold f1. rewrite !dict_lookup_set_ne by discriminate. reflexivity. }
    assert (Hin : forall s, existsb (String.eqb s) valid_types = true -> In s valid_types).
    { intros s H. apply existsb_exists in H as (x & Hx & Hs).
      apply String.eqb_eq in Hs. subst. assumption. }
    destruct (Py.in_str_list (match Py.dict_lookup f1 "type" with
                              | Some v => v | None => PNone end) valid_types) eqn:Et;
      cbn [negb].
    + exists f1. split; [reflexivity|]. unfold f1 at 1 2.
      rewrite dict_lookup_set_ne, !dict_lookup_set_eq by discriminate.
      repeat (split; [reflexivity|]). split.
      * rewrite Ht1 in *. destruct (Py.dict_lookup f0 "type") as [[]|];
          cbn [Py.in_str_list] in Et; try discriminate.
        eexists. split; [reflexivity|]. split; [apply Hin; assumption|left; reflexivity].
      * intros k H1 H2 H3. unfold f1. rewrite !dict_lookup_set_ne by congruence.
        reflexivity.
    + exists (Py.dict_set f1 "type" (PStr "strategy")). split; [reflexivity|].
      unfold f1 at 1 2.
      rewrite !(dict_lookup_set_ne _ "type") by discriminate.
      rewrite dict_lookup_set_ne, !dict_lookup_set_eq by discriminate.
      repeat (split; [reflexivity|]). split.
      * exists "strategy". split; [reflexivity|]. split; [left; reflexivity|auto].
      * intros k H1 H2 H3. unfold f1. rewrite !dict_lookup_set_ne by congruence.
        reflexivity.
  - intros v Hl Ht Hv. unfold Py.dict_get. rewrite Hl, Ht.
    destruct v; try reflexivity. exfalso. exact (Hv _ eq_refl).
Qed.

(** The statement above for [answer_meta]: the origin the answer gave is
    replaced, and the type "meta" becomes "strategy". *)
Lemma supplement_new_rule_fields_witness :
  exists fields',
    CuratorAgent.supplement_new_rule "case-30" noon answer_meta
      = Ok (Py.dict_set answer_meta "new_rule" (PDict fields')) /\
    Py.dict_lookup fields' "created_from" = Some (PStr "case-30") /\
    Py.dict_lookup fields' "created_at" = Some (PStr "2024-01-05T12:00:00") /\
    Py.dict_lookup fields' "type" = Some (PStr "strategy") /\
    Py.dict_lookup fields' "description" = Some (PStr "Studies are often misquoted").
Proof.
  destruct (proj1 (proj2 (supplement_new_rule_fields "case-30" noon answer_meta))
              [("rule_id", PStr "shr-00003"); ("type", PStr "meta");
               ("created_from", PStr "case-1");
               ("description", PStr "Studies are often misquoted")] eq_refl)
    as (fields' & H & Hf & Ha & (t & Ht & Hin & [Ht' | ->]) & Hk); try discriminate.
  - exfalso. injection Ht' as <-.
    destruct Hin as [H0|[H0|[H0|[]]]]; discriminate H0.
  - exists fields'. split; [exact H|]. split; [exact Hf|]. split; [exact Ha|].
    split; [exact Ht|]. rewrite Hk by discriminate. reflexivity.
Defined.

(** X15. The memory [curate] gives an update is settled by the verdict and the
    action alone: the trust memory when the verdict is the text "True" and the
    action is one of the four names of a mutating action, and the detection
    memory in every other case (an action that is missing, misspelt or not a
    string included). A [target_memory] of the answer's own is replaced, and
    every other entry of the answer is as it was. *)
Theorem classify_memory_overrides verdict_value d :
  let d' := CuratorAgent.classify_memory verdict_value d in
  (exists m,
     Py.dict_lookup d' "target_memory" = Some (PStr (memory_name m)) /\
     CuratorAgent.target_memory_of d' = Ok (Some m) /\
     (m = trust <->
      verdict_value = "True" /\
      exists a, Py.dict_lookup d "action" = Some (PStr a) /\
                In a ["add_rule"; "refine_rule"; "update_rule"; "deprecate_rule"])) /\
  (forall k, k <> "target_memory" -> Py.dict_lookup d' k = Py.dict_lookup d k).
Proof.
  cbv zeta. unfold CuratorAgent.classify_memory, CuratorAgent.target_memory_of.
  assert (Hin : forall s l, existsb (String.eqb s) l = true <-> In s l).
  { intros s l. rewrite existsb_exists. split.
    - intros (x & Hx & Hs). apply String.eqb_eq in Hs. subst. assumption.
    - intros Hs. exists s. split; [assumption|apply String.eqb_refl]. }
  destruct (Py.in_str_list (Py.dict_get d "action")
              ["add_rule"; "refine_rule"; "update_rule"; "deprecate_rule"]) eqn:Ea.
  - assert (Hact : exists a, Py.dict_lookup d "action" = Some (PStr a) /\
                     In a ["add_rule"; "refine_rule"; "update_rule"; "deprecate_rule"]).
    { unfold Py.dict_get in Ea. destruct (Py.dict_lookup d "action") as [[]|];
        cbn [Py.in_str_list] in Ea; try discriminate.
      eexists. split; [reflexivity|]. apply Hin. assumption. }
    split; [|intros k Hk; apply dict_lookup_set_ne; congruence].
    destruct (String.eqb_spec verdict_value "True") as [->|Hne].
    + exists trust. rewrite dict_lookup_set_eq. repeat split; auto.
    + exists detection. rewrite dict_lookup_set_eq. repeat split; try discriminate.
      intros [Hv _]. congruence.
  - split; [|intros k Hk; apply dict_lookup_set_ne; congruence].
    exists detection. rewrite dict_lookup_set_eq. repeat split; try discriminate.
    intros [_ (a & Hl & Ha)]. unfold Py.dict_get in Ea. rewrite Hl in Ea.
    cbn [Py.in_str_list] in Ea. apply Hin in Ha. congruence.
Qed.

(** ** The validator: reports, backups and what it leaves alone *)

Section Reports.

Import PlaybookValidator.

(** What a run that returns a report has found and written. *)
Lemma validate_and_fix_file_report filepath create_backup st n k found applied st' :
  validate_and_fix_file filepath create_backup st = (Ok (success n k found applied), st') ->
  exists data data' st1,
    files st !! filepath = Some (json data) /\
    fix_data data (mkState [] [] (files st)) = (Ok data', st1) /\
    files st1 = files st /\
    issues st1 = found /\ fixes st1 = applied /\
    n = length found /\ k = length applied /\ n = k /\
    issues st' = found /\ fixes st' = applied /\
    files st' =
      match applied with
      | [] => files st
      | _ =>
          if create_backup then
            match with_suffix filepath ".json.bak" with
            | Ok backup_path =>
                <[filepath := json data']>
                  (<[backup_path := json data]> (delete filepath (files st)))
            | Raise _ => files st
            end
          else <[filepath := json data']> (files st)
      end.
Proof.
  rewrite validate_and_fix_file_spec.
  destruct (files st !! filepath) as [[|data]|] eqn:Hf; try discriminate.
  destruct (fix_data data (mkState [] [] (files st))) as [[data'|e] st1] eqn:Ed;
    [|discriminate].
  destruct (fix_data_ok _ _ _ _ Ed) as [[Hfiles Hlen] _].
  cbn [files issues fixes length] in Hfiles, Hlen.
  assert (Hnk : length (issues st1) = length (fixes st1)) by lia.
  intros H. exists data, data', st1.
  split; [reflexivity|]. split; [exact Ed|]. split; [assumption|].
  destruct (fixes st1) as [|f fs] eqn:Ef.
  - unfold report_of in H. rewrite Ef in H. injection H as <- <- <- <- <-.
    rewrite Ef. repeat (split; [first [reflexivity | assumption]|]). assumption.
  - destruct create_backup.
    + destruct (with_suffix filepath ".json.bak") as [backup_path|e]; [|discriminate].
      rewrite Hfiles, Hf in H.
      unfold report_of in H. rewrite Ef in H. injection H as <- <- <- <- <-.
      cbn [issues fixes files length]. rewrite ?Hfiles.
      repeat (split; [first [reflexivity | assumption]|]). reflexivity.
    + unfold report_of in H. rewrite Ef in H. injection H as <- <- <- <- <-.
      cbn [issues fixes files length]. rewrite ?Hfiles.
      repeat (split; [first [reflexivity | assumption]|]). reflexivity.
Qed.

End Reports.

(** X16. Every report of [validate_and_fix_file] counts as many fixes as
    issues: each issue the validator records comes with the one fix it
    applies. The lists it returns are the ones it counted. A run that finds
    nothing writes nothing: no file is created, renamed or rewritten. *)
Theorem validator_fixes_every_issue filepath create_backup st n k found applied st' :
  PlaybookValidator.validate_and_fix_file filepath create_backup st
    = (Ok (PlaybookValidator.success n k found applied), st') ->
  n = k /\ n = length found /\ k = length applied /\
  (n = 0%nat -> PlaybookValidator.files st' = PlaybookValidator.files st).
Proof.
  intros H.
  destruct (validate_and_fix_file_report _ _ _ _ _ _ _ _ H)
    as (data & data' & st1 & _ & _ & _ & _ & _ & Hn & Hk & Hnk & _ & _ & Hfiles).
  repeat (split; [assumption|]).
  intros ->. destruct applied; [assumption|]. cbn in Hk. lia.
Qed.

(** The statement above for the broken file: four issues, four fixes. *)
Lemma validator_fixes_every_issue_witness :
  length broken_issues = length broken_fixes /\ length broken_issues = 4%nat.
Proof.
  destruct (validator_fixes_every_issue broken_path true broken_state 4 4
              broken_issues broken_fixes repaired_state eq_refl) as (_ & Hn & Hk & _).
  split; [rewrite <- Hn, <- Hk; reflexivity|rewrite <- Hn; reflexivity].
Defined.

Section BackupPath.

Import PlaybookValidator.

Lemma append_cancel s t u : s +:+ t = s +:+ u -> t = u.
Proof. induction s as [|a s IH]; simpl; [auto|]. intros [= H]. auto. Qed.

Lemma append_assoc (s t u : string) : (s +:+ t) +:+ u = s +:+ (t +:+ u).
Proof.
  induction s as [|a s IH]; [reflexivity|].
  change (String a ((s +:+ t) +:+ u) = String a (s +:+ (t +:+ u))). rewrite IH. reflexivity.
Qed.

Lemma append_empty s : s +:+ "" = s.
Proof.
  induction s as [|a s IH]; [reflexivity|].
  change (String a (s +:+ "") = String a s). rewrite IH. reflexivity.
Qed.

Lemma substring_prefix s t : String.substring 0 (String.length s) (s +:+ t) = s.
Proof.
  induction s as [|a s IH].
  - destruct t; reflexivity.
  - change (String a (String.substring 0 (String.length s) (s +:+ t)) = String a s).
    rewrite IH. reflexivity.
Qed.

(** Joining the parts of a split gives the string back. *)
Lemma concat_split c s : String.concat (String c "") (Py.split c s) = s.
Proof.
  induction s as [|a s IH]; cbn [Py.split]; [reflexivity|].
  pose proof (split_nonempty c s) as Hne.
  destruct (Py.split c s) as [|w ws]; [congruence|].
  destruct (Ascii.eqb_spec a c) as [->|_].
  - change (String c (String.concat (String c "") (w :: ws)) = String c s).
    rewrite IH. reflexivity.
  - destruct ws as [|y l].
    + change (String.concat (String c "") [w]) with w in IH. rewrite <- IH. reflexivity.
    + change (String a (String.concat (String c "") (w :: y :: l)) = String a s).
      rewrite IH. reflexivity.
Qed.

Lemma concat_last sep (l : list string) :
  l <> [] -> exists q, String.concat sep l = q +:+ List.last l "".
Proof.
  induction l as [|x l IH]; [congruence|]. intros _.
  destruct l as [|y l].
  - exists "". reflexivity.
  - destruct IH as [q Hq]; [discriminate|].
    exists (x +:+ sep +:+ q).
    change (String.concat sep (x :: y :: l)) with (x +:+ sep +:+ String.concat sep (y :: l)).
    change (List.last (x :: y :: l) "") with (List.last (y :: l) "").
    rewrite Hq, !append_assoc. reflexivity.
Qed.

Lemma path_name_suffix p : exists q, p = q +:+ path_name p.
Proof.
  unfold path_name.
  destruct (concat_last "/" (Py.split "/" p) (split_nonempty _ _)) as [q Hq].
  rewrite concat_split in Hq. eauto.
Qed.

Lemma last_dot_none name : last_dot name = None -> has_char "." name = false.
Proof.
  induction name as [|c name IH]; cbn [last_dot has_char]; [reflexivity|].
  destruct (last_dot name) as [[stem ext]|]; [discriminate|].
  destruct (Ascii.eqb c "."); [discriminate|]. intros _. rewrite IH; reflexivity.
Qed.

Lemma last_dot_some name stem ext :
  last_dot name = Some (stem, ext) ->
  name = stem +:+ ext /\ exists ext', ext = String "." ext' /\ has_char "." ext' = false.
Proof.
  revert stem ext. induction name as [|c name IH]; cbn [last_dot]; [discriminate|].
  intros stem ext.
  destruct (last_dot name) as [[stem' ext0]|] eqn:E.
  - intros [= <- <-]. destruct (IH _ _ eq_refl) as (-> & He). split; [reflexivity|assumption].
  - destruct (Ascii.eqb_spec c ".") as [->|_]; [|discriminate].
    intros [= <- <-]. split; [reflexivity|]. exists name. split; [reflexivity|].
    apply last_dot_none. assumption.
Qed.

Lemma count_char_absent c s : has_char c s = false -> count_char c s = 0%nat.
Proof.
  induction s as [|a s IH]; cbn [has_char count_char]; [reflexivity|].
  intros H. apply orb_false_elim in H as [-> Hs]. rewrite (IH Hs). reflexivity.
Qed.

(** A path ends with its suffix, which holds one dot at most. *)
Lemma path_suffix_spec p :
  (exists x, p = x +:+ path_suffix p) /\ (count_char "." (path_suffix p) <= 1)%nat.
Proof.
  unfold path_suffix.
  destruct (path_name_suffix p) as [q Hq].
  destruct (last_dot (path_name p)) as [[stem ext]|] eqn:E.
  2:{ split; [exists p; rewrite append_empty; reflexivity|cbn; lia]. }
  destruct (last_dot_some _ _ _ E) as (Hn & ext' & -> & Hd).
  destruct stem as [|a stem].
  { split; [exists p; rewrite append_empty; reflexivity|cbn; lia]. }
  destruct ext' as [|b ext'].
  { split; [exists p; rewrite append_empty; reflexivity|cbn; lia]. }
  split.
  - exists (q +:+ String a stem). rewrite append_assoc, <- Hn. exact Hq.
  - change (count_char "." (String "." (String b ext')))
      with (S (count_char "." (String b ext'))).
    rewrite (count_char_absent _ _ Hd). lia.
Qed.

(** The backup of a file is never the file itself. *)
Lemma with_suffix_bak p backup_path :
  with_suffix p ".json.bak" = Ok backup_path -> backup_path <> p.
Proof.
  unfold with_suffix. destruct (String.eqb (path_name p) ""); [discriminate|].
  intros [= <-] H.
  destruct (path_suffix_spec p) as [[x Hx] Hc].
  set (old := path_suffix p) in *.
  rewrite Hx in H at 1 2 3. rewrite append_length in H.
  replace (String.length x + String.length old - String.length old)%nat
    with (String.length x) in H by lia.
  rewrite substring_prefix in H. apply append_cancel in H.
  rewrite <- H in Hc. cbn in Hc. lia.
Qed.

End BackupPath.

(** X17. When [validate_and_fix_file] has fixed something with [create_backup]
    on, the file it was given holds the repaired data and the backup, whose
    path is the path with its suffix replaced by ".json.bak" and is never the
    path itself, holds the content the file had before the run; no other file
    is touched. With [create_backup] off only the file itself changes. *)
Theorem validator_backup_holds_original filepath create_backup st n k found applied st' :
  PlaybookValidator.validate_and_fix_file filepath create_backup st
    = (Ok (PlaybookValidator.success n k found applied), st') ->
  k <> 0%nat ->
  exists data data',
    PlaybookValidator.files st !! filepath = Some (PlaybookValidator.json data) /\
    PlaybookValidator.files st' !! filepath = Some (PlaybookValidator.json data') /\
    if create_backup then
      exists backup_path,
        PlaybookValidator.with_suffix filepath ".json.bak" = Ok backup_path /\
        backup_path <> filepath /\
        PlaybookValidator.files st' !! backup_path = Some (PlaybookValidator.json data) /\
        forall path, path <> filepath -> path <> backup_path ->
          PlaybookValidator.files st' !! path = PlaybookValidator.files st !! path
    else
      forall path, path <> filepath ->
        PlaybookValidator.files st' !! path = PlaybookValidator.files st !! path.
Proof.
  intros H Hk.
  pose proof H as H0. rewrite validate_and_fix_file_spec in H0.
  destruct (validate_and_fix_file_report _ _ _ _ _ _ _ _ H)
    as (data & data' & st1 & Hf & Ed & Hfiles & _ & Hfix & _ & Hka & _ & _ & _ & Hst').
  exists data, data'. split; [assumption|].
  destruct applied as [|f fs]; [cbn in Hka; congruence|].
  destruct create_backup.
  - rewrite Hf, Ed, Hfix in H0.
    destruct (PlaybookValidator.with_suffix filepath ".json.bak") as [backup_path|e] eqn:Ew;
      [|discriminate].
    pose proof (with_suffix_bak _ _ Ew) as Hne.
    rewrite Hst'. split; [apply lookup_insert_eq|].
    exists backup_path. split; [reflexivity|]. split; [assumption|]. split.
    + rewrite lookup_insert_ne by congruence. apply lookup_insert_eq.
    + intros path H1 H2.
      rewrite !lookup_insert_ne by congruence. apply lookup_delete_ne. congruence.
  - rewrite Hst'. split; [apply lookup_insert_eq|].
    intros path H1. apply lookup_insert_ne. congruence.
Qed.

(** The statement above for the broken file. *)
Lemma validator_backup_holds_original_witness :
  exists data',
    PlaybookValidator.files repaired_state !! broken_path = Some (PlaybookValidator.json data') /\
    PlaybookValidator.files repaired_state !! "data/playbook/detection_memory.json.bak"
      = Some (PlaybookValidator.json broken_file).
Proof.
  destruct (validator_backup_holds_original broken_path true broken_state 4 4
              broken_issues broken_fixes repaired_state eq_refl)
    as (data & data' & Hd & Hd' & backup_path & Hb & _ & Hc & _); [discriminate|].
  exists data'. split; [exact Hd'|].
  injection Hd as <-. injection Hb as <-. exact Hc.
Defined.

Section Repairs.

Import PlaybookValidator.

Lemma dict_set_keys d k v :
  is_Some (Py.dict_lookup d k) ->
  List.map fst (Py.dict_set d k v) = List.map fst d.
Proof.
  induction d as [|[k' v'] d IH]; cbn [Py.dict_lookup Py.dict_set List.map fst].
  - intros [x Hx]. discriminate.
  - destruct (String.eqb k' k); cbn [List.map fst]; [reflexivity|].
    intros H. rewrite (IH H). reflexivity.
Qed.

Lemma dict_lookup_keys d d' k :
  List.map fst d' = List.map fst d ->
  Py.dict_lookup d k = None -> Py.dict_lookup d' k = None.
Proof.
  revert d'. induction d as [|[k0 v0] d IH]; intros [|[k1 v1] d']; cbn [List.map fst];
    try discriminate; [reflexivity|].
  intros [= -> Hk]. cbn [Py.dict_lookup].
  destruct (String.eqb k0 k); [discriminate|]. apply IH. assumption.
Qed.

(** Close a case of a repair: the rule is as it was, or one entry that it had
    was set. *)
Ltac keys_done E :=
  first [ reflexivity
        | apply dict_set_keys; rewrite E; eauto ].

Lemma fix_evidence_count_keys rule_id rule st rule' st' :
  fix_evidence_count rule_id rule st = (Ok rule', st') ->
  List.map fst rule' = List.map fst rule.
Proof.
  unfold fix_evidence_count.
  destruct (Py.dict_lookup rule "evidence_count") as [ec|] eqn:E;
    [|intros [= <- <-]; reflexivity].
  destruct ec; cbn [Py.is_int negb Py.int];
    unfold vbind, vret, vraise, append_issue, append_fix;
    try (intros [= <- <-]; keys_done E).
  destruct (Py.int_of_str s); intros [= <- <-]; keys_done E.
Qed.

Lemma fix_type_keys rule_id rule st rule' st' :
  fix_type rule_id rule st = (Ok rule', st') -> List.map fst rule' = List.map fst rule.
Proof.
  unfold fix_type.
  destruct (Py.dict_lookup rule "type") as [rule_type|] eqn:E;
    [|intros [= <- <-]; reflexivity].
  unfold vbind, vret, vraise, append_issue, append_fix, member.
  destruct (Py.in_str_set rule_type VALID_TYPES) as [[]|e]; cbn [negb];
    try discriminate; intros [= <- <-]; keys_done E.
Qed.

Lemma fix_confidence_keys rule_id rule st rule' st' :
  fix_confidence rule_id rule st = (Ok rule', st') -> List.map fst rule' = List.map fst rule.
Proof.
  unfold fix_confidence.
  destruct (Py.dict_lookup rule "confidence") as [conf|] eqn:E;
    [|intros [= <- <-]; reflexivity].
  unfold vbind, vret, vraise, append_issue, append_fix.
  destruct (Py.float conf) as [conf_float|[]]; try discriminate;
    try (intros [= <- <-]; keys_done E).
  destruct (Py.flt conf_float Py.float_zero);
    [|destruct (Py.flt Py.float_one conf_float)]; intros [= <- <-]; keys_done E.
Qed.

Lemma fix_memory_type_keys rule_id rule st rule' st' :
  fix_memory_type rule_id rule st = (Ok rule', st') ->
  List.map fst rule' = List.map fst rule.
Proof.
  unfold fix_memory_type.
  destruct (Py.dict_lookup rule "memory_type") as [mem_type|] eqn:E;
    [|intros [= <- <-]; reflexivity].
  destruct (Py.truthy mem_type); [|intros [= <- <-]; reflexivity].
  unfold vbind, vret, vraise, append_issue, append_fix, member.
  destruct (Py.in_str_set mem_type VALID_MEMORIES) as [[]|e]; cbn [negb];
    try discriminate; intros [= <- <-]; keys_done E.
Qed.

(** The four repairs of a rule, one after the other. *)
Lemma validate_rule_steps fields index st rule' st' :
  _validate_and_fix_rule (PDict fields) index st = (Ok rule', st') ->
  exists rule_id f1 st1 f2 st2 f3 st3 f4,
    fix_evidence_count rule_id fields st = (Ok f1, st1) /\
    fix_type rule_id f1 st1 = (Ok f2, st2) /\
    fix_confidence rule_id f2 st2 = (Ok f3, st3) /\
    fix_memory_type rule_id f3 st3 = (Ok f4, st') /\
    rule' = PDict f4.
Proof.
  unfold _validate_and_fix_rule.
  set (rule_id := match Py.dict_lookup fields "rule_id" with
                  | Some v => v
                  | None => PStr ("rule_" +:+ Py.str_of_int (Z.of_nat index))
                  end).
  unfold vbind.
  destruct (fix_evidence_count rule_id fields st) as [[f1|e] st1] eqn:E1; [|discriminate].
  destruct (fix_type rule_id f1 st1) as [[f2|e] st2] eqn:E2; [|discriminate].
  destruct (fix_confidence rule_id f2 st2) as [[f3|e] st3] eqn:E3; [|discriminate].
  destruct (fix_memory_type rule_id f3 st3) as [[f4|e] st4] eqn:E4; [|discriminate].
  unfold vret. intros [= <- <-]. exists rule_id, f1, st1, f2, st2, f3, st3, f4. auto.
Qed.

End Repairs.

(** X18. The validator repairs values only. The rule it returns has the keys
    of the rule it was given, in their order: no field is added, removed or
    moved, so that a guarded field that is missing stays missing. Every field
    but [evidence_count], [type], [confidence] and [memory_type] keeps its
    value, and no file is touched by the repair of a rule. *)
Theorem validator_keeps_other_fields fields index st rule' st' :
  PlaybookValidator._validate_and_fix_rule (PDict fields) index st = (Ok rule', st') ->
  exists fields',
    rule' = PDict fields' /\
    List.map fst fields' = List.map fst fields /\
    (forall k, Py.dict_lookup fields k = None -> Py.dict_lookup fields' k = None) /\
    (forall k, k <> "evidence_count" -> k <> "type" -> k <> "confidence" ->
               k <> "memory_type" -> Py.dict_lookup fields' k = Py.dict_lookup fields k) /\
    PlaybookValidator.files st' = PlaybookValidator.files st.
Proof.
  intros H.
  destruct (validate_rule_steps _ _ _ _ _ H)
    as (rule_id & f1 & st1 & f2 & st2 & f3 & st3 & f4 & E1 & E2 & E3 & E4 & ->).
  destruct (fix_evidence_count_ok _ _ _ _ _ E1) as ([F1 _] & _ & K1).
  destruct (fix_type_ok _ _ _ _ _ E2) as ([F2 _] & _ & K2).
  destruct (fix_confidence_ok _ _ _ _ _ E3) as ([F3 _] & _ & K3).
  destruct (fix_memory_type_ok _ _ _ _ _ E4) as ([F4 _] & _ & K4).
  assert (Hkeys : List.map fst f4 = List.map fst fields).
  { rewrite (fix_memory_type_keys _ _ _ _ _ E4), (fix_confidence_keys _ _ _ _ _ E3),
      (fix_type_keys _ _ _ _ _ E2). exact (fix_evidence_count_keys _ _ _ _ _ E1). }
  exists f4. split; [reflexivity|]. split; [exact Hkeys|]. split; [|split].
  - intros k. apply dict_lookup_keys. assumption.
  - intros k H1 H2 H3 H4. rewrite K4, K3, K2, K1 by assumption. reflexivity.
  - congruence.
Qed.

(** The statement above for the broken rule: its id is as it was, and it has
    not gained a description. *)
Lemma validator_keeps_other_fields_witness :
  exists fields',
    fst (PlaybookValidator._validate_and_fix_rule broken_rule 0 broken_state)
      = Ok (PDict fields') /\
    Py.dict_lookup fields' "rule_id" = Some (PStr "shr-00007") /\
    Py.dict_lookup fields' "description" = None.
Proof.
  destruct (validator_keeps_other_fields
              [("rule_id", PStr "shr-00007"); ("type", PStr "meta");
               ("confidence", PStr "high");
               ("evidence_count", PStr "3 (original value + 1)");
               ("memory_type", PStr "both")] 0 broken_state
              (PDict [("rule_id", PStr "shr-00007"); ("type", PStr "strategy");
                      ("confidence", PFloat Py.float_half);
                      ("evidence_count", PInt 1);
                      ("memory_type", PStr "detection")])
              (snd (PlaybookValidator._validate_and_fix_rule broken_rule 0 broken_state))
              eq_refl)
    as (fields' & Hr & _ & Hnone & Hk & _).
  exists fields'. split; [rewrite <- Hr; reflexivity|].
  split; [rewrite Hk by discriminate; reflexivity|apply Hnone; reflexivity].
Defined.

(** X19. The values the validator leaves in the guarded fields of a rule pass
    through the field validators of [Rule] unchanged in value.
    [validate_type] returns the type, which is one of the three;
    [validate_confidence] returns what [float()] makes of the confidence,
    without clamping it: a number within [[0, 1]], or a NaN, which the
    validator does not repair and the bounds of the field then refuse;
    [fix_evidence_count] returns the count, which is an integer. *)
Theorem repaired_fields_pass_validators rule index st fields' st' :
  PlaybookValidator._validate_and_fix_rule rule index st = (Ok (PDict fields'), st') ->
  (forall t, Py.dict_lookup fields' "type" = Some t ->
     Rule_validate_type t = Ok t /\ exists s, t = PStr s /\ In s valid_types) /\
  (forall v, Py.dict_lookup fields' "confidence" = Some v ->
     exists c, Py.float v = Ok c /\ Rule_validate_confidence v = Ok c /\
               (c = S754_nan \/ confidence_in_bounds c = true)) /\
  (forall v, Py.dict_lookup fields' "evidence_count" = Some v ->
     exists n, Py.int v = Ok n /\ Rule_fix_evidence_count v = Ok n /\
               Py.is_int v = true).
Proof.
  intros H.
  destruct (validate_rule_ok _ _ _ _ _ H) as [_ (fields & Hf & Oe & Ot & Oc & _)].
  injection Hf as <-. split; [|split].
  - intros t Ht. rewrite Ht in Ot. cbn [type_ok] in Ot.
    unfold PlaybookValidator.VALID_TYPES in Ot. fold valid_types in Ot.
    unfold Rule_validate_type. rewrite Ot. split; [reflexivity|].
    destruct t as [|b|z|f|s|l|d]; cbn [Py.in_str_set] in Ot; try discriminate.
    exists s. split; [reflexivity|]. injection Ot as Ot.
    repeat (apply orb_true_iff in Ot as [Ot|Ot]); try discriminate;
      apply String.eqb_eq in Ot; subst; unfold valid_types; cbn [In]; auto.
  - intros v Hv. rewrite Hv in Oc. cbn [confidence_ok] in Oc.
    destruct Oc as (c & Hfl & H0 & H1). exists c. split; [assumption|].
    rewrite Rule_validate_confidence_spec, Hfl. unfold clamp. rewrite H0, H1.
    split; [reflexivity|].
    destruct c as [sg|sg| |sg m e]; [right|right|left; reflexivity|right];
      unfold confidence_in_bounds;
      rewrite (fle_of_flt _ _ H0), (fle_of_flt _ _ H1) by discriminate; reflexivity.
  - intros v Hv. rewrite Hv in Oe. cbn [evidence_count_ok] in Oe.
    destruct v as [|b|z|f|s|l|d]; try discriminate; eexists;
      (split; [reflexivity|]); split; reflexivity.
Qed.

(** The statement above for the broken rule once repaired. *)
Lemma repaired_fields_pass_validators_witness :
  Rule_validate_type (PStr "strategy") = Ok (PStr "strategy") /\
  Rule_validate_confidence (PFloat Py.float_half) = Ok Py.float_half /\
  Rule_fix_evidence_count (PInt 1) = Ok 1.
Proof.
  destruct (repaired_fields_pass_validators broken_rule 0 broken_state
              [("rule_id", PStr "shr-00007"); ("type", PStr "strategy");
               ("confidence", PFloat Py.float_half);
               ("evidence_count", PInt 1);
               ("memory_type", PStr "detection")]
              (snd (PlaybookValidator._validate_and_fix_rule broken_rule 0 broken_state))
              eq_refl) as (Ht & Hc & He).
  destruct (Ht (PStr "strategy") eq_refl) as [Ht' _].
  destruct (Hc (PFloat Py.float_half) eq_refl) as (c & Hf & Hc' & _).
  destruct (He (PInt 1) eq_refl) as (n & Hi & He' & _).
  injection Hf as <-. injection Hi as <-. auto.
Defined.

(** ** The two repairs of a string evidence count *)

Section EvidenceCount.

Import PlaybookValidator.

Lemma startswith_has_char c p s :
  Py.startswith p s = true -> has_char c p = true -> has_char c s = true.
Proof.
  revert s. induction p as [|a p IH]; intros s; cbn [Py.startswith has_char];
    [discriminate|].
  destruct s as [|b s]; [discriminate|]. cbn [has_char].
  intros H. apply andb_true_iff in H as [Hab Hp].
  apply Ascii.eqb_eq in Hab. subst b.
  intros Hc. apply orb_true_iff in Hc as [Hc|Hc]; [rewrite Hc; reflexivity|].
  rewrite (IH _ Hp Hc). apply orb_true_r.
Qed.

Lemma contains_has_char c needle hay :
  Py.contains needle hay = true -> has_char c needle = true -> has_char c hay = true.
Proof.
  induction hay as [|b hay IH]; cbn [Py.contains]; intros H Hc.
  - rewrite orb_false_r in H. exact (startswith_has_char _ _ _ H Hc).
  - apply orb_true_iff in H as [H|H]; [exact (startswith_has_char _ _ _ H Hc)|].
    cbn [has_char]. rewrite (IH H Hc). apply orb_true_r.
Qed.

Lemma contains_char c s : Py.contains (String c "") s = has_char c s.
Proof.
  induction s as [|a s IH]; [reflexivity|].
  cbn [Py.contains Py.startswith has_char]. rewrite IH, andb_true_r.
  rewrite (Ascii.eqb_sym c a). reflexivity.
Qed.

Lemma lower_plus s : has_char "+" (Py.lower s) = has_char "+" s.
Proof.
  induction s as [|a s IH]; [reflexivity|]. cbn [Py.lower has_char]. rewrite IH.
  f_equal. destruct a as [[] [] [] [] [] [] [] []]; reflexivity.
Qed.

(** The first test of [Rule.fix_evidence_count] is covered by its second. *)
Lemma original_value_has_plus s :
  Py.contains "original value + 1" (Py.lower s) || Py.contains "+" s = Py.contains "+" s.
Proof.
  destruct (Py.contains "original value + 1" (Py.lower s)) eqn:E; [|reflexivity].
  cbn [orb]. symmetry. rewrite contains_char, <- lower_plus.
  apply (contains_has_char _ _ _ E). reflexivity.
Qed.

End EvidenceCount.

(** X20. The validator and the [Rule] constructor do not repair a string
    evidence count alike. The validator stores [int(s)] when the string reads
    as an integer, and 1 when it does not. The constructor returns 1 for
    every string that holds a "+" (its test for "original value + 1" never
    decides anything: such a string holds a "+"), and the value of the
    validator for every other string. The two differ exactly on the strings
    with a "+" that read as an integer other than 1, such as "+5". *)
Theorem evidence_count_repairs_differ rule_id rule s st :
  Py.dict_lookup rule "evidence_count" = Some (PStr s) ->
  let n := match Py.int_of_str s with Some z => z | None => 1 end in
  (exists st',
     PlaybookValidator.fix_evidence_count rule_id rule st
       = (Ok (Py.dict_set rule "evidence_count" (PInt n)), st')) /\
  Rule_fix_evidence_count (PStr s) = Ok (if Py.contains "+" s then 1 else n) /\
  (Rule_fix_evidence_count (PStr s) = Ok n <-> Py.contains "+" s = false \/ n = 1).
Proof.
  intros Hl. cbv zeta.
  assert (Hs : Rule_fix_evidence_count (PStr s) =
               Ok (if Py.contains "+" s then 1
                   else match Py.int_of_str s with Some z => z | None => 1 end)).
  { rewrite Rule_fix_evidence_count_str, original_value_has_plus. reflexivity. }
  split; [|split; [exact Hs|]].
  - unfold PlaybookValidator.fix_evidence_count. rewrite Hl. cbn [Py.int].
    unfold PlaybookValidator.vbind, PlaybookValidator.vret, PlaybookValidator.append_issue,
      PlaybookValidator.append_fix.
    destruct (Py.int_of_str s); eexists; reflexivity.
  - rewrite Hs. destruct (Py.contains "+" s).
    + split; [intros [= <-]; right; reflexivity|]. intros [H| ->]; [discriminate|reflexivity].
    + split; [left; reflexivity|reflexivity].
Qed.

(** The statement above for the text "+5": the validator stores 5, the
    constructor returns 1. *)
Lemma evidence_count_repairs_differ_witness :
  (exists st',
     PlaybookValidator.fix_evidence_count (PStr "shr-00001")
       [("evidence_count", PStr "+5")] broken_state
     = (Ok [("evidence_count", PInt 5)], st')) /\
  Rule_fix_evidence_count (PStr "+5") = Ok 1.
Proof.
  destruct (evidence_count_repairs_differ (PStr "shr-00001")
              [("evidence_count", PStr "+5")] "+5" broken_state eq_refl)
    as (H1 & H2 & _).
  split; [exact H1|exact H2].
Defined.

(** ** The command line of the validator *)

Section CommandLine.

Import PlaybookValidator.

Lemma main_loop_totals paths no_backup i f st i' f' st' :
  main_loop paths no_backup i f st = (Ok (i', f'), st') ->
  (i' + f = f' + i)%nat /\ (i <= i')%nat.
Proof.
  revert i f st. induction paths as [|filepath paths IH]; intros i f st; cbn [main_loop].
  - unfold vret. intros [= <- <- _]. lia.
  - destruct (files st !! filepath) as [content|]; [|apply IH].
    unfold vbind.
    destruct (validate_and_fix_file filepath (negb no_backup) st) as [[[|n k found applied]|e] st1]
      eqn:E; [apply IH| |discriminate].
    intros H. destruct (IH _ _ _ H) as [H1 H2].
    destruct (validate_and_fix_file_report _ _ _ _ _ _ _ _ E)
      as (_ & _ & _ & _ & _ & _ & _ & _ & _ & _ & Hnk & _).
    lia.
Qed.

End CommandLine.

(** X21. The summary [main] prints counts as many fixes as issues, whatever
    the files it is given: a path that does not exist is skipped, a file that
    does not parse adds nothing, and every other file adds as many fixes as
    issues. *)
Theorem main_counts_agree paths no_backup st total_issues total_fixes st' :
  PlaybookValidator.main_loop paths no_backup 0 0 st = (Ok (total_issues, total_fixes), st') ->
  total_issues = total_fixes.
Proof.
  intros H. destruct (main_loop_totals _ _ _ _ _ _ _ _ H). lia.
Qed.

(** The statement above for a command line with the broken file and a path
    that does not exist. *)
Lemma main_counts_agree_witness :
  exists total st',
    PlaybookValidator.main_loop ["data/playbook/missing.json"; broken_path] false 0 0
      broken_state = (Ok (4%nat, total), st') /\
    4%nat = total.
Proof.
  assert (H : PlaybookValidator.main_loop ["data/playbook/missing.json"; broken_path] false
                0 0 broken_state = (Ok (4%nat, 4%nat), repaired_state)) by reflexivity.
  exists 4%nat, repaired_state. split; [exact H|].
  exact (main_counts_agree _ _ _ _ _ _ H).
Defined.

(** ** The fence around the answer of the language model *)

Section Fences.

Lemma partition_cons sep c s :
  Py.partition sep (String c s) =
  if Py.startswith sep (String c s)
  then Some (EmptyString, Py.drop (String.length sep) (String c s))
  else match Py.partition sep s with
       | Some (before, after) => Some (String c before, after)
       | None => None
       end.
Proof. reflexivity. Qed.

Lemma partition_empty sep : sep <> "" -> Py.partition sep "" = None.
Proof. destruct sep; [congruence|reflexivity]. Qed.

(** A text without the first character of the separator is skipped. *)
Lemma partition_skip c sep' pre s :
  has_char c pre = false ->
  Py.partition (String c sep') (pre +:+ s) =
  match Py.partition (String c sep') s with
  | Some (before, after) => Some (pre +:+ before, after)
  | None => None
  end.
Proof.
  induction pre as [|a pre IH]; intros H.
  - change ("" +:+ s) with s. destruct (Py.partition (String c sep') s) as [[]|]; reflexivity.
  - cbn [has_char] in H. apply orb_false_elim in H as [Ha Hp].
    change (String a pre +:+ s) with (String a (pre +:+ s)).
    rewrite partition_cons. cbn [Py.startswith]. rewrite (Ascii.eqb_sym c a), Ha.
    cbn [andb]. rewrite (IH Hp).
    destruct (Py.partition (String c sep') s) as [[x y]|]; reflexivity.
Qed.

Lemma partition_here sep s :
  Py.startswith sep s = true ->
  Py.partition sep s = Some (EmptyString, Py.drop (String.length sep) s).
Proof.
  intros H. destruct s as [|c s].
  - unfold Py.partition. rewrite H. reflexivity.
  - rewrite partition_cons, H. reflexivity.
Qed.

Lemma startswith_app sep s : Py.startswith sep (sep +:+ s) = true.
Proof.
  induction sep as [|a sep IH]; [reflexivity|].
  change (String a sep +:+ s) with (String a (sep +:+ s)).
  cbn [Py.startswith]. rewrite Ascii.eqb_refl, IH. reflexivity.
Qed.

Lemma drop_app sep s : Py.drop (String.length sep) (sep +:+ s) = s.
Proof.
  induction sep as [|a sep IH]; [destruct s; reflexivity|].
  change (String a sep +:+ s) with (String a (sep +:+ s)). cbn [String.length Py.drop].
  exact IH.
Qed.

Lemma partition_app sep s : Py.partition sep (sep +:+ s) = Some (EmptyString, s).
Proof. rewrite partition_here by apply startswith_app. rewrite drop_app. reflexivity. Qed.

Lemma startswith_length sep s :
  Py.startswith sep s = true -> (String.length sep <= String.length s)%nat.
Proof.
  revert s. induction sep as [|a sep IH]; intros s; cbn [Py.startswith String.length];
    [lia|].
  destruct s as [|b s]; [discriminate|]. intros H. apply andb_true_iff in H as [_ H].
  specialize (IH _ H). cbn [String.length]. lia.
Qed.

Lemma drop_length n s : String.length (Py.drop n s) = (String.length s - n)%nat.
Proof.
  revert s. induction n as [|n IH]; intros s; [destruct s; cbn; lia|].
  destruct s as [|c s]; [reflexivity|]. cbn [Py.drop String.length]. rewrite IH. lia.
Qed.

Lemma partition_length sep s before after :
  Py.partition sep s = Some (before, after) ->
  (String.length after + String.length sep <= String.length s)%nat.
Proof.
  revert before. induction s as [|c s IH]; intros before.
  - unfold Py.partition. destruct (Py.startswith sep "") eqn:E; [|discriminate].
    intros [= _ <-]. pose proof (startswith_length _ _ E). rewrite drop_length. lia.
  - rewrite partition_cons. destruct (Py.startswith sep (String c s)) eqn:E.
    + intros [= _ <-]. pose proof (startswith_length _ _ E). rewrite drop_length. lia.
    + destruct (Py.partition sep s) as [[x y]|]; [|discriminate].
      intros [= _ <-]. specialize (IH _ eq_refl). cbn [String.length]. lia.
Qed.

Lemma split_at_first fuel sep s :
  sep <> "" -> (String.length s <= fuel)%nat ->
  nth_error (Py.split_at fuel sep s) 0 = Some (first_piece sep s).
Proof.
  intros Hsep Hlen. unfold first_piece. destruct fuel as [|fuel]; cbn [Py.split_at].
  - destruct s; [|cbn in Hlen; lia]. rewrite partition_empty by assumption. reflexivity.
  - destruct (Py.partition sep s) as [[x y]|]; reflexivity.
Qed.

Lemma length_positive sep : sep <> "" -> (1 <= String.length sep)%nat.
Proof. destruct sep; [congruence|cbn; lia]. Qed.

(** The text inside a fence: what follows the first occurrence of the fence,
    up to the next one, up to the first closing fence. *)
Lemma fenced_spec fence content before after :
  fence <> "" ->
  Py.partition fence content = Some (before, after) ->
  CuratorAgent.fenced fence content
  = Some (Py.str_strip (first_piece "```" (first_piece fence after))).
Proof.
  intros Hf Hp. unfold CuratorAgent.fenced, Py.split_str.
  pose proof (partition_length _ _ _ _ Hp) as Hl.
  pose proof (length_positive _ Hf) as Hpos.
  destruct (String.length content) as [|fuel] eqn:El; [lia|].
  cbn [Py.split_at]. rewrite Hp.
  change (nth_error (before :: Py.split_at fuel fence after) 1)
    with (nth_error (Py.split_at fuel fence after) 0).
  rewrite split_at_first by (assumption || lia).
  rewrite split_at_first by (discriminate || lia).
  reflexivity.
Qed.

Lemma contains_partition sep s :
  Py.contains sep s = true -> exists before after, Py.partition sep s = Some (before, after).
Proof.
  induction s as [|c s IH].
  - cbn [Py.contains]. rewrite orb_false_r. intros H.
    rewrite (partition_here _ _ H). eauto.
  - cbn [Py.contains]. rewrite partition_cons.
    destruct (Py.startswith sep (String c s)); [eauto|].
    cbn [orb]. intros H. destruct (IH H) as (x & y & ->). eauto.
Qed.

Lemma contains_absent c needle s :
  has_char c s = false -> Py.contains (String c needle) s = false.
Proof.
  intros H. destruct (Py.contains (String c needle) s) eqn:E; [|reflexivity].
  rewrite (contains_has_char c _ _ E) in H; [discriminate|].
  cbn [has_char]. rewrite Ascii.eqb_refl. reflexivity.
Qed.

Lemma first_piece_absent c sep' s :
  has_char c s = false -> first_piece (String c sep') s = s.
Proof.
  intros H. unfold first_piece.
  pose proof (partition_skip c sep' s "" H) as Hp.
  rewrite append_empty in Hp. rewrite Hp.
  rewrite partition_empty by discriminate. reflexivity.
Qed.

(** The first piece of a text that is closed by the separator. *)
Lemma first_piece_closed c sep' body rest :
  has_char c body = false ->
  first_piece (String c sep') (body +:+ String c sep' +:+ rest) = body.
Proof.
  intros H. unfold first_piece. rewrite (partition_skip c sep' body _ H), partition_app.
  apply append_empty.
Qed.

(** A needle occurs where a longer needle does. *)
Lemma contains_tail a needle hay :
  Py.contains (String a needle) hay = true -> Py.contains needle hay = true.
Proof.
  induction hay as [|b hay IH]; cbn [Py.contains Py.startswith]; [discriminate|].
  intros H. apply orb_true_iff in H as [H|H].
  - apply andb_true_iff in H as [_ H]. apply orb_true_iff. right.
    destruct hay; cbn [Py.contains]; rewrite H; reflexivity.
  - rewrite (IH H). apply orb_true_r.
Qed.

Lemma contains_skip c needle pre s :
  has_char c pre = false ->
  Py.contains (String c needle) (pre +:+ s) = Py.contains (String c needle) s.
Proof.
  induction pre as [|a pre IH]; intros H; [reflexivity|].
  cbn [has_char] in H. apply orb_false_elim in H as [Ha Hp].
  change (String a pre +:+ s) with (String a (pre +:+ s)).
  cbn [Py.contains Py.startswith]. rewrite (Ascii.eqb_sym c a), Ha. cbn [andb orb].
  exact (IH Hp).
Qed.

(** A prefix without the character [c] is found in a text, or not, before
    the first [c] of the text. *)
Lemma startswith_before c p body rest :
  has_char c p = false ->
  Py.startswith p (body +:+ String c rest) = Py.startswith p body.
Proof.
  revert body. induction p as [|a p IH]; intros body H; [reflexivity|].
  cbn [has_char] in H. apply orb_false_elim in H as [Ha Hp].
  destruct body as [|b body].
  - change ("" +:+ String c rest) with (String c rest). cbn [Py.startswith].
    rewrite Ha. reflexivity.
  - change (String b body +:+ String c rest) with (String b (body +:+ String c rest)).
    cbn [Py.startswith]. rewrite (IH _ Hp). reflexivity.
Qed.

Lemma contains_here needle hay :
  Py.startswith needle hay = true -> Py.contains needle hay = true.
Proof. intros H. destruct hay; cbn [Py.contains]; rewrite H; reflexivity. Qed.

End Fences.

Section FencedAnswers.

(** After a closing fence that no backtick follows, the next opening of a JSON
    fence is the closing fence itself or comes after it. *)
Lemma partition_json_fence post :
  Py.startswith "`" post = false ->
  match Py.partition "```json" ("```" +:+ post) with
  | Some (x, _) => x = "" \/ exists z, x = "```" +:+ z
  | None => True
  end.
Proof.
  intros H.
  change ("```" +:+ post) with (String "`" (String "`" (String "`" post))).
  destruct post as [|c post]; [exact I|].
  cbn [Py.startswith] in H. rewrite andb_true_r in H.
  rewrite !partition_cons. cbn [Py.startswith]. rewrite ?Ascii.eqb_refl, ?H. cbn [andb].
  match goal with |- context [if ?b then _ else _] => destruct b end;
    [left; reflexivity|].
  destruct (Py.partition "```json" post) as [[x y]|]; [|exact I].
  right. exists (String c x). reflexivity.
Qed.

Lemma inside_json_fence body post :
  has_char "`" body = false -> Py.startswith "`" post = false ->
  first_piece "```" (first_piece "```json" (body +:+ "```" +:+ post)) = body.
Proof.
  intros Hb Hp. unfold first_piece at 2.
  rewrite (partition_skip "`" "``json" body _ Hb).
  pose proof (partition_json_fence post Hp) as H.
  destruct (Py.partition "```json" ("```" +:+ post)) as [[x y]|].
  - cbv beta iota in H. destruct H as [->|[z ->]].
    + rewrite append_empty. apply first_piece_absent. assumption.
    + apply (first_piece_closed "`" "``"). assumption.
  - apply (first_piece_closed "`" "``"). assumption.
Qed.

(** A JSON fence opens only where a backtick is followed by "json". *)
Lemma no_json_fence pre body post :
  has_char "`" pre = false -> has_char "`" body = false -> has_char "`" post = false ->
  Py.startswith "json" body = false -> Py.startswith "json" post = false ->
  Py.contains "```json" (pre +:+ "```" +:+ body +:+ "```" +:+ post) = false.
Proof.
  intros Hpre Hbody Hpost Hjb Hjp.
  destruct (Py.contains "```json" _) eqn:E; [|reflexivity]. exfalso.
  apply contains_tail, contains_tail in E.
  rewrite (contains_skip "`" "json" pre _ Hpre) in E.
  assert (Hrest : Py.contains "`json" (body +:+ "```" +:+ post) = false).
  { rewrite (contains_skip "`" "json" body _ Hbody).
    change ("```" +:+ post) with (String "`" (String "`" (String "`" post))).
    cbn [Py.contains Py.startswith]. rewrite !Ascii.eqb_refl. cbn [andb orb].
    change (Py.startswith "json" post || Py.contains "`json" post = false).
    rewrite Hjp. apply (contains_absent "`" "json"). assumption. }
  change ("```" +:+ body +:+ "```" +:+ post)
    with (String "`" (String "`" (String "`" (body +:+ "```" +:+ post)))) in E.
  cbn [Py.contains Py.startswith] in E. rewrite !Ascii.eqb_refl in E. cbn [andb orb] in E.
  change (Py.startswith "json" (body +:+ String "`" ("``" +:+ post))
          || Py.contains "`json" (body +:+ "```" +:+ post) = true) in E.
  rewrite (startswith_before "`" "json" body _ eq_refl), Hjb, Hrest in E. discriminate.
Qed.

End FencedAnswers.

(** X22. [curate] hands [json.loads] the inside of the first fence of the
    answer. For an answer with a JSON fence, opened by three backticks and
    "json", it is the text between the opening and the closing fence,
    stripped, whatever follows the closing fence (as long as that is not a
    backtick); a fence that is not closed gives the text after its opening.
    For an answer with a plain fence it is the text between the two fences,
    and for an answer without a backtick it is the answer itself, stripped.
    The two indexings of the extraction never go out of range. *)
Theorem json_str_unwraps_fence :
  (forall content, exists text, CuratorAgent.json_str content = Some text) /\
  (forall content,
     has_char "`" content = false ->
     CuratorAgent.json_str content = Some (Py.str_strip content)) /\
  (forall pre body post,
     has_char "`" pre = false -> has_char "`" body = false ->
     Py.startswith "`" post = false ->
     CuratorAgent.json_str (pre +:+ "```json" +:+ body +:+ "```" +:+ post)
       = Some (Py.str_strip body)) /\
  (forall pre body,
     has_char "`" pre = false -> has_char "`" body = false ->
     CuratorAgent.json_str (pre +:+ "```json" +:+ body) = Some (Py.str_strip body)) /\
  (forall pre body post,
     has_char "`" pre = false -> has_char "`" body = false -> has_char "`" post = false ->
     Py.startswith "json" body = false -> Py.startswith "json" post = false ->
     CuratorAgent.json_str (pre +:+ "```" +:+ body +:+ "```" +:+ post)
       = Some (Py.str_strip body)).
Proof.
  split; [|split; [|split; [|split]]].
  - intros content. unfold CuratorAgent.json_str.
    destruct (Py.contains "```json" content) eqn:E1.
    { destruct (contains_partition _ _ E1) as (x & y & Hp).
      rewrite (fenced_spec "```json" _ _ _ ltac:(discriminate) Hp). eauto. }
    destruct (Py.contains "```" content) eqn:E2; [|eauto].
    destruct (contains_partition _ _ E2) as (x & y & Hp).
    rewrite (fenced_spec "```" _ _ _ ltac:(discriminate) Hp). eauto.
  - intros content H. unfold CuratorAgent.json_str.
    rewrite !(contains_absent "`") by assumption. reflexivity.
  - intros pre body post Hpre Hbody Hpost. unfold CuratorAgent.json_str.
    assert (Hp : Py.partition "```json" (pre +:+ "```json" +:+ body +:+ "```" +:+ post)
                 = Some (pre +:+ "", body +:+ "```" +:+ post)).
    { rewrite (partition_skip "`" "``json" pre _ Hpre), partition_app. reflexivity. }
    assert (Hc : Py.contains "```json" (pre +:+ "```json" +:+ body +:+ "```" +:+ post) = true).
    { rewrite (contains_skip "`" "``json" pre _ Hpre).
      apply contains_here, startswith_app. }
    rewrite Hc, (fenced_spec "```json" _ _ _ ltac:(discriminate) Hp), inside_json_fence by assumption.
    reflexivity.
  - intros pre body Hpre Hbody. unfold CuratorAgent.json_str.
    assert (Hp : Py.partition "```json" (pre +:+ "```json" +:+ body)
                 = Some (pre +:+ "", body)).
    { rewrite (partition_skip "`" "``json" pre _ Hpre), partition_app. reflexivity. }
    assert (Hc : Py.contains "```json" (pre +:+ "```json" +:+ body) = true).
    { rewrite (contains_skip "`" "``json" pre _ Hpre).
      apply contains_here, startswith_app. }
    rewrite Hc, (fenced_spec "```json" _ _ _ ltac:(discriminate) Hp).
    rewrite (first_piece_absent "`" "``json" body Hbody),
      (first_piece_absent "`" "``" body Hbody). reflexivity.
  - intros pre body post Hpre Hbody Hpost Hjb Hjp. unfold CuratorAgent.json_str.
    rewrite no_json_fence by assumption.
    assert (Hp : Py.partition "```" (pre +:+ "```" +:+ body +:+ "```" +:+ post)
                 = Some (pre +:+ "", body +:+ "```" +:+ post)).
    { rewrite (partition_skip "`" "``" pre _ Hpre), partition_app. reflexivity. }
    assert (Hc : Py.contains "```" (pre +:+ "```" +:+ body +:+ "```" +:+ post) = true).
    { rewrite (contains_skip "`" "``" pre _ Hpre).
      apply contains_here, startswith_app. }
    rewrite Hc, (fenced_spec "```" _ _ _ ltac:(discriminate) Hp).
    rewrite (first_piece_closed "`" "``" body post Hbody).
    rewrite (first_piece_absent "`" "``" body Hbody). reflexivity.
Qed.

(** The statement above for an answer with a JSON fence and a remark after
    it. *)
Lemma json_str_unwraps_fence_witness :
  CuratorAgent.json_str "Here is the update: ```json {} ``` Done." = Some "{}".
Proof.
  exact (proj1 (proj2 (proj2 json_str_unwraps_fence))
           "Here is the update: " " {} " " Done." eq_refl eq_refl eq_refl).
Defined.

(** ** The selection of rules by id *)

Section Selection.

Import PlaybookManager.

Lemma latest_active_id id rs :
  active_id rs id = match latest_active id None rs with Some _ => true | None => false end.
Proof.
  unfold active_id.
  destruct (latest_active id None rs) as [r|] eqn:E.
  - destruct (latest_active_some _ _ _ E) as (Hin & Ha & Hid).
    apply existsb_exists. exists r. split; [assumption|].
    rewrite Ha, Hid, String.eqb_refl. reflexivity.
  - destruct (existsb _ rs) eqn:Ex; [|reflexivity]. exfalso.
    apply existsb_exists in Ex as (r & Hin & Hr).
    apply andb_true_iff in Hr as [Ha Hid]. apply String.eqb_eq in Hid.
    exact (latest_active_none _ _ E r Hin Ha Hid).
Qed.

(** What an id selects in the dict of the active rules. *)
Lemma selected_spec d t id :
  match index_active trust t (index_active detection d ∅) !! id with
  | Some rule => rule_id rule = id /\ active rule = true /\ active_id (d ++ t) id = true
  | None => active_id (d ++ t) id = false
  end.
Proof.
  rewrite !index_active_lookup, lookup_empty.
  unfold active_id at 1 2. rewrite existsb_app.
  fold (active_id d id). fold (active_id t id). rewrite !latest_active_id.
  destruct (latest_active id None t) as [r|] eqn:Et.
  - destruct (latest_active_some _ _ _ Et) as (_ & Ha & Hid).
    rewrite orb_true_r. destruct r. auto.
  - destruct (latest_active id None d) as [r|] eqn:Ed; [|reflexivity].
    destruct (latest_active_some _ _ _ Ed) as (_ & Ha & Hid). destruct r. auto.
Qed.

Lemma omap_selected d t rule_ids :
  let selected :=
    omap (fun id => index_active trust t (index_active detection d ∅) !! id) rule_ids in
  List.map rule_id selected = List.filter (active_id (d ++ t)) rule_ids /\
  Forall (fun rule => active rule = true) selected.
Proof.
  cbv zeta. induction rule_ids as [|id ids [IH1 IH2]]; [split; [reflexivity|constructor]|].
  cbn [omap list_omap List.filter].
  pose proof (selected_spec d t id) as H.
  destruct (index_active trust t (index_active detection d ∅) !! id) as [r|].
  - destruct H as (Hid & Ha & ->). cbn [List.map]. rewrite Hid.
    split; [f_equal; exact IH1|constructor; assumption].
  - rewrite H. split; assumption.
Qed.

End Selection.

(** X23. [get_rules_by_ids] answers in the order of the request. The rules it
    selects are active, and their ids are the requested ids that an active
    rule of either memory carries, in the order of the request and as often as
    they were requested; an id that no active rule carries is left out without
    a word. Only a request of which no id is known is answered "not found",
    and only an empty request "no rules selected". *)
Theorem get_rules_by_ids_follows_request rule_ids w d t :
  PlaybookManager.load_memory detection w = (Ok d, w) ->
  PlaybookManager.load_memory trust w = (Ok t, w) ->
  let known := List.filter (active_id (rules d ++ rules t)) rule_ids in
  match fst (PlaybookManager.get_rules_by_ids rule_ids w) with
  | Ok PlaybookManager.NoRulesSelected => rule_ids = []
  | Ok (PlaybookManager.NotFoundInActive ids) =>
      ids = rule_ids /\ rule_ids <> [] /\ known = []
  | Ok (PlaybookManager.SelectedRules selected_rules) =>
      List.map rule_id selected_rules = known /\ known <> [] /\
      Forall (fun rule => active rule = true) selected_rules
  | Raise _ => False
  end.
Proof.
  intros Hd Ht. cbv zeta. rewrite (get_rules_by_ids_spec rule_ids w d t Hd Ht). cbn [fst].
  destruct rule_ids as [|id ids]; [reflexivity|].
  destruct (omap_selected (rules d) (rules t) (id :: ids)) as [H1 H2]. cbv zeta in H1, H2.
  destruct (omap _ (id :: ids)) as [|r rs].
  - split; [reflexivity|]. split; [discriminate|]. rewrite <- H1. reflexivity.
  - split; [exact H1|]. split; [rewrite <- H1; discriminate|exact H2].
Qed.

(** The statement above in [world_both], for a request that names one id
    twice and one id that no rule carries. *)
Lemma get_rules_by_ids_follows_request_witness :
  exists selected_rules,
    fst (PlaybookManager.get_rules_by_ids
           ["shr-00001"; "shr-99999"; "shr-00002"; "shr-00001"] world_both)
      = Ok (PlaybookManager.SelectedRules selected_rules) /\
    List.map rule_id selected_rules = ["shr-00001"; "shr-00002"; "shr-00001"].
Proof.
  pose proof (get_rules_by_ids_follows_request
                ["shr-00001"; "shr-99999"; "shr-00002"; "shr-00001"] world_both
                (mkPlaybook "v1.2" [rule_a; rule_b] noon 2)
                (mkPlaybook "v1.1" [rule_b_trusted] noon 1) eq_refl eq_refl) as H.
  cbv zeta in H.
  destruct (fst (PlaybookManager.get_rules_by_ids _ world_both)) as [[| |sel]|e];
    try discriminate H; try (destruct H as (_ & _ & H); discriminate H); [|destruct H].
  exists sel. split; [reflexivity|exact (proj1 H)].
Defined.

(** ** What no request does, and what a load needs *)

Section AppendOnly.

Import PlaybookManager.

Lemma update_first_at target items rs rs' :
  update_first target items rs = Ok rs' ->
  length rs' = length rs.
Proof.
  revert rs'. induction rs as [|rule rs IH]; cbn [update_first]; intros rs'.
  - intros [= <-]. reflexivity.
  - destruct (decide (Some (rule_id rule) = target)).
    + destruct items; [|discriminate]. intros [= <-]. reflexivity.
    + destruct (update_first target items rs) as [rs0|e]; [|discriminate].
      cbn [exc_bind]. intros [= <-]. cbn [length]. rewrite (IH _ eq_refl). reflexivity.
Qed.

Lemma deprecate_first_at target rs i r :
  rs !! i = Some r ->
  exists r', deprecate_first target rs !! i = Some r' /\ rule_id r' = rule_id r /\
             (active r = false -> active r' = false).
Proof.
  revert i. induction rs as [|rule rs IH]; intros i; [discriminate|].
  cbn [deprecate_first].
  destruct (decide (Some (rule_id rule) = target)).
  - destruct i as [|i]; cbn.
    + intros [= <-]. eexists. split; [reflexivity|]. destruct rule. auto.
    + intros H. eauto.
  - destruct i as [|i]; cbn.
    + intros [= <-]. eauto.
    + apply IH.
Qed.

Lemma deprecate_first_length target rs : length (deprecate_first target rs) = length rs.
Proof.
  induction rs as [|rule rs IH]; cbn [deprecate_first]; [reflexivity|].
  destruct (decide (Some (rule_id rule) = target)); cbn [length]; [|rewrite IH]; reflexivity.
Qed.

Lemma validate_rules_raise data r e :
  In r data -> Rule_validate r = Raise e -> exists e', validate_rules data = Raise e'.
Proof.
  induction data as [|x data IH]; intros Hin He; [destruct Hin|].
  cbn [validate_rules]. destruct Hin as [->|Hin].
  - rewrite He. destruct e; eauto.
    destruct (validate_rules data) as [|[]]; eauto.
  - destruct (IH Hin He) as [e' He'].
    destruct (Rule_validate x) as [x'|[]]; rewrite ?He'; cbn [exc_bind]; eauto.
    destruct e'; eauto.
Qed.

End AppendOnly.

(** X24. No request removes a rule. After a request that returns, the memory
    has one rule more when the action is [add_rule] or [refine_rule] and as
    many as before for every other action. Unless the action is
    [update_rule], every rule is still at its position under its id, and a
    rule that was deprecated is still deprecated: only an [update_rule] that
    assigns [active] can bring a rule back. *)
Theorem rules_are_never_removed delta w p' w' :
  PlaybookManager.apply_delta_update delta w = (Ok p', w') ->
  exists old p,
    PlaybookManager.memory_file (target_of delta) w = Some old /\
    Playbook_validate old = Ok p /\
    length (rules p') =
      (length (rules p) + (if appends (DeltaUpdate.action delta) then 1 else 0))%nat /\
    (DeltaUpdate.action delta <> update_rule ->
     forall i r, rules p !! i = Some r ->
       exists r', rules p' !! i = Some r' /\ rule_id r' = rule_id r /\
                  (active r = false -> active r' = false)).
Proof.
  intros H.
  destruct (apply_ok _ _ _ _ H)
    as (old & p & Hf & Hp & [(Ha & -> & ->)|(Ha & rs & v' & Hm & Hn & -> & ->)]);
    exists old, p; (split; [assumption|]); (split; [assumption|]).
  - rewrite Ha. cbn [appends rules Playbook_set_total_cases_processed]. split; [lia|].
    intros _ i r Hr. eauto.
  - cbn [rules updated]. unfold mutated_rules in Hm.
    destruct (DeltaUpdate.action delta) eqn:Eact; cbn [appends]; try congruence.
    + destruct (DeltaUpdate.new_rule delta) as [rule|]; [|discriminate].
      injection Hm as <-. rewrite length_app. cbn [length]. split; [reflexivity|].
      intros _ i r Hr. exists r. split; [|auto].
      apply lookup_app_l_Some. assumption.
    + split; [rewrite (update_first_at _ _ _ _ Hm); lia|]. congruence.
    + injection Hm as <-. rewrite deprecate_first_length. split; [lia|].
      intros _ i r Hr. apply deprecate_first_at. assumption.
    + destruct (DeltaUpdate.new_rule delta) as [rule|]; [|discriminate].
      injection Hm as <-. rewrite length_app. cbn [length]. split; [reflexivity|].
      intros _ i r Hr. exists r. split; [|auto].
      apply lookup_app_l_Some. assumption.
Qed.

(** The statement above for the deprecation of "shr-00002" in [world_both]. *)
Lemma rules_are_never_removed_witness :
  exists p' w',
    PlaybookManager.apply_delta_update deprecate_b world_both = (Ok p', w') /\
    length (rules p') = 2%nat.
Proof.
  destruct (rules_are_never_removed deprecate_b world_both
              (mkPlaybook "v1.3" [rule_a; Rule_set_active false rule_b] noon 3)
              (snd (PlaybookManager.apply_delta_update deprecate_b world_both)) eq_refl)
    as (old & p & Hf & Hp & Hl & _).
  exists (mkPlaybook "v1.3" [rule_a; Rule_set_active false rule_b] noon 3),
    (snd (PlaybookManager.apply_delta_update deprecate_b world_both)).
  split; [reflexivity|].
  injection Hf as <-. injection Hp as <-. exact Hl.
Defined.



(** X26. One rule the constructor refuses makes its whole memory unreadable.
    When any rule of a memory file makes the [Rule] constructor raise, the
    load of that memory raises, every update request for that memory raises
    and writes nothing, and the views that read both memories
    ([get_rules_brief_summary], [get_status], [load_playbook]) raise as
    well. *)
Theorem one_bad_rule_blocks_the_memory m w data r e :
  PlaybookManager.memory_file m w = Some data ->
  In r (rules data) ->
  Rule_validate r = Raise e ->
  (exists e', PlaybookManager.load_memory m w = (Raise e', w)) /\
  (forall delta, target_of delta = m ->
     exists e', PlaybookManager.apply_delta_update delta w = (Raise e', w)) /\
  (exists e', PlaybookManager.get_rules_brief_summary w = (Raise e', w)) /\
  (exists e', PlaybookService.get_status w = (Raise e', w)) /\
  (exists e', PlaybookManager.load_playbook w = (Raise e', w)).
Proof.
  intros Hf Hin He.
  destruct (validate_rules_raise _ _ _ Hin He) as [e' He'].
  assert (Hl : PlaybookManager.load_memory m w = (Raise e', w)).
  { rewrite load_memory_spec, Hf. unfold Playbook_validate. rewrite He'. reflexivity. }
  split; [eauto|]. split.
  { intros delta <-. pose proof (apply_delta_update_spec delta w) as H. cbv zeta in H.
    rewrite Hl in H. eauto. }
  assert (Hboth : forall A (k : Playbook -> Playbook -> M A),
            exists e0, bind PlaybookManager.load_detection_memory
                         (fun d => bind PlaybookManager.load_trust_memory (k d)) w
                       = (Raise e0, w)).
  { intros A k. unfold bind, PlaybookManager.load_detection_memory,
      PlaybookManager.load_trust_memory.
    destruct m.
    - rewrite Hl. eauto.
    - destruct (PlaybookManager.load_memory detection w) as [[d|e0] w0] eqn:Ed;
        pose proof (load_memory_world _ _ _ _ Ed) as ->; [rewrite Hl|]; eauto. }
  split; [|split].
  - exact (Hboth _ _).
  - exact (Hboth _ _).
  - exact (Hboth _ _).
Qed.

(** The statement above for a detection memory with a NaN for a
    confidence. *)
Lemma one_bad_rule_blocks_the_memory_witness :
  let bad := Rule_set_confidence (PFloat S754_nan) rule_a in
  let w := mkWorld (Some (mkPlaybook "v1.0" [bad] noon 0)) (Some playbook_0) ∅ clock0 0 in
  exists e', PlaybookManager.apply_delta_update (nothing_to_do None) w = (Raise e', w).
Proof.
  cbv zeta.
  exact (proj1 (proj2 (one_bad_rule_blocks_the_memory detection
                         (mkWorld (Some (mkPlaybook "v1.0"
                                           [Rule_set_confidence (PFloat S754_nan) rule_a]
                                           noon 0))
                            (Some playbook_0) ∅ clock0 0)
                         (mkPlaybook "v1.0" [Rule_set_confidence (PFloat S754_nan) rule_a]
                            noon 0)
                         (Rule_set_confidence (PFloat S754_nan) rule_a) ValidationError
                         eq_refl (or_introl eq_refl) eq_refl))
           (nothing_to_do None) eq_refl).
Defined.
